(** * CrossOver: a shallow embedding of [ma_gym/envs/crossover/crossover_new.py]

    The environment object is a record of its attributes; every method is a
    computation in a state-and-exception monad over that record.  A raised
    Python exception leaves the attributes as they were at the [raise]:
    nothing is rolled back, so the state is returned next to the outcome. *)

From Stdlib Require Import ZArith Lia.
From stdpp Require Import base tactics option list numbers.

Module CrossOver.

(** ** Values *)

(** The exceptions the methods can raise.  [ActionNotFound] stands for
    [Exception('Action Not found!')]. *)
Inductive exn :=
  | IndexError
  | KeyError
  | TypeError
  | AttributeError
  | ZeroDivisionError
  | ActionNotFound.

Inductive outcome (A : Type) :=
  | Ret (a : A)
  | Raise (x : exn).
Arguments Ret {A} a.
Arguments Raise {A} x.

(** A position is the two-element list [[row, col]]. *)
Definition pos := (Z * Z)%type.

Definition pos_eqb (p q : pos) : bool :=
  (p.1 =? q.1)%Z && (p.2 =? q.2)%Z.

(** A Python [dict] from agent ids to positions, in insertion order. *)
Abbreviation dict := (list (nat * pos)).

Fixpoint dict_get (k : nat) (d : dict) : option pos :=
  match d with
  | [] => None
  | (k', v) :: d' => if Nat.eqb k k' then Some v else dict_get k d'
  end.

(** [d[k] = v]: an existing key keeps its place, a new key goes last. *)
Fixpoint dict_set (k : nat) (v : pos) (d : dict) : dict :=
  match d with
  | [] => [(k, v)]
  | (k', v') :: d' =>
      if Nat.eqb k k' then (k, v) :: d' else (k', v') :: dict_set k v d'
  end.

(** A two-dimensional numpy array, row by row.  The cells hold the floats
    -1.0, 0.0, 1.0, ..., which are exact, so they are integers here. *)
Abbreviation ndarray := (list (list Z)).

(** numpy's index rule on an axis of size [n]: [0 <= i < n] is itself,
    [-n <= i < 0] counts from the end, anything else is an IndexError. *)
Definition np_index (n : nat) (i : Z) : option nat :=
  if decide (0 ≤ i < Z.of_nat n)%Z then Some (Z.to_nat i)
  else if decide (- Z.of_nat n ≤ i < 0)%Z then Some (Z.to_nat (i + Z.of_nat n))
  else None.

(** [a[r, c]] *)
Definition nd_get (a : ndarray) (p : pos) : option Z :=
  r ← np_index (length a) p.1;
  row ← a !! r;
  c ← np_index (length row) p.2;
  row !! c.

(** [a[r, c] = v] *)
Definition nd_set (a : ndarray) (p : pos) (v : Z) : option ndarray :=
  r ← np_index (length a) p.1;
  row ← a !! r;
  c ← np_index (length row) p.2;
  Some (<[r := <[c := v]> row]> a).

(** [a[r, :] = v] *)
Definition nd_set_row (a : ndarray) (r : Z) (v : Z) : option ndarray :=
  r' ← np_index (length a) r;
  row ← a !! r';
  Some (<[r' := replicate (length row) v]> a).

(** [row[c] = v] for every [c] of the index list [cs]. *)
Fixpoint row_set_all (row : list Z) (cs : list Z) (v : Z) : option (list Z) :=
  match cs with
  | [] => Some row
  | c :: cs' =>
      c' ← np_index (length row) c;
      row_set_all (<[c' := v]> row) cs' v
  end.

(** [a[:, cs] = v] *)
Definition nd_set_cols (a : ndarray) (cs : list Z) (v : Z) : option ndarray :=
  mapM (λ row, row_set_all row cs v) a.

(** Modelled from the spec: [MultiAgentActionSpace], of
    [utils/action_space.py], is the list of the agents' action spaces it is
    built from; [Discrete n] is [spaces.Discrete(n)]. *)
Inductive space := Discrete (n : nat).

(** A quotient [num / den] of Python's true division, kept exact. *)
Record quot := Quot { num : Z; den : Z }.

(** The colour table at the end of the module. *)
Inductive colour := red | blue.

Definition AGENT_COLORS : list (nat * colour) := [(0, red); (1, blue)].

Fixpoint colour_get (k : nat) (d : list (nat * colour)) : option colour :=
  match d with
  | [] => None
  | (k', v) :: d' => if Nat.eqb k k' then Some v else colour_get k d'
  end.

(** ** The object *)

Record env := Env {
  obs_size : Z;
  _grid_shape : nat * nat;
  n_agents : nat;
  _max_steps : Z;
  _step_count : option Z;            (* [None] until [reset] *)
  _step_cost : Z;
  action_space : list space;
  init_agent_pos : dict;
  final_agent_pos : dict;
  _base_grid : ndarray;
  _full_obs : ndarray;
  agent_pos : dict;
  _agent_dones : option (list bool); (* the attribute does not exist until [reset] *)
  full_observable : bool
}.

Definition set_step_count (v : option Z) (e : env) : env :=
  Env (obs_size e) (_grid_shape e) (n_agents e) (_max_steps e) v
      (_step_cost e) (action_space e) (init_agent_pos e) (final_agent_pos e)
      (_base_grid e) (_full_obs e) (agent_pos e) (_agent_dones e)
      (full_observable e).

Definition set_base_grid (v : ndarray) (e : env) : env :=
  Env (obs_size e) (_grid_shape e) (n_agents e) (_max_steps e) (_step_count e)
      (_step_cost e) (action_space e) (init_agent_pos e) (final_agent_pos e)
      v (_full_obs e) (agent_pos e) (_agent_dones e) (full_observable e).

Definition set_full_obs (v : ndarray) (e : env) : env :=
  Env (obs_size e) (_grid_shape e) (n_agents e) (_max_steps e) (_step_count e)
      (_step_cost e) (action_space e) (init_agent_pos e) (final_agent_pos e)
      (_base_grid e) v (agent_pos e) (_agent_dones e) (full_observable e).

Definition set_agent_pos (v : dict) (e : env) : env :=
  Env (obs_size e) (_grid_shape e) (n_agents e) (_max_steps e) (_step_count e)
      (_step_cost e) (action_space e) (init_agent_pos e) (final_agent_pos e)
      (_base_grid e) (_full_obs e) v (_agent_dones e) (full_observable e).

Definition set_agent_dones (v : option (list bool)) (e : env) : env :=
  Env (obs_size e) (_grid_shape e) (n_agents e) (_max_steps e) (_step_count e)
      (_step_cost e) (action_space e) (init_agent_pos e) (final_agent_pos e)
      (_base_grid e) (_full_obs e) (agent_pos e) v (full_observable e).

Definition set_full_observable (v : bool) (e : env) : env :=
  Env (obs_size e) (_grid_shape e) (n_agents e) (_max_steps e) (_step_count e)
      (_step_cost e) (action_space e) (init_agent_pos e) (final_agent_pos e)
      (_base_grid e) (_full_obs e) (agent_pos e) (_agent_dones e) v.

(** ** The monad of methods *)

Definition M (A : Type) : Type := env → outcome A * env.

#[global] Instance M_ret : MRet M := λ A a e, (Ret a, e).

#[global] Instance M_bind : MBind M := λ A B f m e,
  match m e with
  | (Ret a, e') => f a e'
  | (Raise x, e') => (Raise x, e')
  end.

Definition raise {A} (x : exn) : M A := λ e, (Raise x, e).
Definition gets {A} (f : env → A) : M A := λ e, (Ret (f e), e).
Definition modify (f : env → env) : M unit := λ e, (Ret tt, f e).

(** A lookup that raises [x] when it fails. *)
Definition orraise {A} (x : exn) (o : option A) : M A :=
  match o with
  | Some a => mret a
  | None => raise x
  end.

(** [for x in xs: body x] *)
Fixpoint for_each {A} (xs : list A) (body : A → M unit) : M unit :=
  match xs with
  | [] => mret tt
  | x :: xs' => body x ;; for_each xs' body
  end.

(** [for i, x in enumerate(xs)] with a local variable [acc] carried along;
    [i] counts from [start]. *)
Fixpoint for_enumerate {A B} (start : nat) (xs : list A)
    (body : nat → A → B → M B) (acc : B) : M B :=
  match xs with
  | [] => mret acc
  | x :: xs' => acc' ← body start x acc; for_enumerate (S start) xs' body acc'
  end.

(** [[f x for x in xs]], also the shape of a loop that appends to a list. *)
Fixpoint collect {A B} (xs : list A) (f : A → M B) : M (list B) :=
  match xs with
  | [] => mret []
  | x :: xs' => y ← f x; ys ← collect xs' f; mret (y :: ys)
  end.

(** [a / b] *)
Definition true_div (a b : Z) : M quot :=
  if decide (b = 0%Z) then raise ZeroDivisionError else mret (Quot a b).

(** ** The methods *)

(** [__create_grid]: all cells are walls (-1), then the middle row and the
    two outermost columns on each side are set to 0. *)
Definition __create_grid : M ndarray :=
  shape ← gets _grid_shape;
  let _grid := replicate shape.1 (replicate shape.2 (-1)%Z) in
  _grid ← orraise IndexError (nd_set_row _grid (Z.of_nat (shape.1 `div` 2)) 0);
  _grid ← orraise IndexError (nd_set_cols _grid [0; 1]%Z 0);
  _grid ← orraise IndexError (nd_set_cols _grid [-1; -2]%Z 0);
  mret _grid.

(** [__wall_exists] *)
Definition __wall_exists (p : pos) : M bool :=
  g ← gets _base_grid;
  v ← orraise IndexError (nd_get g p);
  mret (v =? -1)%Z.

(** [__update_agent_view]: the agent's cell of the live grid gets its code
    [agent_i + 1]. *)
Definition __update_agent_view (agent_i : nat) : M unit :=
  d ← gets agent_pos;
  p ← orraise KeyError (dict_get agent_i d);
  g ← gets _full_obs;
  g' ← orraise IndexError (nd_set g p (Z.of_nat agent_i + 1));
  modify (set_full_obs g').

(** Modelled from the spec: the drawing functions of [utils/draw.py]
    ([draw_grid], [fill_cell], [draw_cell_outline]) are collaborators that
    return and touch no attribute but the image, which is not kept.  What
    remains of [__draw_base_img] is what it reads: the base grid at every
    cell, and the colour of every agent of the goal table. *)
Definition __draw_base_img : M unit :=
  shape ← gets _grid_shape;
  for_each (seq 0 shape.1) (λ row,
    for_each (seq 0 shape.2) (λ col,
      _ ← __wall_exists (Z.of_nat row, Z.of_nat col); mret tt)) ;;
  fin ← gets final_agent_pos;
  for_each fin (λ item,
    _ ← orraise KeyError (colour_get item.1 AGENT_COLORS); mret tt).

(** [__init_full_obs].  [copy.copy] shares the position lists with the
    initial table, but no method ever changes a position list in place. *)
Definition __init_full_obs : M unit :=
  d ← gets init_agent_pos;
  modify (set_agent_pos d) ;;
  g ← __create_grid;
  modify (set_full_obs g) ;;
  d ← gets agent_pos;
  for_each d (λ item, __update_agent_view item.1) ;;
  __draw_base_img.

(** [get_agent_obs] *)
Definition get_agent_obs : M (list (list quot)) :=
  n ← gets n_agents;
  _obs ← collect (seq 0 n) (λ agent_i,
    d ← gets agent_pos;
    p ← orraise KeyError (dict_get agent_i d);
    shape ← gets _grid_shape;
    o1 ← true_div (p.1 + 1) (Z.of_nat shape.1);
    o2 ← true_div (p.2 + 1) (Z.of_nat shape.2);
    c ← gets _step_count;
    c ← orraise TypeError c;
    mx ← gets _max_steps;
    o3 ← true_div c mx;
    mret [o1; o2; o3]);
  fo ← gets full_observable;
  if fo : bool then mret (replicate n (concat _obs)) else mret _obs.

(** [reset] *)
Definition reset : M (list (list quot)) :=
  __init_full_obs ;;
  modify (set_step_count (Some 0%Z)) ;;
  n ← gets n_agents;
  modify (set_agent_dones (Some (replicate n false))) ;;
  get_agent_obs.

(** [_is_cell_vacant]: [and] does not look at the grid when the position is
    out of bounds. *)
Definition _is_cell_vacant (p : pos) : M bool :=
  shape ← gets _grid_shape;
  let is_valid :=
    bool_decide (0 ≤ p.1 < Z.of_nat shape.1)%Z
    && bool_decide (0 ≤ p.2 < Z.of_nat shape.2)%Z in
  if is_valid then
    g ← gets _full_obs;
    v ← orraise IndexError (nd_get g p);
    mret (v =? 0)%Z
  else mret false.

(** The [if]/[elif] chain of [__update_agent_pos]: the candidate next
    position, [None] for no-op, an exception for an unknown move. *)
Definition next_pos_of (curr_pos : pos) (move : Z) : M (option pos) :=
  if decide (move = 0)%Z then mret (Some (curr_pos.1 + 1, curr_pos.2)%Z)
  else if decide (move = 1)%Z then mret (Some (curr_pos.1, curr_pos.2 - 1)%Z)
  else if decide (move = 2)%Z then mret (Some (curr_pos.1 - 1, curr_pos.2)%Z)
  else if decide (move = 3)%Z then mret (Some (curr_pos.1, curr_pos.2 + 1)%Z)
  else if decide (move = 4)%Z then mret None
  else raise ActionNotFound.

(** The three statements [__update_agent_pos] runs when the candidate cell
    is vacant: store the new position, free the old cell, mark the new one. *)
Definition commit_move (agent_i : nat) (curr_pos next_pos : pos) : M unit :=
  d ← gets agent_pos;
  modify (set_agent_pos (dict_set agent_i next_pos d)) ;;
  g ← gets _full_obs;
  g' ← orraise IndexError (nd_set g curr_pos 0);
  modify (set_full_obs g') ;;
  __update_agent_view agent_i.

(** [__update_agent_pos] *)
Definition __update_agent_pos (agent_i : nat) (move : Z) : M unit :=
  d ← gets agent_pos;
  curr_pos ← orraise KeyError (dict_get agent_i d);
  next_pos ← next_pos_of curr_pos move;
  match next_pos with
  | Some next_pos =>
      vacant ← _is_cell_vacant next_pos;
      if vacant : bool then commit_move agent_i curr_pos next_pos
      else mret tt
  | None => mret tt
  end.

(** [__is_agent_done] *)
Definition __is_agent_done (agent_i : nat) : M bool :=
  d ← gets agent_pos;
  p ← orraise KeyError (dict_get agent_i d);
  fin ← gets final_agent_pos;
  q ← orraise KeyError (dict_get agent_i fin);
  mret (pos_eqb p q).

(** [self._agent_dones[i]] *)
Definition get_done (i : nat) : M bool :=
  ds ← gets _agent_dones;
  ds ← orraise AttributeError ds;
  orraise IndexError (ds !! i).

(** [self._agent_dones[i] = b] *)
Definition set_done (i : nat) (b : bool) : M unit :=
  ds ← gets _agent_dones;
  ds ← orraise AttributeError ds;
  if decide (i < length ds) then modify (set_agent_dones (Some (<[i := b]> ds)))
  else raise IndexError.

(** The body of the loop of [step] for one agent and its action; [rewards]
    is the local list. *)
Definition step_body (agent_i : nat) (action : Z) (rewards : list Z)
    : M (list Z) :=
  done ← get_done agent_i;
  if done : bool then mret rewards
  else
    __update_agent_pos agent_i action ;;
    b ← __is_agent_done agent_i;
    set_done agent_i b ;;
    done ← get_done agent_i;
    if done : bool then
      if decide (agent_i < length rewards) then mret (<[agent_i := 5%Z]> rewards)
      else raise IndexError
    else mret rewards.

(** What [step] returns: observations, rewards, done flags (the info
    dictionary is always empty).  The done list is the attribute itself,
    not a copy. *)
Definition step_result := (list (list quot) * list Z * list bool)%type.

(** [step] *)
Definition step (agents_action : list Z) : M step_result :=
  c ← gets _step_count;
  c ← orraise TypeError c;
  modify (set_step_count (Some (c + 1)%Z)) ;;
  n ← gets n_agents;
  cost ← gets _step_cost;
  rewards ← for_enumerate 0 agents_action step_body (replicate n cost);
  c ← gets _step_count;
  c ← orraise TypeError c;
  mx ← gets _max_steps;
  (if decide (mx ≤ c)%Z then
     n ← gets n_agents;
     for_each (seq 0 n) (λ i, set_done i true)
   else mret tt) ;;
  obs ← get_agent_obs;
  ds ← gets _agent_dones;
  ds ← orraise AttributeError ds;
  mret (obs, rewards, ds).

(** The attributes [__init__] assigns before it builds the grids. *)
Definition init_attrs (step_cost : Z) (e : env) : env :=
  let shape := (2, 8) in
  let cols := Z.of_nat shape.2 in
  Env 1 shape 4 100 None step_cost
      ((λ _, Discrete 5) <$> seq 0 2)
      [(0, (0, 1)%Z); (1, (2, 1)%Z); (2, (0, cols - 2)%Z); (3, (2, cols - 2)%Z)]
      [(0, (0, cols - 1)%Z); (1, (2, cols - 1)%Z); (2, (0, 0)%Z); (3, (2, 0)%Z)]
      (_base_grid e) (_full_obs e) (agent_pos e) (_agent_dones e)
      (full_observable e).

(** [__init__] *)
Definition __init__ (full_observable : bool) (step_cost : Z) : M unit :=
  modify (init_attrs step_cost) ;;
  g ← __create_grid;
  modify (set_base_grid g) ;;
  g ← __create_grid;
  modify (set_full_obs g) ;;
  __init_full_obs ;;
  modify (set_full_observable full_observable).

(** An object before [__init__] has run: no attribute has a value yet. *)
Definition blank : env :=
  Env 0 (0, 0) 0 0 None 0 [] [] [] [] [] [] None false.

(** [CrossOver(full_observable, step_cost)] *)
Definition construct (full_observable : bool) (step_cost : Z)
    : outcome unit * env :=
  __init__ full_observable step_cost blank.

(** A sequence of [step] calls, one action list each.  Each result is
    recorded as it is when its call returns; the done list in it is the
    attribute itself, which later calls go on changing. *)
Fixpoint run (actions : list (list Z)) : M (list step_result) :=
  match actions with
  | [] => mret []
  | a :: rest => r ← step a; rs ← run rest; mret (r :: rs)
  end.

(** * The states of an episode *)

(** ** Reading the state *)

Definition in_bounds (shape : nat * nat) (p : pos) : Prop :=
  (0 ≤ p.1 < Z.of_nat shape.1)%Z ∧ (0 ≤ p.2 < Z.of_nat shape.2)%Z.

(** The array has the shape the object believes it has. *)
Definition rect (shape : nat * nat) (g : ndarray) : Prop :=
  length g = shape.1 ∧ Forall (λ row, length row = shape.2) g.

(** [self._agent_dones[i]], [None] where Python raises. *)
Definition done_at (i : nat) (e : env) : option bool :=
  ds ← _agent_dones e; ds !! i.

(** [self.agent_pos[i]] *)
Definition pos_at (i : nat) (e : env) : option pos := dict_get i (agent_pos e).

(** [self.final_agent_pos[i]] *)
Definition goal_at (i : nat) (e : env) : option pos :=
  dict_get i (final_agent_pos e).

(** The attributes no method assigns after [__init__]. *)
Definition static (e : env) :=
  (obs_size e, _grid_shape e, n_agents e, _max_steps e, _step_cost e,
   action_space e, init_agent_pos e, final_agent_pos e, _base_grid e,
   full_observable e).

(** ** Well-formed states *)

(** The state of a running episode: counters set, one done flag per agent,
    and the live grid and the position table agree: every agent stands
    in bounds on the cell that carries its code, and every cell carries a
    wall, nothing, or the code of the agent standing on it. *)
Record wf (e : env) : Prop := {
  wf_count : is_Some (_step_count e);
  wf_max : _max_steps e ≠ 0%Z;
  wf_dones : ∃ ds, _agent_dones e = Some ds ∧ length ds = n_agents e;
  wf_grid : rect (_grid_shape e) (_full_obs e);
  wf_goal : ∀ i, i < n_agents e → is_Some (goal_at i e);
  wf_pos : ∀ i, i < n_agents e →
    ∃ p, pos_at i e = Some p ∧ in_bounds (_grid_shape e) p
         ∧ nd_get (_full_obs e) p = Some (Z.of_nat i + 1)%Z;
  wf_cells : ∀ q v, in_bounds (_grid_shape e) q →
    nd_get (_full_obs e) q = Some v →
    v = (-1)%Z ∨ v = 0%Z
    ∨ ∃ i, i < n_agents e ∧ v = (Z.of_nat i + 1)%Z ∧ pos_at i e = Some q
}.

(** ** Moves *)

(** An action code of the table [ACTION_MEANING]. *)
Definition valid_action (a : Z) : Prop := (0 ≤ a ≤ 4)%Z.

(** [q] is the cell next to [p] in the direction of the move [a]:
    0 down, 1 left, 2 up, 3 right. *)
Definition neighbour (a : Z) (p q : pos) : Prop :=
  (a = 0%Z ∧ q = (p.1 + 1, p.2)%Z) ∨ (a = 1%Z ∧ q = (p.1, p.2 - 1)%Z)
  ∨ (a = 2%Z ∧ q = (p.1 - 1, p.2)%Z) ∨ (a = 3%Z ∧ q = (p.1, p.2 + 1)%Z).

(** A cell an agent can enter: in bounds and 0 on the live grid. *)
Definition vacant (e : env) (q : pos) : Prop :=
  in_bounds (_grid_shape e) q ∧ nd_get (_full_obs e) q = Some 0%Z.

(** What the methods called by [step] leave alone in the state. *)
Definition same_episode (e e' : env) : Prop :=
  static e' = static e ∧ _step_count e' = _step_count e.

(** The live grid after agent [i] went from [p] to [q]. *)
Definition grid_moved (i : nat) (p q : pos) (e e' : env) : Prop :=
  ∀ c, in_bounds (_grid_shape e) c →
    nd_get (_full_obs e') c =
      if decide (c = q) then Some (Z.of_nat i + 1)%Z
      else if decide (c = p) then Some 0%Z
      else nd_get (_full_obs e) c.

(** ** Relations between the states before and after a method *)

(** Agent [i], asked to move by [a] from [p], is now at [p']: it stayed,
    the move being a no-op or its cell not vacant, or it went to the vacant
    neighbour. *)
Definition moved (i : nat) (a : Z) (p p' : pos) (e e' : env) : Prop :=
  (p' = p ∧ _full_obs e' = _full_obs e ∧ agent_pos e' = agent_pos e
   ∧ (a = 4%Z ∨ ∃ q, neighbour a p q ∧ ¬ vacant e q))
  ∨ (neighbour a p p' ∧ vacant e p' ∧ grid_moved i p p' e e').

(** What [__update_agent_pos i a] returns from [e]. *)
Definition upd_post (i : nat) (a : Z) (e e' : env) : Prop :=
  valid_action a ∧ wf e' ∧ same_episode e e'
  ∧ _agent_dones e' = _agent_dones e
  ∧ (∀ j, j ≠ i → pos_at j e' = pos_at j e)
  ∧ ∃ p p', pos_at i e = Some p ∧ pos_at i e' = Some p' ∧ moved i a p p' e e'.

(** What one round of the loop of [step] returns from [e] and [rw]: a done
    agent is skipped; another one is moved, its done flag is whether it
    stands on its goal, and its reward is 5 if so. *)
Definition body_post (i : nat) (a : Z) (rw : list Z) (e : env)
    (rw' : list Z) (e' : env) : Prop :=
  wf e' ∧ same_episode e e' ∧ length rw' = length rw
  ∧ (∀ j, j ≠ i → pos_at j e' = pos_at j e ∧ done_at j e' = done_at j e
                  ∧ rw' !! j = rw !! j)
  ∧ ((done_at i e = Some true ∧ e' = e ∧ rw' = rw)
     ∨ (done_at i e = Some false ∧ valid_action a
        ∧ ∃ p p' g, pos_at i e = Some p ∧ pos_at i e' = Some p'
            ∧ goal_at i e = Some g
            ∧ done_at i e' = Some (pos_eqb p' g)
            ∧ rw' = (if pos_eqb p' g then <[i := 5%Z]> rw else rw)
            ∧ moved i a p p' e e')).

(** How one round of the loop of [step] raises: an unknown action of an
    agent that is not done, with nothing changed. *)
Definition body_raised (i : nat) (a : Z) (e : env) (x : exn) (e' : env) : Prop :=
  x = ActionNotFound ∧ ¬ valid_action a ∧ e' = e ∧ done_at i e = Some false.

(** How [__update_agent_pos] raises. *)
Definition raised_unknown (a : Z) (e : env) (x : exn) (e' : env) : Prop :=
  x = ActionNotFound ∧ ¬ valid_action a ∧ e' = e.

(** The state after the truncation rule at the end of [step]. *)
Definition truncated (e : env) : env :=
  match _step_count e with
  | Some c =>
      if decide (_max_steps e ≤ c)%Z
      then set_agent_dones (Some (replicate (n_agents e) true)) e
      else e
  | None => e
  end.

(** The parts of what [step] returns. *)
Definition rewards_of (r : step_result) : list Z := r.1.2.
Definition dones_of (r : step_result) : list bool := r.2.

(** No wall of [e] has been entered in [e']. *)
Definition walls_kept (e e' : env) : Prop :=
  ∀ q, in_bounds (_grid_shape e) q →
    nd_get (_full_obs e) q = Some (-1)%Z → nd_get (_full_obs e') q = Some (-1)%Z.

(** What the loop of [step] over [acts] did with agent [i], from [e] to
    [e'], with [rw] the rewards and [fin] the agent's done flag after the
    loop. *)
Definition agent_round (acts : list Z) (i : nat) (e e' : env) (rw : list Z)
    (fin : bool) : Prop :=
  (* skipped: done already, or no action supplied *)
  ((done_at i e = Some true ∨ length acts ≤ i)
   ∧ pos_at i e' = pos_at i e ∧ rw !! i = Some (_step_cost e)
   ∧ done_at i e = Some fin)
  ∨ (* moved and checked against the goal *)
  (done_at i e = Some false
   ∧ ∃ a p p' g, acts !! i = Some a ∧ valid_action a
       ∧ pos_at i e = Some p ∧ pos_at i e' = Some p' ∧ goal_at i e = Some g
       ∧ (p' = p ∨ neighbour a p p' ∧ nd_get (_full_obs e) p' ≠ Some (-1)%Z)
       ∧ rw !! i = Some (if pos_eqb p' g then 5%Z else _step_cost e)
       ∧ fin = pos_eqb p' g).

(** What [step acts] returns from [e]: the counter is one more, the state
    is well formed, no wall was entered, nothing moved unless an agent did,
    and every agent had its round; a done flag is set by the round or by
    the truncation rule. *)
Definition step_post (acts : list Z) (e : env) (r : step_result) (e' : env)
    : Prop :=
  ∃ c, _step_count e = Some c ∧ _step_count e' = Some (c + 1)%Z
  ∧ wf e' ∧ static e' = static e
  ∧ _agent_dones e' = Some (dones_of r)
  ∧ length (dones_of r) = n_agents e ∧ length (rewards_of r) = n_agents e
  ∧ walls_kept e e'
  ∧ ((∀ i, i < n_agents e → pos_at i e' = pos_at i e) →
       _full_obs e' = _full_obs e ∧ agent_pos e' = agent_pos e)
  ∧ ∀ i, i < n_agents e →
      ∃ fin, agent_round acts i e e' (rewards_of r) fin
             ∧ dones_of r !! i
               = Some (fin || bool_decide (_max_steps e ≤ c + 1)%Z).

(** The invariant of the loop of [step] after [k] rounds. *)
Definition loop_inv (acts : list Z) (e : env) (k : nat) (rw : list Z)
    (e1 : env) : Prop :=
  (∀ i, k ≤ i → pos_at i e1 = pos_at i e ∧ done_at i e1 = done_at i e
                ∧ (i < n_agents e → rw !! i = Some (_step_cost e)))
  ∧ (∀ i, i < k →
       ∃ fin, agent_round acts i e e1 rw fin ∧ done_at i e1 = Some fin)
  ∧ walls_kept e e1
  ∧ ((∀ i, i < k → pos_at i e1 = pos_at i e) →
       _full_obs e1 = _full_obs e ∧ agent_pos e1 = agent_pos e).

(** ** Properties of states and of action lists *)

(** No two agents on one cell, and no cell with the code of an agent that
    stands elsewhere. *)
Definition occupancy_unique (e : env) : Prop :=
  (∀ i j p, i < n_agents e → j < n_agents e →
     pos_at i e = Some p → pos_at j e = Some p → i = j)
  ∧ (∀ q i, in_bounds (_grid_shape e) q →
       nd_get (_full_obs e) q = Some (Z.of_nat i + 1)%Z → pos_at i e = Some q).

(** An action list [step] accepts whatever the done flags are: no more
    actions than agents, all of them known. *)
Definition known_actions (e : env) (acts : list Z) : Prop :=
  length acts ≤ n_agents e ∧ Forall valid_action acts.

(** An agent that stands on its goal is done.  [reset] sets every flag to
    false, so this holds after [reset] when no agent starts on its goal. *)
Definition goal_implies_done (e : env) : Prop :=
  ∀ i p, i < n_agents e → pos_at i e = Some p → goal_at i e = Some p →
    done_at i e = Some true.

(** The state after the calls of [actions]. *)
Definition state_after (actions : list (list Z)) (e : env) : env :=
  (run actions e).2.

(** Call number [k] (from 0) of [actions] is the one in which agent [i]
    first stands on its goal: it does after that call, and did not at the
    start nor after any earlier call. *)
Definition first_on_goal (e : env) (actions : list (list Z)) (i k : nat)
    : Prop :=
  pos_at i (state_after (take (S k) actions) e) = goal_at i e
  ∧ ∀ j, j ≤ k → pos_at i (state_after (take j actions) e) ≠ goal_at i e.

(** The actions of the scenario: RIGHT for agent 0, NOOP for the others. *)
Definition right_noop : list Z := [3; 4; 4; 4]%Z.

(** The walls of the base grid are walls of the live grid. *)
Definition walls_agree (e : env) : Prop :=
  ∀ q, in_bounds (_grid_shape e) q →
    nd_get (_base_grid e) q = Some (-1)%Z → nd_get (_full_obs e) q = Some (-1)%Z.

(** Every agent stands in bounds on a cell that is no wall of the base
    grid. *)
Definition on_board (e : env) : Prop :=
  ∀ i p, i < n_agents e → pos_at i e = Some p →
    in_bounds (_grid_shape e) p ∧ nd_get (_base_grid e) p ≠ Some (-1)%Z.

(** What [reset] needs of the tables: the start table lists the agents
    0 .. n-1 in order, on pairwise distinct cells with no negative
    coordinate (numpy would read one as counted from the end), and every
    agent has a goal. *)
Definition tables_ok (e : env) : Prop :=
  (init_agent_pos e).*1 = seq 0 (n_agents e)
  ∧ NoDup (init_agent_pos e).*2
  ∧ Forall (λ p : pos, 0 ≤ p.1 ∧ 0 ≤ p.2)%Z (init_agent_pos e).*2
  ∧ (∀ i, i < n_agents e → is_Some (goal_at i e))
  ∧ _max_steps e ≠ 0%Z.

(** A grid of walls and free cells only. *)
Definition clean (g : ndarray) : Prop :=
  Forall (Forall (λ v, v = (-1)%Z ∨ v = 0%Z)) g.

(** ** A checker for well-formed states *)

#[global] Instance in_bounds_dec shape p : Decision (in_bounds shape p).
Proof. unfold in_bounds. apply _. Defined.

#[global] Instance rect_dec shape g : Decision (rect shape g).
Proof. unfold rect. apply _. Defined.

Definition agent_okb (e : env) (i : nat) : bool :=
  match goal_at i e, pos_at i e with
  | Some _, Some p =>
      bool_decide (in_bounds (_grid_shape e) p)
      && bool_decide (nd_get (_full_obs e) p = Some (Z.of_nat i + 1)%Z)
  | _, _ => false
  end.

Definition cell_okb (e : env) (r c : nat) : bool :=
  match nd_get (_full_obs e) (Z.of_nat r, Z.of_nat c) with
  | Some v =>
      bool_decide (v = -1)%Z || bool_decide (v = 0)%Z
      || (bool_decide (1 ≤ v ≤ Z.of_nat (n_agents e))%Z
          && bool_decide (pos_at (Z.to_nat (v - 1)) e
                          = Some (Z.of_nat r, Z.of_nat c)))
  | None => true
  end.

Definition wfb (e : env) : bool :=
  bool_decide (is_Some (_step_count e))
  && bool_decide (_max_steps e ≠ 0%Z)
  && match _agent_dones e with
     | Some ds => bool_decide (length ds = n_agents e)
     | None => false
     end
  && bool_decide (rect (_grid_shape e) (_full_obs e))
  && forallb (agent_okb e) (seq 0 (n_agents e))
  && forallb (λ r, forallb (cell_okb e r) (seq 0 (_grid_shape e).2))
             (seq 0 (_grid_shape e).1).

(** ** Sample states *)

(** States of a running episode with the attributes [__init__] assigns.
    Agents 1 and 3 stand on the road, row 1: their start cells of the
    table, in row 2, are not cells of the grid. *)

(** The grid [__create_grid] builds for the shape (2, 8). *)
Definition board : ndarray :=
  [[0; 0; -1; -1; -1; -1; 0; 0]; [0; 0; 0; 0; 0; 0; 0; 0]]%Z.

Definition episode (count cost : Z) (positions : dict) (live : ndarray)
    (dones : list bool) : env :=
  Env 1 (2, 8) 4 100 (Some count) cost [Discrete 5; Discrete 5]
    [(0, (0, 1)%Z); (1, (2, 1)%Z); (2, (0, 6)%Z); (3, (2, 6)%Z)]
    [(0, (0, 7)%Z); (1, (2, 7)%Z); (2, (0, 0)%Z); (3, (2, 0)%Z)]
    board live positions (Some dones) false.

(** The counter is 0, nobody is done, agents 0 and 2 are on their start
    cells. *)
Definition sample : env :=
  episode 0 0 [(0, (0, 1)%Z); (1, (1, 1)%Z); (2, (0, 6)%Z); (3, (1, 6)%Z)]
    [[0; 1; -1; -1; -1; -1; 3; 0]; [0; 2; 0; 0; 0; 0; 4; 0]]%Z
    [false; false; false; false].

(** Agent 0 stands on its goal and is done. *)
Definition arrived : env :=
  episode 9 0 [(0, (0, 7)%Z); (1, (1, 1)%Z); (2, (0, 6)%Z); (3, (1, 6)%Z)]
    [[0; 0; -1; -1; -1; -1; 3; 1]; [0; 2; 0; 0; 0; 0; 4; 0]]%Z
    [true; false; false; false].

(** Agents 0 and 2 are one move from their goals. *)
Definition near_goal : env :=
  episode 8 0 [(0, (0, 6)%Z); (1, (1, 1)%Z); (2, (0, 1)%Z); (3, (1, 6)%Z)]
    [[0; 3; -1; -1; -1; -1; 1; 0]; [0; 2; 0; 0; 0; 0; 4; 0]]%Z
    [false; false; false; false].

(** The step budget is used up: every agent is done. *)
Definition all_done : env :=
  episode 100 0 [(0, (0, 1)%Z); (1, (1, 1)%Z); (2, (0, 6)%Z); (3, (1, 6)%Z)]
    [[0; 1; -1; -1; -1; -1; 3; 0]; [0; 2; 0; 0; 0; 0; 4; 0]]%Z
    [true; true; true; true].

(** An object with three rows and the two agents the colour table knows,
    before [reset]. *)
Definition two_agents : env :=
  Env 1 (3, 8) 2 100 None 0 [Discrete 5; Discrete 5]
    [(0, (0, 1)%Z); (1, (2, 1)%Z)] [(0, (0, 7)%Z); (1, (2, 7)%Z)]
    [[0; 0; -1; -1; -1; -1; 0; 0]; [0; 0; 0; 0; 0; 0; 0; 0];
     [0; 0; -1; -1; -1; -1; 0; 0]]%Z
    [] [] None false.

(** Tactics for closed goals over the sample states. *)
Ltac calc :=
  first [reflexivity | cbv; first [reflexivity | lia | discriminate]].

Ltac four_agents i :=
  destruct i as [|[|[|[|i]]]]; [..|simpl in *; lia].

(** ** The layout of the grid *)

(** The cells [__create_grid] frees: the middle row and the two outermost
    columns on each side. *)
Definition free_cell (shape : nat * nat) (p : pos) : Prop :=
  p.1 = Z.of_nat (shape.1 `div` 2)
  ∨ (p.2 < 2)%Z ∨ (Z.of_nat shape.2 - 2 ≤ p.2)%Z.

#[global] Instance free_cell_dec shape p : Decision (free_cell shape p).
Proof. unfold free_cell. apply _. Defined.

(** Both column assignments of [__create_grid] on a row of at least two
    cells. *)
Definition free_borders (row : list Z) : list Z :=
  <[length row - 2 := 0%Z]> (<[length row - 1 := 0%Z]>
    (<[1 := 0%Z]> (<[0 := 0%Z]> row))).


(** The move that undoes [a]: up for down, right for left, and back. *)
Definition opposite (a : Z) : Z :=
  if decide (a = 0)%Z then 2%Z
  else if decide (a = 1)%Z then 3%Z
  else if decide (a = 2)%Z then 0%Z
  else if decide (a = 3)%Z then 1%Z
  else a.

(** ** Observations *)

(** The vector [get_agent_obs] builds for agent [i]: row and column, counted
    from 1, over the numbers of rows and columns, and the step count over
    the maximum. *)
Definition obs_row (e : env) (i : nat) : list quot :=
  match pos_at i e, _step_count e with
  | Some p, Some c =>
      [Quot (p.1 + 1) (Z.of_nat (_grid_shape e).1);
       Quot (p.2 + 1) (Z.of_nat (_grid_shape e).2);
       Quot c (_max_steps e)]
  | _, _ => []
  end.

(** ** Changes of the state *)

(** What is left of a result when the state is changed by [f] afterwards. *)
Definition after {A} (f : env → env) (r : outcome A * env) : outcome A * env :=
  (r.1, f r.2).

(** The counter and the done flags set to [c] and [ds]; no method called by
    [__init_full_obs] reads either. *)
Definition with_progress (c : option Z) (ds : option (list bool)) (e : env)
    : env :=
  set_step_count c (set_agent_dones ds e).

(** The method [m] neither reads nor writes what [f] changes: running it
    after [f] is running it before. *)
Definition commutes {A} (f : env → env) (m : M A) : Prop :=
  ∀ e, m (f e) = after f (m e).

(** [__init_full_obs] from the loop over the agents on. *)
Definition mark_and_draw : M unit :=
  d ← gets agent_pos;
  for_each d (λ item, __update_agent_view item.1) ;;
  __draw_base_img.

(** ** Weakest preconditions *)

(** [wp m Q R e]: run from [e], [m] returns a value and a state in [Q], or
    raises an exception and leaves a state in [R]. *)
Definition wp {A} (m : M A) (Q : A → env → Prop) (R : exn → env → Prop)
    (e : env) : Prop :=
  match m e with
  | (Ret a, e') => Q a e'
  | (Raise x, e') => R x e'
  end.

(** * Proofs *)

(** ** Dictionaries and positions *)

Lemma dict_get_set_eq k v d : dict_get k (dict_set k v d) = Some v.
Proof.
  induction d as [|[k' v'] d IH]; simpl.
  - by rewrite Nat.eqb_refl.
  - destruct (Nat.eqb k k') eqn:E; simpl; rewrite ?Nat.eqb_refl, ?E; done.
Qed.

Lemma dict_get_set_ne k j v d : k ≠ j → dict_get j (dict_set k v d) = dict_get j d.
Proof.
  intros Hne. induction d as [|[k' v'] d IH]; simpl.
  - destruct (Nat.eqb j k) eqn:E; [apply Nat.eqb_eq in E; congruence | done].
  - destruct (Nat.eqb k k') eqn:E; simpl.
    + apply Nat.eqb_eq in E. subst k'.
      destruct (Nat.eqb j k) eqn:E'; [apply Nat.eqb_eq in E'; congruence | done].
    + by rewrite IH.
Qed.

Lemma pos_eqb_eq p q : pos_eqb p q = true ↔ p = q.
Proof.
  destruct p as [a b], q as [c d]. unfold pos_eqb. simpl.
  rewrite andb_true_iff, !Z.eqb_eq. split; [intros [-> ->]; done | by inversion 1].
Qed.

Lemma pos_eqb_neq p q : pos_eqb p q = false ↔ p ≠ q.
Proof.
  rewrite <- pos_eqb_eq. destruct (pos_eqb p q); split; congruence.
Qed.

(** ** Arrays *)

Lemma np_index_in n i : (0 ≤ i < Z.of_nat n)%Z → np_index n i = Some (Z.to_nat i).
Proof. intros H. unfold np_index. by rewrite decide_True. Qed.

Lemma rect_row shape g r row : rect shape g → g !! r = Some row → length row = shape.2.
Proof. intros [_ Hf] Hr. by eapply (Forall_lookup_1 _ _ _ _ Hf). Qed.

(** In bounds, [a[r, c]] is the plain double lookup. *)
Lemma nd_get_in shape g p :
  rect shape g → in_bounds shape p →
  nd_get g p = (row ← g !! Z.to_nat p.1; row !! Z.to_nat p.2).
Proof.
  intros Hr [H1 H2]. unfold nd_get.
  rewrite np_index_in; [|rewrite (proj1 Hr); lia]. simpl.
  destruct (g !! Z.to_nat p.1) as [row|] eqn:E; simpl; [|done].
  rewrite np_index_in; [done|]. rewrite (rect_row _ _ _ _ Hr E). lia.
Qed.

Lemma nd_get_is_Some shape g p :
  rect shape g → in_bounds shape p → is_Some (nd_get g p).
Proof.
  intros Hr Hb. rewrite (nd_get_in _ _ _ Hr Hb). destruct Hb as [H1 H2].
  destruct (lookup_lt_is_Some_2 g (Z.to_nat p.1)) as [row E];
    [rewrite (proj1 Hr); lia|].
  rewrite E. simpl. apply lookup_lt_is_Some_2.
  rewrite (rect_row _ _ _ _ Hr E). lia.
Qed.

(** In bounds, [a[r, c] = v] succeeds, keeps the shape, and changes that
    cell only. *)
Lemma nd_set_in shape g p v :
  rect shape g → in_bounds shape p →
  ∃ g', nd_set g p v = Some g' ∧ rect shape g'
        ∧ nd_get g' p = Some v
        ∧ ∀ q, in_bounds shape q → q ≠ p → nd_get g' q = nd_get g q.
Proof.
  intros Hr Hb. pose proof Hb as [H1 H2].
  destruct (lookup_lt_is_Some_2 g (Z.to_nat p.1)) as [row E];
    [rewrite (proj1 Hr); lia|].
  pose proof (rect_row _ _ _ _ Hr E) as Hlen.
  assert (Hr' : rect shape (<[Z.to_nat p.1 := <[Z.to_nat p.2 := v]> row]> g)).
  { destruct Hr as [Hl Hf]. split; [by rewrite length_insert|].
    apply Forall_insert; [done|]. by rewrite length_insert. }
  eexists. split; [|split; [exact Hr'|split]].
  - unfold nd_set. rewrite np_index_in; [|rewrite (proj1 Hr); lia]. simpl.
    rewrite E. simpl. rewrite np_index_in; [done | lia].
  - rewrite (nd_get_in _ _ _ Hr' Hb).
    rewrite list_lookup_insert_eq; [|rewrite (proj1 Hr); lia]. simpl.
    apply list_lookup_insert_eq. lia.
  - intros q Hq Hne. rewrite (nd_get_in _ _ _ Hr' Hq), (nd_get_in _ _ _ Hr Hq).
    destruct (decide (Z.to_nat p.1 = Z.to_nat q.1)) as [Heq|Hneq].
    + rewrite <- Heq. rewrite list_lookup_insert_eq; [|rewrite (proj1 Hr); lia].
      rewrite E. simpl. apply list_lookup_insert_ne.
      intros Heq2. apply Hne. destruct Hq as [Hq1 Hq2].
      destruct p, q; simpl in *. f_equal; lia.
    + by rewrite list_lookup_insert_ne.
Qed.

(** ** Rules of the weakest precondition *)

Lemma wp_bind {A B} (m : M A) (f : A → M B) Q R e :
  wp m (λ a, wp (f a) Q R) R e → wp (m ≫= f) Q R e.
Proof. unfold wp, mbind, M_bind. by destruct (m e) as [[a|x] e']. Qed.

Lemma wp_mono {A} (m : M A) (Q Q' : A → env → Prop) (R R' : exn → env → Prop) e :
  wp m Q R e →
  (∀ a e', Q a e' → Q' a e') → (∀ x e', R x e' → R' x e') →
  wp m Q' R' e.
Proof. unfold wp. destruct (m e) as [[a|x] e']; auto. Qed.

Lemma wp_post {A} (m : M A) (Q Q' : A → env → Prop) R e :
  wp m Q R e → (∀ a e', Q a e' → Q' a e') → wp m Q' R e.
Proof. intros H HQ. eapply wp_mono; [exact H|exact HQ|done]. Qed.

Lemma wp_ret {A} (a : A) (Q : A → env → Prop) R e : Q a e → wp (mret a) Q R e.
Proof. done. Qed.

Lemma wp_gets {A} (f : env → A) (Q : A → env → Prop) R e :
  Q (f e) e → wp (gets f) Q R e.
Proof. done. Qed.

Lemma wp_modify f (Q : unit → env → Prop) R e : Q tt (f e) → wp (modify f) Q R e.
Proof. done. Qed.

Lemma wp_raise {A} x (Q : A → env → Prop) (R : exn → env → Prop) e :
  R x e → wp (raise x) Q R e.
Proof. done. Qed.

Lemma wp_orraise_Some {A} x (o : option A) a (Q : A → env → Prop) R e :
  o = Some a → Q a e → wp (orraise x o) Q R e.
Proof. by intros ->. Qed.

(** The loop rules: an invariant indexed by the number of rounds done. *)
Lemma wp_for_each {A} (xs : list A) (body : A → M unit)
    (Inv : nat → env → Prop) (R : exn → env → Prop) :
  (∀ k x e, xs !! k = Some x → Inv k e → wp (body x) (λ _, Inv (S k)) R e) →
  ∀ e, Inv 0 e → wp (for_each xs body) (λ _, Inv (length xs)) R e.
Proof.
  revert Inv. induction xs as [|x xs IH]; intros Inv Hbody e HI; simpl.
  - by apply wp_ret.
  - apply wp_bind. eapply wp_mono; [apply (Hbody 0 x e eq_refl HI) | | done].
    intros [] e1 H1.
    apply (IH (λ k, Inv (S k))); [|done].
    intros k y e2 Hy. by apply (Hbody (S k)).
Qed.

Lemma wp_for_enumerate {A B} (xs : list A) (body : nat → A → B → M B)
    (Inv : nat → B → env → Prop) (R : exn → env → Prop) :
  ∀ start,
  (∀ k x acc e, xs !! k = Some x → Inv (start + k) acc e →
     wp (body (start + k) x acc) (Inv (S (start + k))) R e) →
  ∀ acc e, Inv start acc e →
  wp (for_enumerate start xs body acc) (Inv (start + length xs)) R e.
Proof.
  induction xs as [|x xs IH]; intros start Hbody acc e HI; simpl.
  - apply wp_ret. by rewrite Nat.add_0_r.
  - apply wp_bind.
    pose proof (Hbody 0 x acc e eq_refl) as H0. rewrite Nat.add_0_r in H0.
    eapply wp_mono; [apply H0, HI | | done].
    intros acc1 e1 H1. simpl in H1.
    replace (start + S (length xs)) with (S start + length xs) by lia.
    apply IH; [|done].
    intros k y acc2 e2 Hy.
    replace (S start + k) with (start + S k) by lia. by apply Hbody.
Qed.

Lemma wp_collect {A B} (xs : list A) (f : A → M B)
    (I : env → Prop) (R : exn → env → Prop) :
  (∀ x e, x ∈ xs → I e → wp (f x) (λ _, I) R e) →
  ∀ e, I e → wp (collect xs f) (λ ys e', I e' ∧ length ys = length xs) R e.
Proof.
  induction xs as [|x xs IH]; intros Hf e HI; simpl.
  - by apply wp_ret.
  - apply wp_bind. eapply wp_mono; [apply Hf; [left|done] | | done].
    intros y e1 H1. simpl in H1. apply wp_bind.
    eapply wp_mono; [apply IH; [|done] | | done].
    + intros z e2 Hz. apply Hf. by right.
    + intros ys e2 [H2 Hl]. simpl. apply wp_ret. split; [done|]. simpl. lia.
Qed.

(** ** The methods *)

Lemma commit_move_spec e i p q :
  wf e → i < n_agents e → pos_at i e = Some p → vacant e q →
  wp (commit_move i p q)
     (λ _ e', wf e' ∧ same_episode e e' ∧ _agent_dones e' = _agent_dones e
              ∧ (∀ j, j ≠ i → pos_at j e' = pos_at j e)
              ∧ pos_at i e' = Some q ∧ grid_moved i p q e e')
     (λ _ _, False) e.
Proof.
  intros Hwf Hi Hp [Hq Hq0].
  destruct (wf_pos e Hwf i Hi) as (p' & Hp' & Hb & Hc).
  assert (p' = p) as -> by congruence.
  assert (Hne : q ≠ p) by (intros ->; rewrite Hc in Hq0; inversion Hq0; lia).
  destruct (nd_set_in _ _ p 0%Z (wf_grid e Hwf) Hb) as (g1 & Hs1 & Hr1 & Hg1 & Ho1).
  destruct (nd_set_in _ _ q (Z.of_nat i + 1)%Z Hr1 Hq) as (g2 & Hs2 & Hr2 & Hg2 & Ho2).
  unfold commit_move.
  apply wp_bind, wp_gets, wp_bind, wp_modify, wp_bind, wp_gets, wp_bind.
  eapply wp_orraise_Some; [exact Hs1|].
  apply wp_bind, wp_modify. unfold __update_agent_view.
  apply wp_bind, wp_gets, wp_bind.
  eapply wp_orraise_Some; [apply dict_get_set_eq|].
  apply wp_bind, wp_gets, wp_bind.
  eapply wp_orraise_Some; [exact Hs2|].
  apply wp_modify.
  assert (Hgm : ∀ c, in_bounds (_grid_shape e) c →
    nd_get g2 c = if decide (c = q) then Some (Z.of_nat i + 1)%Z
                  else if decide (c = p) then Some 0%Z
                  else nd_get (_full_obs e) c).
  { intros c Hcb. destruct (decide (c = q)) as [->|Hcq]; [done|].
    rewrite (Ho2 c Hcb Hcq).
    destruct (decide (c = p)) as [->|Hcp]; [done|]. by apply Ho1. }
  assert (Hother : ∀ j, j ≠ i →
    dict_get j (dict_set i q (agent_pos e)) = pos_at j e).
  { intros j Hj. by apply dict_get_set_ne. }
  split; [|repeat split; try done].
  - destruct Hwf as [Hcount Hmax Hdones Hgrid Hgoal Hpos Hcells].
    split; simpl; try done.
    + intros j Hj. destruct (decide (j = i)) as [->|Hji].
      * exists q. unfold pos_at. simpl. by rewrite dict_get_set_eq.
      * destruct (Hpos j Hj) as (pj & Hpj & Hbj & Hcj).
        exists pj. unfold pos_at. simpl. rewrite Hother by done.
        split; [done|]. split; [done|].
        rewrite (Hgm pj Hbj).
        rewrite decide_False.
        2:{ intros ->. rewrite Hq0 in Hcj. inversion Hcj; lia. }
        rewrite decide_False; [done|].
        intros ->. rewrite Hc in Hcj. inversion Hcj; lia.
    + intros c v Hcb Hv. rewrite (Hgm c Hcb) in Hv.
      destruct (decide (c = q)) as [->|Hcq].
      * right; right. exists i. inversion Hv. unfold pos_at. simpl.
        by rewrite dict_get_set_eq.
      * destruct (decide (c = p)) as [->|Hcp]; [inversion Hv; auto|].
        destruct (Hcells c v Hcb Hv) as [?|[?|(j & Hj & -> & Hpj)]]; auto.
        right; right. exists j. split; [done|]. split; [done|].
        unfold pos_at. simpl. rewrite Hother; [done|].
        intros ->. congruence.
  - apply dict_get_set_eq.
Qed.

Lemma is_cell_vacant_spec e q R :
  rect (_grid_shape e) (_full_obs e) →
  wp (_is_cell_vacant q) (λ b e', e' = e ∧ (b = true ↔ vacant e q)) R e.
Proof.
  intros Hr. unfold _is_cell_vacant. apply wp_bind, wp_gets.
  destruct (bool_decide (0 ≤ q.1 < Z.of_nat (_grid_shape e).1)%Z) eqn:E1; simpl.
  2:{ apply wp_ret. split; [done|]. split; [done|]. intros [[H _] _].
      apply bool_decide_eq_false in E1. done. }
  destruct (bool_decide (0 ≤ q.2 < Z.of_nat (_grid_shape e).2)%Z) eqn:E2; simpl.
  2:{ apply wp_ret. split; [done|]. split; [done|]. intros [[_ H] _].
      apply bool_decide_eq_false in E2. done. }
  apply bool_decide_eq_true in E1, E2.
  assert (Hb : in_bounds (_grid_shape e) q) by done.
  destruct (nd_get_is_Some _ _ _ Hr Hb) as [v Hv].
  apply wp_bind, wp_gets, wp_bind. eapply wp_orraise_Some; [exact Hv|].
  apply wp_ret. split; [done|]. unfold vacant. rewrite Hv, Z.eqb_eq.
  split; [intros ->; done | intros [_ H]; congruence].
Qed.

Lemma next_pos_of_spec p a e :
  wp (next_pos_of p a)
     (λ o e', e' = e ∧ valid_action a
              ∧ match o with
                | Some q => neighbour a p q
                | None => a = 4%Z
                end)
     (raised_unknown a e) e.
Proof.
  unfold next_pos_of, neighbour, valid_action.
  repeat case_decide; subst.
  1-5: apply wp_ret; split; [done|]; split; [lia|]; auto 10.
  apply wp_raise. unfold raised_unknown, valid_action. split; [done|]. split; [lia|done].
Qed.

Lemma update_agent_pos_spec e i a :
  wf e → i < n_agents e →
  wp (__update_agent_pos i a) (λ _, upd_post i a e) (raised_unknown a e) e.
Proof.
  intros Hwf Hi.
  destruct (wf_pos e Hwf i Hi) as (p & Hp & Hb & Hc).
  unfold __update_agent_pos.
  apply wp_bind, wp_gets, wp_bind. eapply wp_orraise_Some; [exact Hp|].
  apply wp_bind. eapply wp_mono; [apply next_pos_of_spec| |done].
  intros [q|] e1 (-> & Hv & Hq); simpl.
  - apply wp_bind.
    eapply wp_mono; [apply is_cell_vacant_spec, Hwf| |done].
    intros b e1 (-> & Hvac); simpl. destruct b.
    + assert (Hvq : vacant e q) by (by apply Hvac).
      eapply wp_mono; [by apply commit_move_spec| |done].
      intros [] e' (Hwf' & Hsame & Hd & Hothers & Hpi & Hgm); simpl.
      unfold upd_post. split_and!; try done.
      exists p, q. split; [done|]. split; [done|]. by right.
    + apply wp_ret. unfold upd_post, same_episode. split_and!; try done.
      exists p, p. split; [done|]. split; [done|]. left. split_and!; try done.
      right. exists q. split; [done|]. intros Hvq. apply Hvac in Hvq. done.
  - apply wp_ret. unfold upd_post, same_episode. split_and!; try done.
    exists p, p. split; [done|]. split; [done|]. left. auto.
Qed.

Lemma same_episode_trans e1 e2 e3 :
  same_episode e1 e2 → same_episode e2 e3 → same_episode e1 e3.
Proof. intros [H1 H2] [H3 H4]. split; congruence. Qed.

Lemma same_episode_fields e e' :
  same_episode e e' →
  _grid_shape e' = _grid_shape e ∧ n_agents e' = n_agents e
  ∧ _max_steps e' = _max_steps e ∧ _step_cost e' = _step_cost e
  ∧ final_agent_pos e' = final_agent_pos e
  ∧ full_observable e' = full_observable e
  ∧ _step_count e' = _step_count e.
Proof. intros [H ?]. unfold static in H. by simplify_eq. Qed.

Lemma wf_set_dones e ds :
  wf e → length ds = n_agents e → wf (set_agent_dones (Some ds) e).
Proof.
  intros [Hcount Hmax Hdones Hgrid Hgoal Hpos Hcells] Hl.
  split; simpl; try done. by exists ds.
Qed.

Lemma get_done_spec e i d R :
  done_at i e = Some d → wp (get_done i) (λ b e', b = d ∧ e' = e) R e.
Proof.
  unfold done_at, get_done. intros H.
  destruct (_agent_dones e) as [ds|] eqn:E; [|done]. simpl in H.
  apply wp_bind, wp_gets, wp_bind. eapply wp_orraise_Some; [exact E|].
  by eapply wp_orraise_Some.
Qed.

Lemma set_done_spec e i b ds R :
  _agent_dones e = Some ds → i < length ds →
  wp (set_done i b) (λ _ e', e' = set_agent_dones (Some (<[i := b]> ds)) e) R e.
Proof.
  intros E Hi. unfold set_done.
  apply wp_bind, wp_gets, wp_bind. eapply wp_orraise_Some; [exact E|].
  rewrite decide_True by done. by apply wp_modify.
Qed.

Lemma is_agent_done_spec e i p g R :
  pos_at i e = Some p → goal_at i e = Some g →
  wp (__is_agent_done i) (λ b e', b = pos_eqb p g ∧ e' = e) R e.
Proof.
  intros Hp Hg. unfold __is_agent_done.
  apply wp_bind, wp_gets, wp_bind. eapply wp_orraise_Some; [exact Hp|].
  apply wp_bind, wp_gets, wp_bind. eapply wp_orraise_Some; [exact Hg|].
  by apply wp_ret.
Qed.

Lemma step_body_spec e i a rw :
  wf e → i < n_agents e → length rw = n_agents e →
  wp (step_body i a rw) (body_post i a rw e) (body_raised i a e) e.
Proof.
  intros Hwf Hi Hrw.
  destruct (wf_dones e Hwf) as (ds & Hds & Hlen).
  destruct (lookup_lt_is_Some_2 ds i) as [d Hd]; [lia|].
  assert (Hdone : done_at i e = Some d) by (unfold done_at; by rewrite Hds).
  unfold step_body. apply wp_bind.
  eapply wp_mono; [by apply get_done_spec| |done].
  intros ? ? [-> ->]; simpl. destruct d.
  { apply wp_ret. unfold body_post. split_and!; try done. by left. }
  apply wp_bind.
  eapply wp_mono; [by apply update_agent_pos_spec| |].
  2:{ intros x e' (-> & Hv & ->). done. }
  intros [] e1 (Hv & Hwf1 & Hsame & Hd1 & Hothers & p & p' & Hp & Hp' & Hmoved).
  simpl.
  destruct (same_episode_fields _ _ Hsame) as (Hshape & Hn & _ & _ & Hfin & _).
  destruct (wf_goal e Hwf i Hi) as [g Hg].
  assert (Hg1 : goal_at i e1 = Some g) by (unfold goal_at in *; congruence).
  apply wp_bind. eapply wp_mono; [by apply is_agent_done_spec| |done].
  intros ? ? [-> ->]; simpl.
  apply wp_bind. eapply wp_mono; [apply (set_done_spec e1 i (pos_eqb p' g) ds);
    [congruence|lia]| |done].
  intros [] ? ->; simpl.
  set (e2 := set_agent_dones (Some (<[i:=pos_eqb p' g]> ds)) e1).
  assert (Hdone2 : done_at i e2 = Some (pos_eqb p' g)).
  { unfold done_at, e2. simpl. apply list_lookup_insert_eq. lia. }
  apply wp_bind. eapply wp_mono; [by apply get_done_spec| |done].
  intros ? ? [-> ->]; simpl.
  assert (Hpost : ∀ rw', length rw' = length rw →
    (∀ j, j ≠ i → rw' !! j = rw !! j) →
    rw' = (if pos_eqb p' g then <[i:=5%Z]> rw else rw) →
    body_post i a rw e rw' e2).
  { intros rw' Hl Ho Hrw'. unfold body_post. split_and!.
    - apply wf_set_dones; [done|]. rewrite length_insert. lia.
    - destruct Hsame. by split.
    - done.
    - intros j Hj. split_and!; [by apply Hothers| |by apply Ho].
      unfold done_at, e2. simpl. rewrite Hds. simpl.
      by apply list_lookup_insert_ne.
    - right. split_and!; try done. exists p, p', g. by split_and!. }
  destruct (pos_eqb p' g) eqn:Eg.
  - rewrite decide_True by lia. apply wp_ret. apply Hpost; [|  |done].
    + by rewrite length_insert.
    + intros j Hj. by apply list_lookup_insert_ne.
  - apply wp_ret. by apply Hpost.
Qed.

Lemma wf_set_count e c : wf e → wf (set_step_count (Some c) e).
Proof.
  intros [Hcount Hmax Hdones Hgrid Hgoal Hpos Hcells].
  split; simpl; try done.
Qed.

Lemma step_body_overflow e i a rw :
  wf e → n_agents e ≤ i → step_body i a rw e = (Raise IndexError, e).
Proof.
  intros Hwf Hi. destruct (wf_dones e Hwf) as (ds & Hds & Hlen).
  unfold step_body, get_done, mbind, M_bind, gets. simpl. rewrite Hds. simpl.
  rewrite (lookup_ge_None_2 ds i) by lia. done.
Qed.

Lemma truncate_spec e ds R :
  _agent_dones e = Some ds → length ds = n_agents e →
  wp (for_each (seq 0 (n_agents e)) (λ i, set_done i true))
     (λ _ e', e' = set_agent_dones (Some (replicate (n_agents e) true)) e) R e.
Proof.
  intros Hds Hlen.
  set (Inv := λ (k : nat) (e' : env),
    ∃ ds', e' = set_agent_dones (Some ds') e ∧ length ds' = n_agents e
           ∧ ∀ j, j < k → ds' !! j = Some true).
  eapply wp_mono;
    [apply (wp_for_each _ _ Inv R) | | done].
  - intros k x e1 Hx (ds' & -> & Hl & Ht).
    apply lookup_seq in Hx as [-> Hk]. simpl in *.
    eapply wp_mono; [apply (set_done_spec _ k true ds'); [done|lia] | | done].
    intros [] ? ->. exists (<[k := true]> ds'). split; [done|].
    split; [by rewrite length_insert|].
    intros j Hj. destruct (decide (j = k)) as [->|Hne].
    + apply list_lookup_insert_eq. lia.
    + rewrite list_lookup_insert_ne by done. apply Ht. lia.
  - exists ds. split_and!.
    + destruct e; simpl in *; by subst.
    + done.
    + intros j Hj. lia.
  - intros [] e' (ds' & -> & Hl & Ht). simpl. do 2 f_equal.
    rewrite length_seq in Ht.
    apply list_eq. intros j. destruct (decide (j < n_agents e)) as [Hj|Hj].
    + rewrite Ht by done. symmetry. by apply lookup_replicate_2.
    + rewrite (lookup_ge_None_2 ds') by lia.
      symmetry. apply lookup_ge_None_2. rewrite length_replicate. lia.
Qed.

Lemma true_div_spec a b e R :
  b ≠ 0%Z → wp (true_div a b) (λ q e', q = Quot a b ∧ e' = e) R e.
Proof. intros H. unfold true_div. rewrite decide_False by done. by apply wp_ret. Qed.

Lemma get_agent_obs_spec e :
  wf e → wp get_agent_obs (λ _ e', e' = e) (λ _ _, False) e.
Proof.
  intros Hwf. unfold get_agent_obs. apply wp_bind, wp_gets, wp_bind.
  eapply wp_mono;
    [apply (wp_collect _ _ (λ e', e' = e) (λ _ _, False)); [|done] | | done].
  - intros i ? Hi ->. apply elem_of_seq in Hi as [_ Hi]. simpl in Hi.
    destruct (wf_pos e Hwf i Hi) as (p & Hp & [Hb1 Hb2] & _).
    destruct (wf_count e Hwf) as [c Hc].
    apply wp_bind, wp_gets, wp_bind. eapply wp_orraise_Some; [exact Hp|].
    apply wp_bind, wp_gets, wp_bind.
    eapply wp_post; [apply true_div_spec; lia|]. intros ? ? [-> ->]; simpl.
    apply wp_bind.
    eapply wp_post; [apply true_div_spec; lia|]. intros ? ? [-> ->]; simpl.
    apply wp_bind, wp_gets, wp_bind. eapply wp_orraise_Some; [exact Hc|].
    apply wp_bind, wp_gets, wp_bind.
    eapply wp_post; [apply true_div_spec, Hwf|]. intros ? ? [-> ->]; simpl.
    by apply wp_ret.
  - intros obs ? [-> _]. simpl. apply wp_bind, wp_gets.
    destruct (full_observable e); by apply wp_ret.
Qed.

Lemma wf_truncated e : wf e → wf (truncated e).
Proof.
  intros Hwf. unfold truncated. destruct (_step_count e); [|done].
  case_decide; [|done]. apply wf_set_dones; [done|]. apply length_replicate.
Qed.

Lemma same_episode_truncated e : same_episode e (truncated e).
Proof.
  unfold truncated. destruct (_step_count e); [|done]. by case_decide.
Qed.

Lemma step_spec acts e c (Inv : nat → list Z → env → Prop)
    (Q : step_result → env → Prop) (R : exn → env → Prop) :
  wf e → _step_count e = Some c →
  let e0 := set_step_count (Some (c + 1)%Z) e in
  Inv 0 (replicate (n_agents e) (_step_cost e)) e0 →
  (∀ k a rw e1 rw' e2,
     acts !! k = Some a → k < n_agents e → wf e1 → same_episode e0 e1 →
     length rw = n_agents e → Inv k rw e1 →
     body_post k a rw e1 rw' e2 → Inv (S k) rw' e2) →
  (∀ k a rw e1,
     acts !! k = Some a → k < n_agents e → wf e1 → same_episode e0 e1 →
     Inv k rw e1 → done_at k e1 = Some false → ¬ valid_action a →
     R ActionNotFound e1) →
  (∀ rw e1,
     n_agents e < length acts → wf e1 → same_episode e0 e1 →
     Inv (n_agents e) rw e1 → R IndexError e1) →
  (∀ rw e1 obs ds,
     length acts ≤ n_agents e → wf e1 → same_episode e0 e1 →
     length rw = n_agents e → Inv (length acts) rw e1 →
     _agent_dones (truncated e1) = Some ds →
     Q (obs, rw, ds) (truncated e1)) →
  wp (step acts) Q R e.
Proof.
  intros Hwf Hc e0 H0 Hbody Hunknown Hover Hend.
  assert (Hwf0 : wf e0) by by apply wf_set_count.
  unfold step. apply wp_bind, wp_gets, wp_bind.
  eapply wp_orraise_Some; [exact Hc|].
  apply wp_bind, wp_modify, wp_bind, wp_gets, wp_bind, wp_gets. fold e0.
  change (n_agents e0) with (n_agents e). change (_step_cost e0) with (_step_cost e).
  apply wp_bind.
  set (Inv' := λ k rw e1, k ≤ n_agents e ∧ wf e1 ∧ same_episode e0 e1
                          ∧ length rw = n_agents e ∧ Inv k rw e1).
  eapply wp_mono; [apply (wp_for_enumerate acts step_body Inv' R 0)| |done].
  - simpl. intros k a rw e1 Hk (Hle & Hwf1 & Hsame & Hrw & HI).
    destruct (same_episode_fields _ _ Hsame) as (_ & Hn & _).
    change (n_agents e0) with (n_agents e) in Hn.
    destruct (decide (k < n_agents e)) as [Hlt|Hge].
    + eapply wp_mono; [apply step_body_spec; [done|lia|lia]| |].
      * intros rw' e2 Hpost. pose proof Hpost as (Hwf2 & Hs2 & Hl2 & _).
        unfold Inv'.
        split_and!.
        1: lia. 1: done. 1: by eapply same_episode_trans. 1: lia.
        exact (Hbody k a rw e1 rw' e2 Hk Hlt Hwf1 Hsame Hrw HI Hpost).
      * intros x e2 (-> & Hv & -> & Hd).
        exact (Hunknown k a rw e1 Hk Hlt Hwf1 Hsame HI Hd Hv).
    + assert (k = n_agents e) as -> by lia.
      unfold wp. rewrite step_body_overflow; [|done|lia].
      apply (Hover rw e1); try done. apply lookup_lt_Some in Hk. lia.
  - unfold Inv'. split_and!; try done; [lia|apply length_replicate].
  - simpl. intros rw e1 (Hle & Hwf1 & Hsame & Hrw & HI).
    destruct (same_episode_fields _ _ Hsame) as (_ & Hn & Hmx & _ & _ & _ & Hcnt).
    change (n_agents e0) with (n_agents e) in Hn.
    destruct (wf_dones e1 Hwf1) as (ds & Hds & Hlen).
    apply wp_bind, wp_gets, wp_bind. eapply wp_orraise_Some; [exact Hcnt|].
    apply wp_bind, wp_gets, wp_bind.
    assert (Htail : ∀ e2, e2 = truncated e1 →
      wp (get_agent_obs ≫= λ obs, gets _agent_dones ≫= λ ds0,
            orraise AttributeError ds0 ≫= λ ds1, mret (obs, rw, ds1)) Q R e2).
    { intros e2 ->. apply wp_bind.
      eapply wp_mono; [apply get_agent_obs_spec, wf_truncated, Hwf1| |done].
      intros obs ? ->. simpl.
      destruct (wf_dones _ (wf_truncated _ Hwf1)) as (ds' & Hds' & _).
      apply wp_bind, wp_gets, wp_bind. eapply wp_orraise_Some; [exact Hds'|].
      apply wp_ret. by apply Hend. }
    unfold truncated in Htail. rewrite Hcnt in Htail. simpl in Htail.
    change (_max_steps e0) with (_max_steps e) in Hmx.
    case_decide as Hmax.
    + apply wp_bind, wp_gets.
      eapply wp_post; [by apply (truncate_spec e1 ds)|].
      intros [] e2 ->. simpl. by apply Htail.
    + simpl. apply wp_ret. simpl. by apply Htail.
Qed.

(** ** One call of [step] *)

Lemma agent_round_ext acts i e e1 e2 rw rw' fin :
  pos_at i e2 = pos_at i e1 → rw' !! i = rw !! i →
  agent_round acts i e e1 rw fin → agent_round acts i e e2 rw' fin.
Proof.
  intros Hp Hr [(Hs & H1 & H2 & H3)|(Hd & a & p & p' & g & Ha & Hv & H1 & H2 & H3 & H4 & H5 & H6)].
  - left. split_and!; [done|congruence|congruence|done].
  - right. split; [done|]. exists a, p, p', g.
    rewrite Hp, Hr. by split_and!.
Qed.

Lemma static_fields e e' :
  static e' = static e →
  _grid_shape e' = _grid_shape e ∧ n_agents e' = n_agents e
  ∧ _max_steps e' = _max_steps e ∧ _step_cost e' = _step_cost e
  ∧ final_agent_pos e' = final_agent_pos e
  ∧ full_observable e' = full_observable e
  ∧ _base_grid e' = _base_grid e.
Proof. intros H. unfold static in H. by simplify_eq. Qed.

Lemma loop_inv_body acts e e1 e2 k a rw rw' :
  acts !! k = Some a → k < n_agents e → wf e1 → static e1 = static e →
  length rw = n_agents e →
  loop_inv acts e k rw e1 → body_post k a rw e1 rw' e2 →
  loop_inv acts e (S k) rw' e2.
Proof.
  intros Ha Hk Hwf1 Hsame Hrw (Hrest & Hdone & Hwalls & Hstill)
    (Hwf2 & Hsame2 & Hlen & Hothers & Hcase).
  destruct (static_fields _ _ Hsame) as (Hshape & Hn & _ & _ & Hfin & _).
  destruct (Hrest k (le_n k)) as (Hpk & Hdk & Hrk). specialize (Hrk Hk).
  destruct (wf_pos e1 Hwf1 k) as (pk & Hpk1 & Hbk & Hck); [lia|].
  unfold loop_inv. split_and!.
  - intros i Hi. destruct (Hothers i) as (H1 & H2 & H3); [lia|].
    destruct (Hrest i) as (H4 & H5 & H6); [lia|].
    split_and!; [congruence|congruence|]. intros Hin. rewrite H3. by apply H6.
  - intros i Hi. destruct (decide (i = k)) as [->|Hne].
    + destruct Hcase as [(Hd & -> & ->)|(Hd & Hv & p & p' & g & Hp & Hp' & Hg & Hd' & -> & Hm)].
      * exists true. split; [|done]. left. split_and!; [left|..]; congruence.
      * exists (pos_eqb p' g). split; [|done]. right. split; [congruence|].
        exists a, p, p', g. split_and!; try done; try congruence.
        -- unfold goal_at in *. congruence.
        -- destruct Hm as [(-> & _)|(Hnb & [Hb Hv0] & _)]; [by left|right].
           split; [done|]. intros Hw. rewrite Hshape in Hb.
           apply Hwalls in Hw; [|done]. congruence.
        -- destruct (pos_eqb p' g); [|done].
           apply list_lookup_insert_eq. lia.
    + destruct (Hdone i) as (fin & Hr & Hf); [lia|].
      destruct (Hothers i Hne) as (H1 & H2 & H3).
      exists fin. split; [by eapply agent_round_ext|congruence].
  - intros q Hq Hw. pose proof (Hwalls q Hq Hw) as Hw1.
    destruct Hcase as [(Hd & -> & ->)|(Hd & Hv & p & p' & g & Hp & Hp' & Hg & Hd' & -> & Hm)];
      [done|].
    destruct Hm as [(-> & Hf & _)|(Hnb & [Hb Hv0] & Hgm)]; [congruence|].
    rewrite Hgm by (by rewrite Hshape).
    rewrite decide_False by (intros ->; congruence).
    rewrite decide_False; [done|]. intros ->.
    assert (pk = p) as -> by congruence. rewrite Hck in Hw1. inversion Hw1. lia.
  - intros Hall.
    assert (H1 : _full_obs e1 = _full_obs e ∧ agent_pos e1 = agent_pos e).
    { apply Hstill. intros i Hi. rewrite <- (Hall i) by lia.
      symmetry. apply Hothers. lia. }
    destruct Hcase as [(Hd & -> & ->)|(Hd & Hv & p & p' & g & Hp & Hp' & Hg & Hd' & -> & Hm)];
      [done|].
    specialize (Hall k (Nat.lt_succ_diag_r k)).
    assert (p' = p) as -> by congruence.
    destruct Hm as [(_ & Hf & Hap & _)|(Hnb & [Hb Hv0] & Hgm)].
    + destruct H1. split; congruence.
    + assert (pk = p) as -> by congruence. rewrite Hck in Hv0. inversion Hv0. lia.
Qed.

Lemma truncated_fields e :
  _full_obs (truncated e) = _full_obs e ∧ agent_pos (truncated e) = agent_pos e.
Proof.
  unfold truncated. destruct (_step_count e); [|done]. by case_decide.
Qed.

Lemma done_at_truncated e i c fin :
  wf e → i < n_agents e → _step_count e = Some c → done_at i e = Some fin →
  done_at i (truncated e) = Some (fin || bool_decide (_max_steps e ≤ c)%Z).
Proof.
  intros Hwf Hi Hc Hd. unfold truncated. rewrite Hc.
  case_decide as Hm.
  - rewrite bool_decide_eq_true_2 by done. rewrite orb_true_r.
    unfold done_at. simpl. by apply lookup_replicate_2.
  - rewrite bool_decide_eq_false_2 by done. by rewrite orb_false_r.
Qed.

(** [step] returns whenever every agent that is not done has a known
    action and there are no more actions than agents, and this is what it
    returns. *)
Lemma step_summary acts e :
  wf e → length acts ≤ n_agents e →
  (∀ i a, acts !! i = Some a → done_at i e = Some false → valid_action a) →
  wp (step acts) (step_post acts e) (λ _ _, False) e.
Proof.
  intros Hwf Hlen Hvalid. destruct (wf_count e Hwf) as [c Hc].
  apply (step_spec acts e c (loop_inv acts e)); try done.
  - unfold loop_inv. split_and!.
    + intros i _. split_and!; try done. intros Hi. by apply lookup_replicate_2.
    + intros; lia.
    + by intros q.
    + done.
  - intros k a rw e1 rw' e2 Ha Hk Hwf1 Hsame Hrw HI Hpost.
    eapply loop_inv_body; try done. apply Hsame.
  - intros k a rw e1 Ha Hk Hwf1 Hsame (Hrest & _) Hd Hv.
    destruct (Hrest k (le_n k)) as (_ & Hdk & _). apply Hv.
    apply (Hvalid k a Ha). by rewrite <- Hdk.
  - intros; lia.
  - intros rw e1 obs ds _ Hwf1 Hsame Hrw (Hrest & Hdone & Hwalls & Hstill) Hds.
    destruct (same_episode_fields _ _ Hsame) as (Hshape & Hn & Hmx & _ & _ & _ & Hcnt).
    simpl in Hshape, Hn, Hmx, Hcnt.
    destruct (same_episode_fields _ _ (same_episode_truncated e1))
      as (_ & Hn' & _ & _ & _ & _ & Hcnt').
    destruct (truncated_fields e1) as [Hfo Hap].
    pose proof (wf_truncated _ Hwf1) as Hwft.
    exists c. unfold rewards_of, dones_of. simpl. split_and!; try done.
    + by rewrite Hcnt', Hcnt.
    + destruct Hsame as [Hs _]. destruct (same_episode_truncated e1) as [Hs' _].
      by rewrite Hs', Hs.
    + destruct (wf_dones _ Hwft) as (ds' & Hds' & Hl').
      assert (ds' = ds) as -> by congruence. by rewrite Hl', Hn', Hn.
    + intros q Hq Hw. rewrite Hfo. by apply Hwalls.
    + intros Hall. rewrite Hfo, Hap. apply Hstill. intros i Hi.
      unfold pos_at. rewrite <- Hap. apply Hall. lia.
    + intros i Hi.
      assert (Hfin : ∃ fin, agent_round acts i e e1 rw fin ∧ done_at i e1 = Some fin).
      { destruct (decide (i < length acts)) as [Hlt|Hge]; [by apply Hdone|].
        destruct (Hrest i) as (Hp & Hd & Hr); [lia|].
        destruct (wf_dones e Hwf) as (ds0 & Hds0 & Hl0).
        destruct (lookup_lt_is_Some_2 ds0 i) as [d Hd0]; [lia|].
        assert (done_at i e = Some d) by (unfold done_at; by rewrite Hds0).
        exists d. split; [|congruence]. left. split_and!; auto. right. lia. }
      destruct Hfin as (fin & Hround & Hdfin). exists fin. split.
      * eapply agent_round_ext; [| |exact Hround]; [|done].
        unfold pos_at. by rewrite Hap.
      * pose proof (done_at_truncated e1 i (c + 1)%Z fin Hwf1) as Hdt.
        unfold done_at in Hdt at 2. rewrite Hds in Hdt. simpl in Hdt.
        rewrite Hdt; [by rewrite Hmx|lia|done|done].
Qed.

(** ** The checker is sound *)

Lemma wfb_sound e : wfb e = true → wf e.
Proof.
  unfold wfb. rewrite !andb_true_iff.
  intros [[[[[H1 H2] H3] H4] H5] H6].
  apply bool_decide_eq_true in H1, H2, H4.
  rewrite forallb_forall in H5, H6.
  split; try done.
  - destruct (_agent_dones e) as [ds|]; [|done].
    apply bool_decide_eq_true in H3. by exists ds.
  - intros i Hi. specialize (H5 i). unfold agent_okb in H5.
    destruct (goal_at i e); [by eexists|].
    discriminate H5. apply in_seq. lia.
  - intros i Hi. specialize (H5 i). unfold agent_okb in H5.
    destruct (goal_at i e) as [g|]; [|discriminate H5; apply in_seq; lia].
    destruct (pos_at i e) as [q|]; [|discriminate H5; apply in_seq; lia].
    rewrite andb_true_iff, !bool_decide_eq_true in H5.
    exists q. split; [done|]. apply H5, in_seq. lia.
  - intros [r c] v [Hr Hc] Hv. simpl in Hr, Hc.
    specialize (H6 (Z.to_nat r)). rewrite forallb_forall in H6.
    specialize (H6 ltac:(apply in_seq; lia) (Z.to_nat c) ltac:(apply in_seq; lia)).
    unfold cell_okb in H6. rewrite !Z2Nat.id in H6 by lia. rewrite Hv in H6.
    rewrite !orb_true_iff, andb_true_iff, !bool_decide_eq_true in H6.
    destruct H6 as [[?|?]|[Hrange Hp]]; auto.
    right; right. exists (Z.to_nat (v - 1)). split_and!; [lia|lia|done].
Qed.

(** ** Sequences of calls *)

Lemma wp_snd {A} (m : M A) (P : env → Prop) e :
  wp m (λ _, P) (λ _, P) e → P (m e).2.
Proof. unfold wp. by destruct (m e) as [[a|x] e']. Qed.

Lemma wp_run (I : env → Prop) (P : step_result → Prop)
    (R : exn → env → Prop) actions :
  (∀ acts e, acts ∈ actions → I e →
     wp (step acts) (λ r e', I e' ∧ P r) R e) →
  ∀ e, I e →
  wp (run actions)
     (λ rs e', I e' ∧ Forall P rs ∧ length rs = length actions) R e.
Proof.
  induction actions as [|acts actions IH]; intros Hstep e HI; simpl.
  - by apply wp_ret.
  - apply wp_bind. eapply wp_post; [apply Hstep; [left|done]|].
    intros r e1 [HI1 HP]. simpl. apply wp_bind.
    eapply wp_post; [apply IH; [|done]|].
    + intros acts' e2 Hin. apply Hstep. by right.
    + intros rs e2 (HI2 & HPs & Hl). simpl. apply wp_ret.
      split_and!; [done|by constructor|simpl; lia].
Qed.

(** [step] keeps the state well formed, whether it returns or raises. *)
Lemma step_wf acts e :
  wf e → wp (step acts) (λ _ e', wf e') (λ _ e', wf e') e.
Proof.
  intros Hwf. destruct (wf_count e Hwf) as [c Hc].
  apply (step_spec acts e c (λ _ _ _, True)); try done.
  intros. by apply wf_truncated.
Qed.

Lemma wf_occupancy_unique e : wf e → occupancy_unique e.
Proof.
  intros Hwf. split.
  - intros i j p Hi Hj Hpi Hpj.
    destruct (wf_pos e Hwf i Hi) as (p1 & Hp1 & _ & Hc1).
    destruct (wf_pos e Hwf j Hj) as (p2 & Hp2 & _ & Hc2).
    assert (p1 = p) as -> by congruence. assert (p2 = p) as -> by congruence.
    rewrite Hc1 in Hc2. inversion Hc2. lia.
  - intros q i Hq Hv.
    destruct (wf_cells e Hwf q _ Hq Hv) as [?|[?|(j & Hj & Hij & Hp)]]; [lia|lia|].
    assert (i = j) as -> by lia. done.
Qed.

(** [step] leaves the attributes of [__init__] alone, whether it returns or
    raises. *)
Lemma step_static acts e :
  wf e →
  wp (step acts) (λ _ e', static e' = static e) (λ _ e', static e' = static e) e.
Proof.
  intros Hwf. destruct (wf_count e Hwf) as [c Hc].
  apply (step_spec acts e c (λ _ _ _, True)); try done.
  - intros k a rw e1 _ _ _ [Hs _] _ _ _. exact Hs.
  - intros rw e1 _ _ [Hs _] _. exact Hs.
  - intros rw e1 obs ds _ _ [Hs _] _ _ _.
    destruct (same_episode_truncated e1) as [Hs' _]. by rewrite Hs'.
Qed.

(** A done agent keeps its flag and its position through one [step],
    whether the call returns or raises. *)
Lemma step_done_kept acts e i :
  wf e → i < n_agents e → done_at i e = Some true →
  let kept e' := wf e' ∧ done_at i e' = Some true ∧ pos_at i e' = pos_at i e in
  wp (step acts) (λ r e', kept e' ∧ dones_of r !! i = Some true)
     (λ _ e', kept e') e.
Proof.
  intros Hwf Hi Hd kept. destruct (wf_count e Hwf) as [c Hc].
  apply (step_spec acts e c
    (λ _ _ e1, done_at i e1 = Some true ∧ pos_at i e1 = pos_at i e)); try done.
  - intros k a rw e1 rw' e2 _ _ _ _ _ [Hd1 Hp1] (_ & _ & _ & Hothers & Hcase).
    destruct (decide (i = k)) as [->|Hne].
    + destruct Hcase as [(_ & -> & _)|(Hd2 & _)]; [done|congruence].
    + destruct (Hothers i Hne) as (-> & -> & _). done.
  - intros rw e1 obs ds _ Hwf1 Hsame _ [Hd1 Hp1] Hds.
    destruct (same_episode_fields _ _ Hsame) as (_ & Hn & _ & _ & _ & _ & Hcnt).
    simpl in Hn, Hcnt.
    pose proof (done_at_truncated e1 i _ true Hwf1 ltac:(lia) Hcnt Hd1) as Hdt.
    simpl in Hdt. destruct (truncated_fields e1) as [_ Hap].
    unfold kept, dones_of. simpl. split_and!.
    + by apply wf_truncated.
    + done.
    + unfold pos_at. by rewrite Hap.
    + unfold done_at in Hdt. by rewrite Hds in Hdt.
Qed.

Lemma known_actions_valid e acts i a :
  known_actions e acts → acts !! i = Some a → done_at i e = Some false →
  valid_action a.
Proof. intros [_ Hf] Ha _. by eapply (Forall_lookup_1 _ _ _ _ Hf). Qed.

Lemma step_post_all_true acts e r e' c :
  step_post acts e r e' → _step_count e = Some c →
  (_max_steps e ≤ c + 1)%Z →
  dones_of r = replicate (n_agents e) true.
Proof.
  intros (c' & Hc & _ & _ & _ & _ & Hl & _ & _ & _ & Hag) Hc' Hmx.
  assert (c' = c) as -> by congruence.
  apply list_eq. intros i. destruct (decide (i < n_agents e)) as [Hi|Hi].
  - destruct (Hag i Hi) as (fin & _ & ->).
    rewrite bool_decide_eq_true_2 by done. rewrite orb_true_r.
    symmetry. by apply lookup_replicate_2.
  - rewrite (lookup_ge_None_2 (dones_of r)) by lia.
    symmetry. apply lookup_ge_None_2. rewrite length_replicate. lia.
Qed.

Lemma run_truncation actions : ∀ e c,
  wf e → _step_count e = Some c →
  Forall (known_actions e) actions →
  wp (run actions)
     (λ rs e', length rs = length actions
               ∧ ∀ k r, rs !! k = Some r →
                   (_max_steps e ≤ c + Z.of_nat k + 1)%Z →
                   dones_of r = replicate (n_agents e) true)
     (λ _ _, False) e.
Proof.
  induction actions as [|acts actions IH]; intros e c Hwf Hc Hall; simpl.
  - apply wp_ret. split; [done|]. by intros k r.
  - apply Forall_cons_1 in Hall as [Hacts Hall]. apply wp_bind.
    eapply wp_post;
      [apply step_summary; [done|apply Hacts|];
       intros i a; by apply known_actions_valid|].
    intros r e1 Hpost. simpl.
    pose proof Hpost as (c' & Hc' & Hc1 & Hwf1 & Hst & _).
    assert (c' = c) as -> by congruence.
    destruct (static_fields _ _ Hst) as (_ & Hn & Hmx & _).
    apply wp_bind. eapply wp_post; [apply (IH e1 (c + 1)%Z); [done|done|]|].
    + eapply Forall_impl; [|exact Hall]. intros a [? ?]. split; [lia|done].
    + intros rs e2 [Hl Hrs]. simpl. apply wp_ret. split; [simpl; lia|].
      intros [|k] r0 Hk Hm; simpl in Hk.
      * inversion Hk; subst r0. eapply step_post_all_true; [done|done|lia].
      * rewrite <- Hn. apply (Hrs k r0 Hk). lia.
Qed.

Lemma neighbour_noop p q : ¬ neighbour 4 p q.
Proof. unfold neighbour. intros [[? _]|[[? _]|[[? _]|[? _]]]]; lia. Qed.

Lemma right_into_wall_step e c :
  wf e → n_agents e = 4 → _step_count e = Some c →
  (c + 1 < _max_steps e)%Z →
  done_at 0 e = Some false → pos_at 0 e = Some (0, 1)%Z →
  goal_at 0 e ≠ Some (0, 1)%Z →
  nd_get (_full_obs e) (0, 2)%Z = Some (-1)%Z →
  wp (step right_noop)
     (λ r e', wf e' ∧ static e' = static e
              ∧ _step_count e' = Some (c + 1)%Z
              ∧ done_at 0 e' = Some false
              ∧ agent_pos e' = agent_pos e ∧ _full_obs e' = _full_obs e
              ∧ rewards_of r !! 0 = Some (_step_cost e)
              ∧ dones_of r !! 0 = Some false)
     (λ _ _, False) e.
Proof.
  intros Hwf Hn Hc Hmx Hd Hp Hg Hw.
  eapply wp_post.
  { apply step_summary; [done|rewrite Hn; simpl; lia|].
    intros i a Ha _. unfold valid_action.
    destruct i as [|[|[|[|i]]]]; simpl in Ha; inversion Ha; lia. }
  intros r e' (c' & Hc' & Hc1 & Hwf' & Hst & Hds & _ & _ & _ & Hstill & Hag).
  assert (c' = c) as -> by congruence.
  destruct (Hag 0) as (fin & Hround & Hd0); [lia|].
  rewrite bool_decide_eq_false_2 in Hd0 by lia. rewrite orb_false_r in Hd0.
  destruct Hround as [([?|Hl] & _)
                     |(_ & a & p & p' & g & Ha & _ & Hp0 & Hp' & Hg0 & Hmv & Hr & ->)];
    [congruence|simpl in Hl; lia|].
  inversion Ha; subst a. assert (p = (0, 1)%Z) as -> by congruence.
  assert (p' = (0, 1)%Z) as ->.
  { destruct Hmv as [?|[Hnb Hnw]]; [done|]. exfalso. apply Hnw.
    destruct Hnb as [[? _]|[[? _]|[[? _]|[_ ->]]]]; try lia. exact Hw. }
  assert (Hgne : pos_eqb (0, 1)%Z g = false).
  { apply pos_eqb_neq. intros <-. congruence. }
  rewrite Hgne in *.
  destruct Hstill as [Hfo Hap].
  { intros i Hi. destruct (Hag i Hi) as (fin & Hround & _).
    destruct Hround as [(_ & ? & _)
                       |(_ & a & p & p' & g' & Ha' & _ & Hpi & Hpi' & _ & Hmv' & _)];
      [done|].
    destruct i as [|i]; [congruence|].
    assert (a = 4%Z) as ->.
    { destruct i as [|[|[|i]]]; simpl in Ha'; by inversion Ha'. }
    destruct Hmv' as [->|[Hnb _]]; [congruence|]. by apply neighbour_noop in Hnb. }
  split_and!; try done.
  unfold done_at. rewrite Hds. simpl. done.
Qed.


(** ** Positions stay on the board *)

Lemma wf_on_board e : wf e → walls_agree e → on_board e.
Proof.
  intros Hwf Hw i p Hi Hp.
  destruct (wf_pos e Hwf i Hi) as (p' & Hp' & Hb & Hc).
  assert (p' = p) as -> by congruence. split; [done|].
  intros Hbase. apply Hw in Hbase; [|done]. rewrite Hc in Hbase.
  inversion Hbase. lia.
Qed.

Lemma body_post_walls_kept k a rw e1 rw' e2 :
  wf e1 → k < n_agents e1 → body_post k a rw e1 rw' e2 → walls_kept e1 e2.
Proof.
  intros Hwf1 Hk (_ & _ & _ & _ & Hcase) q Hq Hw.
  destruct Hcase as [(_ & -> & _)|(_ & _ & p & p' & g & Hp & _ & _ & _ & _ & Hm)];
    [done|].
  destruct Hm as [(_ & Hf & _)|(_ & [_ Hv0] & Hgm)]; [congruence|].
  rewrite Hgm by done.
  rewrite decide_False by (intros ->; congruence).
  rewrite decide_False; [done|]. intros ->.
  destruct (wf_pos e1 Hwf1 k Hk) as (pk & Hpk & _ & Hck).
  assert (pk = p) as -> by congruence. rewrite Hck in Hw. inversion Hw. lia.
Qed.

Lemma step_walls_agree acts e :
  wf e → walls_agree e →
  wp (step acts) (λ _ e', walls_agree e') (λ _ e', walls_agree e') e.
Proof.
  intros Hwf Hw. destruct (wf_count e Hwf) as [c Hc].
  apply (step_spec acts e c (λ _ _ e1, walls_agree e1)); try done.
  - intros k a rw e1 rw' e2 _ Hk Hwf1 Hsame _ Hw1 Hpost q Hq Hbase.
    destruct (same_episode_fields _ _ Hsame) as (_ & Hn & _). simpl in Hn.
    pose proof Hpost as (_ & [Hst _] & _).
    destruct (static_fields _ _ Hst) as (Hshape & _ & _ & _ & _ & _ & Hbg).
    rewrite Hshape in Hq. rewrite Hbg in Hbase.
    apply (body_post_walls_kept k a rw e1 rw' e2); [done|lia|done|done|].
    by apply Hw1.
  - intros rw e1 obs ds _ _ _ _ Hw1 _ q Hq Hbase.
    destruct (same_episode_truncated e1) as [Hst _].
    destruct (static_fields _ _ Hst) as (Hshape & _ & _ & _ & _ & _ & Hbg).
    destruct (truncated_fields e1) as [Hfo _].
    rewrite Hfo. apply Hw1; [by rewrite <- Hshape|by rewrite <- Hbg].
Qed.

(** From a well-formed state whose live grid has the walls of the base
    grid, every agent is in bounds and off the walls after any sequence of
    [step] calls. *)
Lemma run_on_board e actions :
  wf e → walls_agree e → on_board (run actions e).2.
Proof.
  intros Hwf Hw.
  assert (H : wf (run actions e).2 ∧ walls_agree (run actions e).2).
  { apply (wp_snd (run actions) (λ e', wf e' ∧ walls_agree e')).
    eapply wp_mono;
      [apply (wp_run (λ e', wf e' ∧ walls_agree e') (λ _, True)
                     (λ _ e', wf e' ∧ walls_agree e')); [|done]| |done].
    - intros acts e1 _ [Hwf1 Hw1].
      pose proof (step_wf acts e1 Hwf1) as H1.
      pose proof (step_walls_agree acts e1 Hwf1 Hw1) as H2.
      unfold wp in *. by destruct (step acts e1) as [[r|x] e2].
    - by intros rs e1 (? & _). }
  destruct H. by apply wf_on_board.
Qed.

(** ** [reset] *)

Lemma np_index_nonneg n i k :
  (0 ≤ i)%Z → np_index n i = Some k → (i < Z.of_nat n)%Z ∧ k = Z.to_nat i.
Proof.
  unfold np_index. intros Hi H. repeat case_decide; simplify_eq; lia.
Qed.

Lemma nd_set_Some_in_bounds shape g p v g' :
  rect shape g → (0 ≤ p.1)%Z → (0 ≤ p.2)%Z → nd_set g p v = Some g' →
  in_bounds shape p.
Proof.
  intros Hr H1 H2 Hs. unfold nd_set in Hs.
  destruct (np_index (length g) p.1) as [r|] eqn:E1; [|done]. simpl in Hs.
  destruct (g !! r) as [row|] eqn:E2; [|done]. simpl in Hs.
  destruct (np_index (length row) p.2) as [c|] eqn:E3; [|done].
  apply np_index_nonneg in E1 as [? _]; [|done].
  apply np_index_nonneg in E3 as [? _]; [|done].
  rewrite (rect_row _ _ _ _ Hr E2) in *. rewrite (proj1 Hr) in *.
  split; lia.
Qed.

Lemma clean_get g q v : clean g → nd_get g q = Some v → v = (-1)%Z ∨ v = 0%Z.
Proof.
  intros Hc Hv. unfold nd_get in Hv.
  destruct (np_index (length g) q.1) as [r|]; [|done]. simpl in Hv.
  destruct (g !! r) as [row|] eqn:E; [|done]. simpl in Hv.
  destruct (np_index (length row) q.2) as [c|]; [|done]. simpl in Hv.
  pose proof (Forall_lookup_1 _ _ _ _ Hc E) as Hrow.
  by apply (Forall_lookup_1 _ _ _ _ Hrow Hv).
Qed.

Lemma nd_set_row_spec shape g r g' :
  rect shape g → clean g → nd_set_row g r 0 = Some g' → rect shape g' ∧ clean g'.
Proof.
  intros [Hl Hf] Hc Hs. unfold nd_set_row in Hs.
  destruct (np_index (length g) r) as [r'|]; [|done]. simpl in Hs.
  destruct (g !! r') as [row|] eqn:E; [|done]. simpl in Hs. simplify_eq.
  split; [split|].
  - by rewrite length_insert.
  - apply Forall_insert; [done|]. rewrite length_replicate.
    by apply (Forall_lookup_1 _ _ _ _ Hf E).
  - apply Forall_insert; [done|]. apply Forall_replicate. by right.
Qed.

Lemma row_set_all_spec cs : ∀ row row',
  row_set_all row cs 0 = Some row' →
  length row' = length row
  ∧ (Forall (λ v, v = (-1)%Z ∨ v = 0%Z) row →
     Forall (λ v, v = (-1)%Z ∨ v = 0%Z) row').
Proof.
  induction cs as [|c cs IH]; intros row row' Hs; simpl in Hs.
  - by simplify_eq.
  - destruct (np_index (length row) c) as [c'|]; [|done]. simpl in Hs.
    apply IH in Hs as [Hl Hf]. rewrite length_insert in Hl. split; [done|].
    intros Hrow. apply Hf. apply Forall_insert; [done|]. by right.
Qed.

Lemma nd_set_cols_spec shape g cs g' :
  rect shape g → clean g → nd_set_cols g cs 0 = Some g' →
  rect shape g' ∧ clean g'.
Proof.
  intros [Hl Hf] Hc Hs. unfold nd_set_cols in Hs. apply mapM_Some in Hs.
  assert (Forall (λ row, length row = shape.2) g'
          ∧ Forall (Forall (λ v, v = (-1)%Z ∨ v = 0%Z)) g') as [? ?].
  { clear Hl. induction Hs as [|row row' g g' Hrow Hs IH]; [done|].
    apply Forall_cons_1 in Hf as [Hf1 Hf2]. apply Forall_cons_1 in Hc as [Hc1 Hc2].
    destruct (IH Hf2 Hc2) as [? ?].
    apply row_set_all_spec in Hrow as [Hl' Hc'].
    split; constructor; auto. congruence. }
  split; [split|]; try done. apply Forall2_length in Hs. congruence.
Qed.

Lemma create_grid_spec e :
  wp __create_grid
     (λ g e', e' = e ∧ rect (_grid_shape e) g ∧ clean g) (λ _ e', e' = e) e.
Proof.
  unfold __create_grid. apply wp_bind, wp_gets.
  set (g0 := replicate (_grid_shape e).1 (replicate (_grid_shape e).2 (-1)%Z)).
  assert (H0 : rect (_grid_shape e) g0 ∧ clean g0).
  { split; [split|].
    - apply length_replicate.
    - apply Forall_replicate, length_replicate.
    - apply Forall_replicate, Forall_replicate. by left. }
  destruct H0 as [Hr0 Hc0]. apply wp_bind.
  destruct (nd_set_row g0 _ 0) as [g1|] eqn:E1; [|by apply wp_raise].
  eapply wp_orraise_Some; [done|].
  destruct (nd_set_row_spec _ _ _ _ Hr0 Hc0 E1) as [Hr1 Hc1]. apply wp_bind.
  destruct (nd_set_cols g1 [0; 1]%Z 0) as [g2|] eqn:E2; [|by apply wp_raise].
  eapply wp_orraise_Some; [done|].
  destruct (nd_set_cols_spec _ _ _ _ Hr1 Hc1 E2) as [Hr2 Hc2]. apply wp_bind.
  destruct (nd_set_cols g2 [-1; -2]%Z 0) as [g3|] eqn:E3; [|by apply wp_raise].
  eapply wp_orraise_Some; [done|].
  destruct (nd_set_cols_spec _ _ _ _ Hr2 Hc2 E3) as [Hr3 Hc3].
  by apply wp_ret.
Qed.

Lemma dict_get_seq (d : dict) : ∀ s k p,
  d.*1 = seq s (length d) → d !! k = Some p → p.1 = s + k ∧ dict_get (s + k) d = Some p.2.
Proof.
  induction d as [|[k0 p0] d IH]; intros s k p Hk Hl; [done|].
  simpl in Hk. injection Hk as -> Hk.
  destruct k as [|k]; simpl in Hl.
  - simplify_eq. simpl. rewrite Nat.add_0_r, Nat.eqb_refl. done.
  - destruct (IH (S s) k p Hk Hl) as [H1 H2]. simpl.
    replace (s + S k) with (S s + k) by lia. split; [done|].
    destruct (Nat.eqb (S s + k) s) eqn:E; [apply Nat.eqb_eq in E; lia|done].
Qed.

Lemma for_each_pure {A} (xs : list A) (body : A → M unit) e :
  (∀ x, wp (body x) (λ _ e', e' = e) (λ _ e', e' = e) e) →
  wp (for_each xs body) (λ _ e', e' = e) (λ _ e', e' = e) e.
Proof.
  intros Hbody. induction xs as [|x xs IH]; simpl; [by apply wp_ret|].
  apply wp_bind. eapply wp_mono; [apply Hbody| |done]. by intros [] ? ->.
Qed.

Lemma draw_base_img_pure e : wp __draw_base_img (λ _ e', e' = e) (λ _ e', e' = e) e.
Proof.
  unfold __draw_base_img. apply wp_bind, wp_gets, wp_bind.
  eapply wp_mono; [apply for_each_pure| |done].
  - intros row. apply for_each_pure. intros col.
    apply wp_bind. unfold __wall_exists. apply wp_bind, wp_gets, wp_bind.
    destruct (nd_get _ _) eqn:E; [|by apply wp_raise].
    eapply wp_orraise_Some; [done|]. by apply wp_ret.
  - intros [] ? ->. simpl. apply wp_bind, wp_gets. apply for_each_pure.
    intros item. apply wp_bind.
    match goal with |- wp (orraise _ ?o) _ _ _ => destruct o eqn:E end;
      [|by apply wp_raise].
    eapply wp_orraise_Some; [done|]. by apply wp_ret.
Qed.

(** When [reset] returns, the state is a well-formed start of an episode. *)
Lemma reset_wf e :
  tables_ok e →
  wp reset
     (λ _ e', wf e' ∧ static e' = static e
              ∧ _step_count e' = Some 0%Z
              ∧ _agent_dones e' = Some (replicate (n_agents e) false)
              ∧ agent_pos e' = init_agent_pos e)
     (λ _ _, True) e.
Proof.
  intros (Hkeys & Hnodup & Hnonneg & Hgoals & Hmax).
  set (d := init_agent_pos e) in *.
  assert (Hlen : length d = n_agents e).
  { rewrite <- (length_fmap fst d), Hkeys. apply length_seq. }
  unfold reset, __init_full_obs.
  apply wp_bind, wp_bind, wp_gets, wp_bind, wp_modify, wp_bind. fold d.
  set (e1 := set_agent_pos d e).
  eapply wp_mono; [apply create_grid_spec| |done].
  intros g0 ? (-> & Hr0 & Hc0). simpl.
  apply wp_bind, wp_modify, wp_bind, wp_gets. simpl. apply wp_bind.
  set (Inv := λ (k : nat) (e' : env), ∃ g,
    e' = set_full_obs g e1 ∧ rect (_grid_shape e) g
    ∧ (∀ i p, i < k → d !! i = Some (i, p) →
         in_bounds (_grid_shape e) p ∧ nd_get g p = Some (Z.of_nat i + 1)%Z)
    ∧ (∀ q v, in_bounds (_grid_shape e) q → nd_get g q = Some v →
         v = (-1)%Z ∨ v = 0%Z
         ∨ ∃ i, i < k ∧ v = (Z.of_nat i + 1)%Z ∧ d !! i = Some (i, q))).
  eapply wp_mono; [apply (wp_for_each d _ Inv (λ _ _, True))| |done].
  - intros k [k' p] e2 Hk (g & -> & Hr & Hmarked & Hcells). simpl.
    destruct (dict_get_seq d 0 k (k', p)) as [Hk' Hget];
      [by rewrite Hlen|done|]. simpl in Hk', Hget. subst k'.
    unfold __update_agent_view. apply wp_bind, wp_gets, wp_bind.
    eapply wp_orraise_Some; [exact Hget|].
    apply wp_bind, wp_gets, wp_bind. simpl.
    destruct (nd_set g p (Z.of_nat k + 1)) as [g'|] eqn:Hs; [|by apply wp_raise].
    eapply wp_orraise_Some; [done|]. apply wp_modify.
    assert (Hp : (0 ≤ p.1 ∧ 0 ≤ p.2)%Z).
    { apply (Forall_lookup_1 _ _ k p Hnonneg).
      rewrite list_lookup_fmap, Hk. done. }
    assert (Hb : in_bounds (_grid_shape e) p).
    { eapply nd_set_Some_in_bounds; [exact Hr|apply Hp|apply Hp|exact Hs]. }
    destruct (nd_set_in _ _ p (Z.of_nat k + 1)%Z Hr Hb) as (g'' & Hs' & Hr' & Hg' & Ho').
    assert (g'' = g') as -> by congruence.
    assert (Hdistinct : ∀ i q, i ≠ k → d !! i = Some (i, q) → q ≠ p).
    { intros i q Hne Hi ->. apply Hne.
      apply (NoDup_lookup _ i k p Hnodup); rewrite list_lookup_fmap.
      - by rewrite Hi. - by rewrite Hk. }
    exists g'. split_and!; [done|done| |].
    + intros i q Hi Hq. destruct (decide (i = k)) as [->|Hne].
      * assert (q = p) as -> by congruence. done.
      * destruct (Hmarked i q) as [Hbq Hvq]; [lia|done|]. split; [done|].
        rewrite Ho'; [done|done|]. by apply (Hdistinct i).
    + intros q v Hq Hv. destruct (decide (q = p)) as [->|Hne].
      * right; right. exists k. split; [lia|]. split; [congruence|done].
      * rewrite Ho' in Hv by done.
        destruct (Hcells q v Hq Hv) as [?|[?|(i & Hi & ? & ?)]]; auto.
        right; right. exists i. split; [lia|done].
  - exists g0. split_and!; [done|done|intros; lia|].
    intros q v _ Hv. destruct (clean_get _ _ _ Hc0 Hv); auto.
  - intros [] e2 (g & -> & Hr & Hmarked & Hcells). simpl.
    eapply wp_mono; [apply draw_base_img_pure| |done].
    intros [] ? ->. simpl.
    apply wp_bind, wp_modify, wp_bind, wp_gets, wp_bind, wp_modify. simpl.
    set (e3 := set_agent_dones _ _).
    assert (Hwf : wf e3).
    { split; simpl; try done.
      - eexists. split; [done|]. apply length_replicate.
      - intros i Hi. rewrite <- Hlen in Hi.
        destruct (lookup_lt_is_Some_2 d i Hi) as [[k p] Hk].
        destruct (dict_get_seq d 0 i (k, p)) as [Hk' Hget];
          [by rewrite Hlen|done|]. simpl in Hk', Hget. subst k.
        exists p. split; [done|]. by apply (Hmarked i p).
      - intros q v Hq Hv.
        destruct (Hcells q v Hq Hv) as [?|[?|(i & Hi & ? & Hk)]]; auto.
        right; right. exists i. split; [lia|]. split; [done|].
        destruct (dict_get_seq d 0 i (i, q)) as [_ Hget];
          [by rewrite Hlen|done|]. done. }
    eapply wp_mono; [apply get_agent_obs_spec, Hwf| |done].
    intros obs ? ->. by split_and!.
Qed.

(** After a [reset] that returns, no two agents share a cell, whatever
    [step] calls follow. *)
Lemma after_reset_occupancy_unique e obs e0 actions :
  tables_ok e → reset e = (Ret obs, e0) →
  occupancy_unique (run actions e0).2.
Proof.
  intros Ht Hr. pose proof (reset_wf e Ht) as Hwp.
  unfold wp in Hwp. rewrite Hr in Hwp. destruct Hwp as (Hwf & _).
  apply wf_occupancy_unique.
  apply (wp_snd (run actions) wf).
  eapply wp_mono; [apply (wp_run wf (λ _, True) (λ _, wf)); [|done]| |done].
  - intros acts e1 _ Hwf1. eapply wp_post; [by apply step_wf|]. by intros.
  - by intros rs e1 (? & _).
Qed.

(** After a [reset] that returns, with no agent starting on its goal, no
    agent is on its goal without being done. *)
Lemma after_reset_goal_implies_done e obs e0 :
  tables_ok e → reset e = (Ret obs, e0) →
  (∀ i p, i < n_agents e → dict_get i (init_agent_pos e) = Some p →
     goal_at i e ≠ Some p) →
  goal_implies_done e0.
Proof.
  intros Ht Hr Hne. pose proof (reset_wf e Ht) as Hwp.
  unfold wp in Hwp. rewrite Hr in Hwp.
  destruct Hwp as (_ & Hst & _ & _ & Hap).
  destruct (static_fields _ _ Hst) as (_ & Hn & _ & _ & Hfin & _).
  intros i p Hi Hp Hg. exfalso. rewrite Hn in Hi.
  apply (Hne i p Hi).
  - unfold pos_at in Hp. by rewrite Hap in Hp.
  - unfold goal_at in *. by rewrite <- Hfin.
Qed.

(** The tables of [__init__] are as [reset] needs them; it is the grid
    that is too small for them. *)
Lemma init_tables_ok fo sc : tables_ok (construct fo sc).2.
Proof.
  unfold tables_ok. simpl. split_and!; try done.
  - apply (bool_decide_unpack _). vm_compute. exact I.
  - repeat constructor; simpl; lia.
  - intros i Hi. destruct i as [|[|[|[|i]]]]; try by eexists. lia.
Qed.

(** [reset] can return: it does on a grid with a row 2 and agents that all
    have a colour. *)
Lemma reset_returns_two_agents :
  tables_ok two_agents ∧ ∃ obs e', reset two_agents = (Ret obs, e').
Proof.
  split.
  - unfold tables_ok. simpl. split_and!; try done.
    + apply (bool_decide_unpack _). vm_compute. exact I.
    + repeat constructor; simpl; lia.
    + intros i Hi. destruct i as [|[|i]]; try by eexists. lia.
  - eexists _, _. vm_compute. reflexivity.
Qed.

(** * The properties of the specification *)

(** The sample states have the attributes the constructor assigns, on the
    grid it builds. *)
Lemma episode_static count cost positions live dones :
  static (episode count cost positions live dones)
  = static (construct false cost).2.
Proof. reflexivity. Qed.

Lemma board_created : (__create_grid sample).1 = Ret board.
Proof. reflexivity. Qed.

(** The sample states are well formed. *)
Lemma sample_wf : wf sample.
Proof. apply wfb_sound. vm_compute. reflexivity. Qed.

Lemma arrived_wf : wf arrived.
Proof. apply wfb_sound. vm_compute. reflexivity. Qed.

Lemma near_goal_wf : wf near_goal.
Proof. apply wfb_sound. vm_compute. reflexivity. Qed.

Lemma all_done_wf : wf all_done.
Proof. apply wfb_sound. vm_compute. reflexivity. Qed.

(** C1 (the code departs from it).  Every stored position is meant to lie
    inside the 2x8 grid, but the constructor stores agent 1 at row 2 of a
    grid with rows 0 and 1, and raises IndexError when it marks that cell:
    no environment is ever built, and [reset] on the object that is left
    raises in the same way.  ([run_on_board] has the part of the claim that
    does hold: [step] keeps every agent in bounds and off the walls.) *)
Theorem C1_initial_position_out_of_bounds fo sc :
  ∃ e, construct fo sc = (Raise IndexError, e)
    ∧ _grid_shape e = (2, 8)
    ∧ pos_at 1 e = Some (2, 1)%Z
    ∧ ¬ in_bounds (_grid_shape e) (2, 1)%Z
    ∧ (reset e).1 = Raise IndexError.
Proof.
  eexists. split; [reflexivity|]. simpl. split_and!; [done|done| |done].
  unfold in_bounds. simpl. lia.
Qed.

(** C2 fails as stated.  There is no run from a fresh [reset] in which
    agent 0 ends on (0, 7) with reward 5: the constructor raises, and so
    does [reset] on the object it leaves.  And RIGHT does not lead there:
    (0, 2) is a wall of the base grid, and from a state where [step] does
    run, six calls with RIGHT leave agent 0 at (0, 1), each with reward 0
    and not done. *)
Lemma C2_counterexample :
  ¬ (∃ e0 obs e1 rs e2 r,
       construct false 0 = (Ret (), e0) ∧ reset e0 = (Ret obs, e1)
       ∧ run (replicate 6 right_noop) e1 = (Ret rs, e2)
       ∧ pos_at 0 e2 = Some (0, 7)%Z ∧ rs !! 5 = Some r
       ∧ rewards_of r !! 0 = Some 5%Z ∧ dones_of r !! 0 = Some true)
  ∧ (construct false 0).1 = Raise IndexError
  ∧ (reset (construct false 0).2).1 = Raise IndexError
  ∧ nd_get (_base_grid (construct false 0).2) (0, 2)%Z = Some (-1)%Z
  ∧ ∃ rs e', run (replicate 6 right_noop) sample = (Ret rs, e')
      ∧ pos_at 0 e' = Some (0, 1)%Z
      ∧ Forall (λ r, rewards_of r !! 0 = Some 0%Z
                     ∧ dones_of r !! 0 = Some false) rs.
Proof.
  split_and!; [|reflexivity..|].
  - intros (e0 & obs & e1 & rs & e2 & r & Hc & _). discriminate Hc.
  - eexists _, _. split; [vm_compute; reflexivity|].
    split; [reflexivity|]. repeat constructor.
Qed.

(** C2, as the code has it.  The cell (0, 2) right of agent 0's start is a
    wall.  With agent 0 at (0, 1), not done, and RIGHT for agent 0 and NOOP
    for the others, any number of [step] calls within the step budget
    returns, nothing moves, and on every call agent 0 gets the step cost
    and its done flag stays false. *)
Theorem C2_right_into_wall e c m :
  wf e → n_agents e = 4 → _step_count e = Some c →
  (c + Z.of_nat m < _max_steps e)%Z →
  done_at 0 e = Some false → pos_at 0 e = Some (0, 1)%Z →
  goal_at 0 e ≠ Some (0, 1)%Z →
  nd_get (_full_obs e) (0, 2)%Z = Some (-1)%Z →
  ∃ rs e', run (replicate m right_noop) e = (Ret rs, e')
    ∧ length rs = m
    ∧ pos_at 0 e' = Some (0, 1)%Z
    ∧ agent_pos e' = agent_pos e ∧ _full_obs e' = _full_obs e
    ∧ Forall (λ r, rewards_of r !! 0 = Some (_step_cost e)
                   ∧ dones_of r !! 0 = Some false) rs.
Proof.
  revert e c. induction m as [|m IH]; intros e c Hwf Hn Hc Hmx Hd Hp Hg Hw.
  - exists [], e. simpl. by split_and!.
  - pose proof (right_into_wall_step e c Hwf Hn Hc ltac:(lia) Hd Hp Hg Hw) as Hs.
    simpl. unfold mbind, M_bind. unfold wp in Hs.
    destruct (step right_noop e) as [[r|x] e1]; [|done].
    destruct Hs as (Hwf1 & Hst & Hc1 & Hd1 & Hap & Hfo & Hr & Hdn).
    destruct (static_fields _ _ Hst) as (_ & Hn1 & Hmx1 & Hcost & Hfin & _).
    destruct (IH e1 (c + 1)%Z) as (rs & e2 & Hrun & Hl & Hp2 & Hap2 & Hfo2 & Hall);
      try done; try congruence; try lia.
    + unfold pos_at. by rewrite Hap.
    + unfold goal_at. by rewrite Hfin.
    + rewrite Hrun. exists (r :: rs), e2. simpl. split_and!; try done.
      * by rewrite Hl.
      * congruence.
      * congruence.
      * constructor; [done|]. by rewrite <- Hcost.
Qed.

Lemma C2_witness :
  wf sample ∧ n_agents sample = 4 ∧ _step_count sample = Some 0%Z
  ∧ (0 + Z.of_nat 6 < _max_steps sample)%Z
  ∧ done_at 0 sample = Some false ∧ pos_at 0 sample = Some (0, 1)%Z
  ∧ goal_at 0 sample ≠ Some (0, 1)%Z
  ∧ nd_get (_full_obs sample) (0, 2)%Z = Some (-1)%Z
  ∧ ∃ rs e', run (replicate 6 right_noop) sample = (Ret rs, e')
      ∧ length rs = 6
      ∧ pos_at 0 e' = Some (0, 1)%Z
      ∧ agent_pos e' = agent_pos sample ∧ _full_obs e' = _full_obs sample
      ∧ Forall (λ r, rewards_of r !! 0 = Some (_step_cost sample)
                     ∧ dones_of r !! 0 = Some false) rs.
Proof.
  split_and!; [exact sample_wf|reflexivity|reflexivity|calc|reflexivity
              |reflexivity|discriminate|reflexivity|].
  apply (C2_right_into_wall sample 0%Z 6);
    [exact sample_wf|reflexivity|reflexivity|calc|reflexivity|reflexivity
    |discriminate|reflexivity].
Defined.

(** C3.  From a well-formed state, after any sequence of [step] calls,
    returned or raised, the state is well formed again: two agents never
    stand on the same cell, and a cell with the code of an agent is the
    cell that agent stands on. *)
Theorem C3_occupancy_unique e actions :
  wf e →
  let e' := (run actions e).2 in
  wf e' ∧ occupancy_unique e'.
Proof.
  intros Hwf e'.
  assert (wf e') as Hwf'.
  { apply (wp_snd (run actions) wf).
    eapply wp_mono; [apply (wp_run wf (λ _, True) (λ _, wf)); [|done]| |done].
    - intros acts e1 _ Hwf1. eapply wp_post; [by apply step_wf|]. by intros.
    - by intros rs e1 (? & _). }
  split; [done|]. by apply wf_occupancy_unique.
Qed.

Lemma C3_witness :
  wf sample
  ∧ let e' := (run [[3; 0; 4; 1]; [0; 3; 0; 1]]%Z sample).2 in
    wf e' ∧ occupancy_unique e'.
Proof.
  split; [exact sample_wf|].
  apply C3_occupancy_unique. exact sample_wf.
Defined.

(** One call: the reward of agent [i] is 5 exactly when its position was
    not its goal before the call and is its goal after it, and the step
    cost otherwise; an agent on its goal stays there, and agents on their
    goal are done again afterwards. *)
Lemma step_reward e acts :
  wf e → goal_implies_done e → length acts ≤ n_agents e →
  (∀ i a, acts !! i = Some a → done_at i e = Some false → valid_action a) →
  ∃ r e', step acts e = (Ret r, e') ∧ wf e' ∧ goal_implies_done e'
    ∧ static e' = static e
    ∧ ∀ i p p' g, i < n_agents e →
        pos_at i e = Some p → pos_at i e' = Some p' → goal_at i e = Some g →
        rewards_of r !! i
          = Some (if bool_decide (p ≠ g ∧ p' = g) then 5%Z else _step_cost e)
        ∧ (p = g → p' = g).
Proof.
  intros Hwf HJ Hlen Hvalid.
  pose proof (step_summary acts e Hwf Hlen Hvalid) as Hwp.
  unfold wp in Hwp. destruct (step acts e) as [[r|x] e']; [|done].
  destruct Hwp as (c & Hc & Hc' & Hwf' & Hst & Hds & Hld & Hlr & _ & _ & Hag).
  destruct (static_fields _ _ Hst) as (_ & Hn & _ & _ & Hfin & _).
  exists r, e'. split_and!; [done|done| |done|].
  - intros i p Hi Hp Hg. rewrite Hn in Hi.
    destruct (Hag i Hi) as (fin & Hround & Hd).
    unfold done_at. rewrite Hds. simpl. rewrite Hd.
    assert (fin = true) as ->; [|done].
    destruct Hround as [(_ & Hp' & _ & Hfin')
                       |(_ & a & q & q' & g & _ & _ & Hq & Hq' & Hg' & _ & _ & ->)].
    + apply (inj Some). rewrite <- Hfin'. apply (HJ i p Hi); [congruence|].
      unfold goal_at in *. congruence.
    + apply pos_eqb_eq. unfold goal_at in *. congruence.
  - intros i p p' g Hi Hp Hp' Hg.
    destruct (Hag i Hi) as (fin & Hround & Hd).
    destruct Hround as [(_ & Hpp & Hr & Hfin')
                       |(Hnd & a & q & q' & g' & _ & _ & Hq & Hq' & Hg' & _ & Hr & ->)].
    + assert (p' = p) as -> by congruence. rewrite Hr.
      rewrite bool_decide_eq_false_2; [done|]. by intros [? ?].
    + assert (q = p) as -> by congruence. assert (q' = p') as -> by congruence.
      assert (g' = g) as -> by congruence.
      assert (Hne : p ≠ g).
      { intros ->. specialize (HJ i g Hi Hp Hg). congruence. }
      rewrite Hr. split; [|done].
      destruct (pos_eqb p' g) eqn:E.
      * apply pos_eqb_eq in E. by rewrite bool_decide_eq_true_2.
      * apply pos_eqb_neq in E. rewrite bool_decide_eq_false_2; [done|].
        by intros [_ ?].
Qed.

Lemma state_after_cons a actions e r e1 :
  step a e = (Ret r, e1) →
  state_after (a :: actions) e = state_after actions e1.
Proof.
  intros Hs. unfold state_after. simpl. unfold mbind, M_bind. rewrite Hs.
  by destruct (run actions e1) as [[rs|x] e2].
Qed.

(** C4.  In an episode that starts with every agent on its goal done (as
    after [reset], when nobody starts on its goal), calls with known actions
    all return, and the reward of agent [i] in call [k] is 5 when that call
    is the one in which the agent first stands on its goal, and the step
    cost in every other call, those after the agent is done included. *)
Theorem C4_reward e actions :
  wf e → goal_implies_done e → Forall (known_actions e) actions →
  ∃ rs e', run actions e = (Ret rs, e') ∧ length rs = length actions
    ∧ ∀ k r i, rs !! k = Some r → i < n_agents e →
        (first_on_goal e actions i k → rewards_of r !! i = Some 5%Z)
        ∧ (¬ first_on_goal e actions i k →
           rewards_of r !! i = Some (_step_cost e)).
Proof.
  revert e. induction actions as [|a actions IH]; intros e Hwf HJ Hall.
  - exists [], e. split_and!; [done|done|]. by intros k r i.
  - apply Forall_cons_1 in Hall as [Ha Hall].
    destruct (step_reward e a Hwf HJ (proj1 Ha)) as (r0 & e1 & Hs & Hwf1 & HJ1 & Hst & Hrw).
    { intros i x Hx _. by apply (Forall_lookup_1 _ _ _ _ (proj2 Ha) Hx). }
    destruct (static_fields _ _ Hst) as (_ & Hn & _ & Hcost & Hfin & _).
    destruct (IH e1 Hwf1 HJ1) as (rs & e2 & Hrun & Hlen & Hrs).
    { eapply Forall_impl; [|exact Hall]. intros l [? ?]. split; [lia|done]. }
    exists (r0 :: rs), e2. split_and!.
    + simpl. unfold mbind, M_bind. rewrite Hs, Hrun. done.
    + simpl. lia.
    + intros k r i Hk Hi.
      destruct (wf_pos e Hwf i Hi) as (p & Hp & _).
      destruct (wf_pos e1 Hwf1 i ltac:(lia)) as (p' & Hp' & _).
      destruct (wf_goal e Hwf i Hi) as [g Hg].
      destruct (Hrw i p p' g Hi Hp Hp' Hg) as [Hr0 Hstick].
      assert (Hg1 : goal_at i e1 = goal_at i e) by (unfold goal_at; by rewrite Hfin).
      destruct k as [|k]; simpl in Hk.
      * inversion Hk; subst r. unfold first_on_goal.
        change (take 1 (a :: actions)) with [a].
        rewrite (state_after_cons a [] e r0 e1 Hs).
        change (state_after [] e1) with e1. rewrite Hp', Hg. split.
        -- intros [Hafter Hbefore]. specialize (Hbefore 0 (le_n 0)).
           change (state_after (take 0 (a :: actions)) e) with e in Hbefore.
           rewrite Hp in Hbefore.
           rewrite Hr0, bool_decide_eq_true_2; [done|]. split; congruence.
        -- intros Hnot. rewrite Hr0, bool_decide_eq_false_2; [done|].
           intros [Hne ->]. apply Hnot. split; [done|].
           intros j Hj. assert (j = 0) as -> by lia.
           change (state_after (take 0 (a :: actions)) e) with e.
           rewrite Hp. congruence.
      * destruct (Hrs k r i Hk ltac:(lia)) as [H5 Hc].
        assert (Hiff : first_on_goal e (a :: actions) i (S k)
                       ↔ first_on_goal e1 actions i k ∧ p ≠ g).
        { unfold first_on_goal. rewrite Hg1.
          change (take (S (S k)) (a :: actions)) with (a :: take (S k) actions).
          rewrite (state_after_cons a _ e r0 e1 Hs). split.
          - intros [Hafter Hbefore]. split; [split; [done|]|].
            + intros j Hj. specialize (Hbefore (S j) ltac:(lia)).
              change (take (S j) (a :: actions)) with (a :: take j actions) in Hbefore.
              by rewrite (state_after_cons a _ e r0 e1 Hs) in Hbefore.
            + intros ->. specialize (Hbefore 0 ltac:(lia)).
              change (state_after (take 0 (a :: actions)) e) with e in Hbefore.
              congruence.
          - intros [[Hafter Hbefore] Hne]. split; [done|].
            intros [|j] Hj.
            + change (state_after (take 0 (a :: actions)) e) with e.
              rewrite Hp, Hg. congruence.
            + change (take (S j) (a :: actions)) with (a :: take j actions).
              rewrite (state_after_cons a _ e r0 e1 Hs). apply Hbefore. lia. }
        split.
        -- intros Hf. apply Hiff in Hf as [Hf _]. by apply H5.
        -- intros Hnot. rewrite <- Hcost. apply Hc. intros Hf. apply Hnot, Hiff.
           split; [done|]. intros ->. specialize (Hstick eq_refl). subst p'.
           destruct Hf as [_ Hbefore]. specialize (Hbefore 0 ltac:(lia)).
           change (state_after (take 0 actions) e1) with e1 in Hbefore.
           congruence.
Qed.

Lemma C4_witness :
  wf near_goal ∧ goal_implies_done near_goal
  ∧ Forall (known_actions near_goal) [[3; 4; 1; 4]; [4; 4; 4; 4]]%Z
  ∧ ∃ rs e',
      run [[3; 4; 1; 4]; [4; 4; 4; 4]]%Z near_goal = (Ret rs, e')
      ∧ length rs = length [[3; 4; 1; 4]; [4; 4; 4; 4]]%Z
      ∧ ∀ k r i, rs !! k = Some r → i < n_agents near_goal →
          (first_on_goal near_goal [[3; 4; 1; 4]; [4; 4; 4; 4]]%Z i k →
           rewards_of r !! i = Some 5%Z)
          ∧ (¬ first_on_goal near_goal [[3; 4; 1; 4]; [4; 4; 4; 4]]%Z i k →
             rewards_of r !! i = Some (_step_cost near_goal)).
Proof.
  assert (HJ : goal_implies_done near_goal).
  { intros i p Hi Hp Hg. four_agents i; vm_compute in Hp, Hg; congruence. }
  assert (Hk : Forall (known_actions near_goal)
                 [[3; 4; 1; 4]; [4; 4; 4; 4]]%Z).
  { repeat constructor; unfold valid_action; simpl; lia. }
  split_and!; [exact near_goal_wf|exact HJ|exact Hk|].
  apply C4_reward; [exact near_goal_wf|exact HJ|exact Hk].
Defined.

(** In that run agents 0 and 2 reach their goals in the first call. *)
Lemma near_goal_rewards :
  match (run [[3; 4; 1; 4]; [4; 4; 4; 4]]%Z near_goal).1 with
  | Ret rs => rewards_of <$> rs = [[5; 0; 5; 0]; [0; 0; 0; 0]]%Z
  | Raise _ => False
  end
  ∧ first_on_goal near_goal [[3; 4; 1; 4]; [4; 4; 4; 4]]%Z 0 0.
Proof.
  split; [reflexivity|]. split; [reflexivity|].
  intros j Hj. assert (j = 0) as -> by lia. discriminate.
Qed.

(** C5.  Once agent [i] is done, every later [step] call of the episode
    returns its done flag as true, and the agent keeps its flag and its
    position, also through calls that raise. *)
Theorem C5_done_monotone e i actions :
  wf e → i < n_agents e → done_at i e = Some true →
  match run actions e with
  | (Ret rs, e') =>
      Forall (λ r, dones_of r !! i = Some true) rs
      ∧ done_at i e' = Some true ∧ pos_at i e' = pos_at i e
  | (Raise _, e') => done_at i e' = Some true ∧ pos_at i e' = pos_at i e
  end.
Proof.
  intros Hwf Hi Hd.
  set (I := λ e', wf e' ∧ n_agents e' = n_agents e ∧ done_at i e' = Some true
                  ∧ pos_at i e' = pos_at i e).
  assert (Hrun : wp (run actions)
    (λ rs e', I e' ∧ Forall (λ r, dones_of r !! i = Some true) rs
              ∧ length rs = length actions) (λ _, I) e).
  { apply wp_run; [|done].
    intros acts e1 _ (Hwf1 & Hn1 & Hd1 & Hp1).
    pose proof (step_static acts e1 Hwf1) as Hst.
    pose proof (step_done_kept acts e1 i Hwf1 ltac:(lia) Hd1) as Hk.
    unfold wp in *. destruct (step acts e1) as [[r|x] e2].
    - destruct Hk as [(? & ? & ?) ?].
      destruct (static_fields _ _ Hst) as (_ & ? & _).
      unfold I. split_and!; try done; congruence.
    - destruct Hk as (? & ? & ?).
      destruct (static_fields _ _ Hst) as (_ & ? & _).
      unfold I. split_and!; try done; congruence. }
  unfold wp in Hrun. destruct (run actions e) as [[rs|x] e'].
  - destruct Hrun as ((_ & _ & ? & ?) & ? & _). done.
  - destruct Hrun as (_ & _ & ? & ?). done.
Qed.

Lemma C5_witness :
  wf arrived ∧ 0 < n_agents arrived ∧ done_at 0 arrived = Some true
  ∧ match run [[3; 4; 4; 4]; [9; 0; 1; 4]]%Z arrived with
    | (Ret rs, e') =>
        Forall (λ r, dones_of r !! 0 = Some true) rs
        ∧ done_at 0 e' = Some true ∧ pos_at 0 e' = pos_at 0 arrived
    | (Raise _, e') =>
        done_at 0 e' = Some true ∧ pos_at 0 e' = pos_at 0 arrived
    end.
Proof.
  split; [exact arrived_wf|]. split; [calc|]. split; [reflexivity|].
  apply (C5_done_monotone arrived 0); [exact arrived_wf|calc|reflexivity].
Defined.

(** C6.  From a well-formed state with the counter at 0 and the budget of
    100 steps, calls with known actions all return, and the done list
    returned by the 100th call and by every later one is true for every
    agent. *)
Theorem C6_truncation e actions :
  wf e → _step_count e = Some 0%Z → _max_steps e = 100%Z →
  Forall (known_actions e) actions →
  ∃ rs e', run actions e = (Ret rs, e') ∧ length rs = length actions
    ∧ ∀ k r, 99 ≤ k → rs !! k = Some r →
        dones_of r = replicate (n_agents e) true.
Proof.
  intros Hwf Hc Hmx Hall.
  pose proof (run_truncation actions e 0%Z Hwf Hc Hall) as Hrun.
  unfold wp in Hrun. destruct (run actions e) as [[rs|x] e']; [|done].
  destruct Hrun as [Hl Hrs]. exists rs, e'. split_and!; [done|done|].
  intros k r Hk Hr. apply (Hrs k r Hr). lia.
Qed.

Lemma C6_witness :
  wf sample ∧ _step_count sample = Some 0%Z ∧ _max_steps sample = 100%Z
  ∧ Forall (known_actions sample) (replicate 100 [4; 4; 4; 4]%Z)
  ∧ ∃ rs e', run (replicate 100 [4; 4; 4; 4]%Z) sample = (Ret rs, e')
      ∧ length rs = length (replicate 100 [4; 4; 4; 4]%Z)
      ∧ ∀ k r, 99 ≤ k → rs !! k = Some r →
          dones_of r = replicate (n_agents sample) true.
Proof.
  assert (Hk : Forall (known_actions sample) (replicate 100 [4; 4; 4; 4]%Z)).
  { apply Forall_replicate. split; [calc|].
    repeat constructor; unfold valid_action; lia. }
  split; [exact sample_wf|]. split; [reflexivity|]. split; [reflexivity|].
  split; [exact Hk|].
  apply C6_truncation; [exact sample_wf|reflexivity|reflexivity|exact Hk].
Defined.

(** C7 fails as stated: agent 0 is done, its action 7 is unknown, and
    [step] returns. *)
Lemma C7_counterexample :
  done_at 0 arrived = Some true ∧ ¬ valid_action 7
  ∧ ∃ r e', step [7; 4; 4; 4]%Z arrived = (Ret r, e').
Proof.
  split; [reflexivity|]. split; [unfold valid_action; lia|].
  eexists _, _. vm_compute. reflexivity.
Qed.

(** C7, as the code has it.  An unknown action code for an agent that is
    not done makes [step] raise [Exception('Action Not found!')], and that
    agent's position is as before the call.  The action of a done agent is
    never looked at. *)
Theorem C7_unknown_action_raises e acts i a :
  wf e → i < n_agents e → acts !! i = Some a →
  done_at i e = Some false → ¬ valid_action a →
  ∃ e', step acts e = (Raise ActionNotFound, e') ∧ pos_at i e' = pos_at i e.
Proof.
  intros Hwf Hi Ha Hd Hv. destruct (wf_count e Hwf) as [c Hc].
  assert (Hwp : wp (step acts) (λ _ _, False)
    (λ x e', x = ActionNotFound ∧ pos_at i e' = pos_at i e) e).
  { apply (step_spec acts e c
      (λ k _ e1, k ≤ i ∧ pos_at i e1 = pos_at i e ∧ done_at i e1 = done_at i e));
      try done.
    - by split_and!; [lia|..].
    - intros k a' rw e1 rw' e2 Ha' _ _ _ _ (Hk & Hp1 & Hd1)
        (_ & _ & _ & Hothers & Hcase).
      destruct (decide (k = i)) as [->|Hne].
      + exfalso. assert (a' = a) as -> by congruence.
        destruct Hcase as [(? & _)|(_ & ? & _)]; [congruence|done].
      + destruct (Hothers i) as (-> & -> & _); [lia|]. split_and!; [lia|done|done].
    - intros k a' rw e1 _ _ _ _ (_ & Hp1 & _) _ _. done.
    - intros rw e1 _ _ _ (Hk & _). lia.
    - intros rw e1 obs ds _ _ _ _ (Hk & _) _.
      apply lookup_lt_Some in Ha. lia. }
  unfold wp in Hwp. destruct (step acts e) as [[r|x] e']; [done|].
  destruct Hwp as [-> Hp]. by exists e'.
Qed.

Lemma C7_witness :
  wf sample ∧ 1 < n_agents sample ∧ [4; 7; 4; 4]%Z !! 1 = Some 7%Z
  ∧ done_at 1 sample = Some false ∧ ¬ valid_action 7
  ∧ ∃ e', step [4; 7; 4; 4]%Z sample = (Raise ActionNotFound, e')
      ∧ pos_at 1 e' = pos_at 1 sample.
Proof.
  assert (Hv : ¬ valid_action 7) by (unfold valid_action; lia).
  split; [exact sample_wf|]. split; [calc|]. split; [reflexivity|].
  split; [reflexivity|]. split; [exact Hv|].
  apply (C7_unknown_action_raises sample [4; 7; 4; 4]%Z 1 7%Z);
    [exact sample_wf|calc|reflexivity|reflexivity|exact Hv].
Defined.

(** C8 fails as stated: with three actions [step] returns and has
    increased the counter; with five it raises only after it has increased
    the counter. *)
Lemma C8_counterexample :
  (∃ r e', step [4; 4; 4]%Z sample = (Ret r, e')
     ∧ _step_count sample = Some 0%Z ∧ _step_count e' = Some 1%Z)
  ∧ (∃ e', step [4; 4; 4; 4; 4]%Z sample = (Raise IndexError, e')
       ∧ _step_count sample = Some 0%Z ∧ _step_count e' = Some 1%Z).
Proof.
  split.
  - eexists _, _. split; [vm_compute; reflexivity|]. by split.
  - eexists. split; [vm_compute; reflexivity|]. by split.
Qed.

(** C8, as the code has it.  [step] does not compare the number of actions
    with the number of agents.  With fewer actions it returns, the counter
    is one higher, and the agents without an action stay where they are at
    the step cost; with more actions it raises IndexError at the first
    action without an agent, after the counter has been increased. *)
Theorem C8_no_length_check e c acts :
  wf e → _step_count e = Some c → length acts ≠ n_agents e →
  (∀ i a, acts !! i = Some a → done_at i e = Some false → valid_action a) →
  (length acts < n_agents e
   ∧ ∃ r e', step acts e = (Ret r, e') ∧ _step_count e' = Some (c + 1)%Z
       ∧ ∀ i, length acts ≤ i → i < n_agents e →
           pos_at i e' = pos_at i e
           ∧ rewards_of r !! i = Some (_step_cost e))
  ∨ (n_agents e < length acts
     ∧ ∃ e', step acts e = (Raise IndexError, e')
         ∧ _step_count e' = Some (c + 1)%Z).
Proof.
  intros Hwf Hc Hne Hvalid.
  destruct (decide (length acts < n_agents e)) as [Hlt|Hge]; [left|right].
  - split; [done|].
    pose proof (step_summary acts e Hwf ltac:(lia) Hvalid) as Hwp.
    unfold wp in Hwp. destruct (step acts e) as [[r|x] e']; [|done].
    destruct Hwp as (c' & Hc' & Hc1 & _ & _ & _ & _ & _ & _ & _ & Hag).
    assert (c' = c) as -> by congruence.
    exists r, e'. split_and!; [done|done|].
    intros i Hi Hin. destruct (Hag i Hin) as (fin & Hround & _).
    destruct Hround as [(_ & ? & ? & _)|(_ & a & p & p' & g & Ha & _)]; [done|].
    apply lookup_lt_Some in Ha. lia.
  - split; [lia|].
    assert (Hwp : wp (step acts) (λ _ _, False)
      (λ x e', x = IndexError ∧ _step_count e' = Some (c + 1)%Z) e).
    { apply (step_spec acts e c
        (λ k _ e1, ∀ i, k ≤ i → done_at i e1 = done_at i e)); try done.
      - intros k a rw e1 rw' e2 _ _ _ _ _ Hrest (_ & _ & _ & Hothers & _) i Hi.
        destruct (Hothers i) as (_ & -> & _); [lia|]. apply Hrest. lia.
      - intros k a rw e1 Ha _ _ _ Hrest Hd Hv. exfalso. apply Hv.
        apply (Hvalid k a Ha). rewrite <- Hrest; [done|lia].
      - intros rw e1 _ _ [_ Hcnt] _. done.
      - intros; lia. }
    unfold wp in Hwp. destruct (step acts e) as [[r|x] e']; [done|].
    destruct Hwp as [-> ?]. by exists e'.
Qed.

Lemma C8_witness :
  wf sample ∧ _step_count sample = Some 0%Z
  ∧ length [4; 4; 4]%Z ≠ n_agents sample
  ∧ (∀ i a, [4; 4; 4]%Z !! i = Some a → done_at i sample = Some false →
       valid_action a)
  ∧ ((length [4; 4; 4]%Z < n_agents sample
      ∧ ∃ r e', step [4; 4; 4]%Z sample = (Ret r, e')
          ∧ _step_count e' = Some (0 + 1)%Z
          ∧ ∀ i, length [4; 4; 4]%Z ≤ i → i < n_agents sample →
              pos_at i e' = pos_at i sample
              ∧ rewards_of r !! i = Some (_step_cost sample))
     ∨ (n_agents sample < length [4; 4; 4]%Z
        ∧ ∃ e', step [4; 4; 4]%Z sample = (Raise IndexError, e')
            ∧ _step_count e' = Some (0 + 1)%Z)).
Proof.
  assert (Hv : ∀ i a, [4; 4; 4]%Z !! i = Some a →
                 done_at i sample = Some false → valid_action a).
  { intros i a Ha _. unfold valid_action.
    destruct i as [|[|[|i]]]; simpl in Ha; inversion Ha; lia. }
  split_and!; [exact sample_wf|reflexivity|calc|exact Hv|].
  apply (C8_no_length_check sample 0%Z [4; 4; 4]%Z);
    [exact sample_wf|reflexivity|calc|exact Hv].
Defined.

(** C9 (the code departs from it).  The action space is meant to hold one
    5-way discrete space per agent; the constructor builds 2 of them for
    4 agents.  Grid shape (2, 8) and 100 steps are as claimed. *)
Theorem C9_action_space_two_components fo sc :
  let e := (construct fo sc).2 in
  action_space e = [Discrete 5; Discrete 5]
  ∧ n_agents e = 4 ∧ length (action_space e) ≠ n_agents e
  ∧ _grid_shape e = (2, 8) ∧ _max_steps e = 100%Z.
Proof. simpl. by split_and!. Qed.

(** C10.  When every agent is done, [step] with one action per agent,
    whatever the codes, returns: the rewards are all the step cost, the done
    flags all true, and the state is the old one with the counter one
    higher, so no position and no grid cell has changed. *)
Theorem C10_all_done_step e c acts :
  wf e → _step_count e = Some c →
  (∀ i, i < n_agents e → done_at i e = Some true) →
  length acts = n_agents e →
  ∃ obs,
    step acts e =
      (Ret (obs, replicate (n_agents e) (_step_cost e),
            replicate (n_agents e) true),
       set_step_count (Some (c + 1)%Z) e).
Proof.
  intros Hwf Hc Hall Hlen.
  destruct (wf_dones e Hwf) as (ds & Hds & Hl).
  assert (ds = replicate (n_agents e) true) as ->.
  { apply list_eq. intros i. destruct (decide (i < n_agents e)) as [Hi|Hi].
    - specialize (Hall i Hi). unfold done_at in Hall. rewrite Hds in Hall.
      simpl in Hall. rewrite Hall. symmetry. by apply lookup_replicate_2.
    - rewrite (lookup_ge_None_2 ds) by lia. symmetry.
      apply lookup_ge_None_2. rewrite length_replicate. lia. }
  set (e0 := set_step_count (Some (c + 1)%Z) e).
  assert (Ht : truncated e0 = e0).
  { unfold truncated. simpl. case_decide; [|done].
    unfold e0, set_agent_dones, set_step_count. simpl. by rewrite Hds. }
  assert (Hwp : wp (step acts)
    (λ r e', e' = e0 ∧ rewards_of r = replicate (n_agents e) (_step_cost e)
             ∧ dones_of r = replicate (n_agents e) true) (λ _ _, False) e).
  { apply (step_spec acts e c
      (λ _ rw e1, e1 = e0 ∧ rw = replicate (n_agents e) (_step_cost e))); try done.
    - intros k a rw e1 rw' e2 _ Hk _ _ _ [-> ->] (_ & _ & _ & _ & Hcase).
      destruct Hcase as [(_ & -> & ->)|(Hd & _)]; [done|].
      specialize (Hall k Hk). unfold done_at in *. simpl in Hd. congruence.
    - intros k a rw e1 _ Hk _ _ [-> _] Hd _.
      specialize (Hall k Hk). unfold done_at in *. simpl in Hd. congruence.
    - intros; lia.
    - intros rw e1 obs ds' _ _ _ _ [-> ->] Hds'. rewrite Ht in *.
      unfold rewards_of, dones_of. simpl. split_and!; try done.
      unfold e0 in Hds'. simpl in Hds'. congruence. }
  unfold wp in Hwp. destruct (step acts e) as [[[[obs rw] ds']|x] e']; [|done].
  destruct Hwp as (-> & Hrw & Hdn). unfold rewards_of, dones_of in *. simpl in *.
  subst. by exists obs.
Qed.

Lemma C10_witness :
  wf all_done ∧ _step_count all_done = Some 100%Z
  ∧ (∀ i, i < n_agents all_done → done_at i all_done = Some true)
  ∧ length [9; 0; -3; 4]%Z = n_agents all_done
  ∧ ∃ obs,
      step [9; 0; -3; 4]%Z all_done =
        (Ret (obs, replicate (n_agents all_done) (_step_cost all_done),
              replicate (n_agents all_done) true),
         set_step_count (Some (100 + 1)%Z) all_done).
Proof.
  assert (Hd : ∀ i, i < n_agents all_done → done_at i all_done = Some true).
  { intros i Hi. by four_agents i. }
  split; [exact all_done_wf|]. split; [reflexivity|]. split; [exact Hd|].
  split; [reflexivity|].
  apply C10_all_done_step; [exact all_done_wf|reflexivity|exact Hd|reflexivity].
Defined.

(** * Further properties of the methods *)

(** ** [__create_grid] and [__wall_exists] *)

Lemma mapM_total {A B} (f : A → option B) (g : A → B) (l : list A) :
  Forall (λ x, f x = Some (g x)) l → mapM f l = Some (g <$> l).
Proof.
  induction 1 as [|x l Hx _ IH]; [done|].
  simpl. rewrite Hx. simpl. rewrite IH. done.
Qed.

Lemma np_index_neg n i :
  (- Z.of_nat n ≤ i < 0)%Z → np_index n i = Some (Z.to_nat (i + Z.of_nat n)).
Proof.
  intros H. unfold np_index. rewrite decide_False by lia. by rewrite decide_True.
Qed.

Lemma free_borders_lookup row c :
  2 ≤ length row → c < length row →
  free_borders row !! c
  = if decide (c < 2 ∨ length row - 2 ≤ c) then Some 0%Z else row !! c.
Proof.
  intros Hl Hc. unfold free_borders.
  destruct (decide (c = length row - 2)) as [->|H1].
  { rewrite list_lookup_insert_eq by (rewrite !length_insert; lia).
    rewrite decide_True by lia. done. }
  rewrite list_lookup_insert_ne by lia.
  destruct (decide (c = length row - 1)) as [->|H2].
  { rewrite list_lookup_insert_eq by (rewrite !length_insert; lia).
    rewrite decide_True by lia. done. }
  rewrite list_lookup_insert_ne by lia.
  destruct (decide (c = 1)) as [->|H3].
  { rewrite list_lookup_insert_eq by (rewrite !length_insert; lia).
    rewrite decide_True by lia. done. }
  rewrite list_lookup_insert_ne by lia.
  destruct (decide (c = 0)) as [->|H4].
  { rewrite list_lookup_insert_eq by lia. rewrite decide_True by lia. done. }
  rewrite list_lookup_insert_ne by lia. rewrite decide_False by lia. done.
Qed.

Lemma set_cols_left g :
  Forall (λ row : list Z, 2 ≤ length row) g →
  nd_set_cols g [0; 1]%Z 0 = Some ((λ row, <[1 := 0%Z]> (<[0 := 0%Z]> row)) <$> g).
Proof.
  intros Hg. unfold nd_set_cols. apply mapM_total.
  eapply Forall_impl; [|exact Hg]. intros row Hl. simpl in *.
  rewrite np_index_in by lia. simpl.
  rewrite np_index_in by (rewrite length_insert; lia). done.
Qed.

Lemma set_cols_right g :
  Forall (λ row : list Z, 2 ≤ length row) g →
  nd_set_cols g [-1; -2]%Z 0
  = Some ((λ row, <[length row - 2 := 0%Z]> (<[length row - 1 := 0%Z]> row)) <$> g).
Proof.
  intros Hg. unfold nd_set_cols. apply mapM_total.
  eapply Forall_impl; [|exact Hg]. intros row Hl. simpl in *.
  rewrite np_index_neg by lia. simpl.
  rewrite np_index_neg by (rewrite length_insert; lia). simpl.
  rewrite length_insert. do 2 f_equal; [lia|]. f_equal. lia.
Qed.

(** The grid [__create_grid] returns, for at least one row and two
    columns. *)
Lemma create_grid_value e :
  1 ≤ (_grid_shape e).1 → 2 ≤ (_grid_shape e).2 →
  __create_grid e
  = (Ret (free_borders <$>
            <[(_grid_shape e).1 `div` 2 := replicate (_grid_shape e).2 0%Z]>
              (replicate (_grid_shape e).1 (replicate (_grid_shape e).2 (-1)%Z))),
     e).
Proof.
  intros Hr Hc. unfold __create_grid.
  set (rows := (_grid_shape e).1) in *. set (cols := (_grid_shape e).2) in *.
  assert (Hmid : rows `div` 2 < rows) by (apply Nat.div_lt; lia).
  set (mid := rows `div` 2) in *.
  unfold mbind, M_bind, gets. fold rows cols mid. cbv zeta.
  unfold nd_set_row. rewrite length_replicate.
  rewrite np_index_in by lia. simpl. rewrite Nat2Z.id.
  rewrite lookup_replicate_2 by lia. simpl. rewrite length_replicate.
  set (g1 := <[mid := replicate cols 0%Z]> (replicate rows (replicate cols (-1)%Z))).
  assert (Hg1 : Forall (λ row : list Z, length row = cols) g1).
  { apply Forall_insert; [apply Forall_replicate|]; apply length_replicate. }
  rewrite set_cols_left by (eapply Forall_impl; [|exact Hg1]; simpl; lia).
  simpl. rewrite set_cols_right.
  2:{ apply Forall_fmap. eapply Forall_impl; [|exact Hg1]. simpl.
      intros row <-. rewrite !length_insert. lia. }
  simpl. rewrite <- list_fmap_compose. unfold mret, M_ret. do 2 f_equal.
  apply list_fmap_ext. intros k row _. simpl. unfold free_borders.
  by rewrite !length_insert.
Qed.

Lemma free_borders_length row : length (free_borders row) = length row.
Proof. unfold free_borders. by rewrite !length_insert. Qed.

Lemma create_grid_cells e :
  1 ≤ (_grid_shape e).1 → 2 ≤ (_grid_shape e).2 →
  ∃ g, __create_grid e = (Ret g, e) ∧ rect (_grid_shape e) g
    ∧ ∀ p, in_bounds (_grid_shape e) p →
        nd_get g p
        = Some (if decide (free_cell (_grid_shape e) p) then 0 else -1)%Z.
Proof.
  intros Hr Hc. eexists. split; [by apply create_grid_value|].
  set (rows := (_grid_shape e).1) in *. set (cols := (_grid_shape e).2) in *.
  assert (Hmid : rows `div` 2 < rows) by (apply Nat.div_lt; lia).
  set (mid := rows `div` 2) in *.
  set (g1 := <[mid := replicate cols 0%Z]> (replicate rows (replicate cols (-1)%Z))).
  assert (Hg1 : Forall (λ row : list Z, length row = cols) g1).
  { apply Forall_insert; [apply Forall_replicate|]; apply length_replicate. }
  assert (Hrect : rect (_grid_shape e) (free_borders <$> g1)).
  { split.
    - rewrite length_fmap. unfold g1. rewrite length_insert. apply length_replicate.
    - apply Forall_fmap. eapply Forall_impl; [|exact Hg1]. simpl.
      intros row Hrow. by rewrite free_borders_length. }
  split; [done|]. intros [r c] [Hpr Hpc]. simpl in Hpr, Hpc. fold rows in Hpr. fold cols in Hpc.
  rewrite (nd_get_in _ _ _ Hrect) by done. simpl.
  rewrite list_lookup_fmap.
  assert (Hrow : g1 !! Z.to_nat r
    = Some (replicate cols (if decide (Z.to_nat r = mid) then 0 else -1)%Z)).
  { unfold g1. destruct (decide (Z.to_nat r = mid)) as [->|Hne].
    - apply list_lookup_insert_eq. rewrite length_replicate. lia.
    - rewrite list_lookup_insert_ne by done. apply lookup_replicate_2. lia. }
  rewrite Hrow. simpl.
  rewrite free_borders_lookup by (rewrite length_replicate; lia).
  rewrite length_replicate. rewrite lookup_replicate_2 by lia.
  unfold free_cell. cbn [fst snd]. fold rows cols mid.
  repeat case_decide; try done; try lia.
  all: exfalso; intuition lia.
Qed.

(** X1.  [__create_grid] returns for every shape with a row and two columns,
    leaves the object alone, and the grid it returns has that shape, 0 on
    the middle row and on the two outermost columns of each side, and -1
    everywhere else. *)
Theorem create_grid_layout e :
  1 ≤ (_grid_shape e).1 → 2 ≤ (_grid_shape e).2 →
  ∃ g, __create_grid e = (Ret g, e) ∧ rect (_grid_shape e) g
    ∧ ∀ p, in_bounds (_grid_shape e) p →
        nd_get g p
        = Some (if decide (free_cell (_grid_shape e) p) then 0 else -1)%Z.
Proof. apply create_grid_cells. Qed.

Lemma create_grid_layout_witness :
  1 ≤ (_grid_shape sample).1 ∧ 2 ≤ (_grid_shape sample).2
  ∧ ∃ g, __create_grid sample = (Ret g, sample) ∧ rect (_grid_shape sample) g
      ∧ ∀ p, in_bounds (_grid_shape sample) p →
          nd_get g p
          = Some (if decide (free_cell (_grid_shape sample) p) then 0 else -1)%Z.
Proof.
  split; [calc|]. split; [calc|]. apply create_grid_layout; calc.
Defined.

Lemma create_grid_small e :
  (_grid_shape e).1 = 0 ∨ (_grid_shape e).2 < 2 →
  __create_grid e = (Raise IndexError, e).
Proof.
  intros Hsmall. unfold __create_grid.
  set (rows := (_grid_shape e).1) in *. set (cols := (_grid_shape e).2) in *.
  destruct (decide (rows = 0)) as [H0|H0].
  { unfold mbind, M_bind, gets. fold rows. rewrite H0. done. }
  assert (Hc : cols < 2) by lia.
  assert (Hmid : rows `div` 2 < rows) by (apply Nat.div_lt; lia).
  set (mid := rows `div` 2) in *.
  unfold mbind, M_bind, gets. fold rows cols mid. cbv zeta.
  unfold nd_set_row. rewrite length_replicate.
  rewrite np_index_in by lia. simpl. rewrite Nat2Z.id.
  rewrite lookup_replicate_2 by lia. simpl. rewrite length_replicate.
  set (g1 := <[mid := replicate cols 0%Z]> (replicate rows (replicate cols (-1)%Z))).
  destruct (nd_set_cols g1 [0; 1]%Z 0) as [g2|] eqn:E; [|done]. exfalso.
  assert (Hsome : is_Some (mapM (λ row, row_set_all row [0; 1]%Z 0%Z) g1)) by (by eexists).
  apply mapM_is_Some in Hsome.
  assert (Hin : g1 !! mid = Some (replicate cols 0%Z)).
  { apply list_lookup_insert_eq. rewrite length_replicate. lia. }
  pose proof (Forall_lookup_1 _ _ _ _ Hsome Hin) as [row Hrow]. simpl in Hrow.
  rewrite length_replicate in Hrow. unfold np_index in Hrow.
  destruct cols as [|[|cols]]; [done| |lia]. simpl in Hrow. done.
Qed.

(** X2.  Without a row, or with fewer than two columns, [__create_grid] raises
    IndexError and leaves the object alone. *)
Theorem create_grid_too_small e :
  (_grid_shape e).1 = 0 ∨ (_grid_shape e).2 < 2 →
  __create_grid e = (Raise IndexError, e).
Proof. apply create_grid_small. Qed.

Lemma create_grid_too_small_witness :
  ((_grid_shape blank).1 = 0 ∨ (_grid_shape blank).2 < 2)
  ∧ __create_grid blank = (Raise IndexError, blank).
Proof.
  split; [left; reflexivity|]. apply create_grid_too_small. left. reflexivity.
Defined.

(** X3.  On the base grid [__create_grid] builds, [__wall_exists] says of a cell
    of the grid that it is a wall exactly when it is off the middle row
    and off the two outermost columns of each side. *)
Theorem wall_exists_created e p :
  (__create_grid e).1 = Ret (_base_grid e) → in_bounds (_grid_shape e) p →
  __wall_exists p e
  = (Ret (bool_decide (¬ free_cell (_grid_shape e) p)), e).
Proof.
  intros Hbase Hp.
  destruct (decide ((_grid_shape e).1 = 0 ∨ (_grid_shape e).2 < 2)) as [Hs|Hs].
  { rewrite (create_grid_small e Hs) in Hbase. done. }
  destruct (create_grid_cells e) as (g & Hg & _ & Hcells); [lia|lia|].
  rewrite Hg in Hbase. simpl in Hbase. injection Hbase as ->.
  unfold __wall_exists, mbind, M_bind, gets. rewrite (Hcells p Hp). simpl.
  unfold mret, M_ret. do 2 f_equal.
  case_decide.
  - by rewrite bool_decide_eq_false_2 by tauto.
  - by rewrite bool_decide_eq_true_2.
Qed.

Lemma wall_exists_created_witness :
  (__create_grid sample).1 = Ret (_base_grid sample)
  ∧ in_bounds (_grid_shape sample) (0, 3)%Z
  ∧ __wall_exists (0, 3)%Z sample
    = (Ret (bool_decide (¬ free_cell (_grid_shape sample) (0, 3)%Z)), sample).
Proof.
  assert (Hb : in_bounds (_grid_shape sample) (0, 3)%Z) by (split; simpl; lia).
  split; [reflexivity|]. split; [exact Hb|].
  apply wall_exists_created; [reflexivity|exact Hb].
Defined.

(** ** [_is_cell_vacant] *)

Lemma is_cell_vacant_value e p :
  rect (_grid_shape e) (_full_obs e) →
  ∃ b, _is_cell_vacant p e = (Ret b, e) ∧ (b = true ↔ vacant e p).
Proof.
  intros Hr. pose proof (is_cell_vacant_spec e p (λ _ _, False) Hr) as Hwp.
  unfold wp in Hwp. destruct (_is_cell_vacant p e) as [[b|x] e']; [|done].
  destruct Hwp as [-> Hb]. by exists b.
Qed.

(** X4.  On a live grid of the declared shape [_is_cell_vacant] never raises and
    never changes the object; it is true exactly for the cells in bounds
    that hold 0. *)
Theorem is_cell_vacant_decides e p :
  rect (_grid_shape e) (_full_obs e) →
  ∃ b, _is_cell_vacant p e = (Ret b, e) ∧ (b = true ↔ vacant e p).
Proof. apply is_cell_vacant_value. Qed.

Lemma is_cell_vacant_decides_witness :
  rect (_grid_shape sample) (_full_obs sample)
  ∧ ∃ b, _is_cell_vacant (1, 2)%Z sample = (Ret b, sample)
      ∧ (b = true ↔ vacant sample (1, 2)%Z).
Proof.
  split; [apply sample_wf|]. apply is_cell_vacant_decides, sample_wf.
Defined.

(** X5.  Out of bounds [_is_cell_vacant] is false without a look at the grid:
    also for a negative coordinate, which numpy would read from the end,
    and whatever the grid is. *)
Theorem is_cell_vacant_outside e p :
  ¬ in_bounds (_grid_shape e) p → _is_cell_vacant p e = (Ret false, e).
Proof.
  intros Hout. unfold _is_cell_vacant, mbind, M_bind, gets.
  destruct (bool_decide (0 ≤ p.1 < Z.of_nat (_grid_shape e).1)%Z) eqn:E1;
    [|done].
  destruct (bool_decide (0 ≤ p.2 < Z.of_nat (_grid_shape e).2)%Z) eqn:E2;
    [|done].
  apply bool_decide_eq_true in E1, E2. by destruct Hout.
Qed.

Lemma is_cell_vacant_outside_witness :
  ¬ in_bounds (_grid_shape sample) (-1, 0)%Z
  ∧ nd_get (_full_obs sample) (-1, 0)%Z = Some 0%Z
  ∧ _is_cell_vacant (-1, 0)%Z sample = (Ret false, sample).
Proof.
  assert (Hout : ¬ in_bounds (_grid_shape sample) (-1, 0)%Z).
  { intros [[H _] _]. simpl in H. lia. }
  split; [exact Hout|]. split; [reflexivity|].
  apply is_cell_vacant_outside, Hout.
Defined.

(** ** [__update_agent_view] *)

(** X6.  For an agent that stands in bounds, [__update_agent_view] writes the
    agent's code to its cell, whatever the cell held, and changes nothing
    else: no other cell, no other attribute. *)
Theorem update_agent_view_marks e i p :
  rect (_grid_shape e) (_full_obs e) →
  pos_at i e = Some p → in_bounds (_grid_shape e) p →
  ∃ g, __update_agent_view i e = (Ret (), set_full_obs g e)
    ∧ rect (_grid_shape e) g
    ∧ nd_get g p = Some (Z.of_nat i + 1)%Z
    ∧ ∀ q, in_bounds (_grid_shape e) q → q ≠ p →
        nd_get g q = nd_get (_full_obs e) q.
Proof.
  intros Hr Hp Hb.
  destruct (nd_set_in _ _ p (Z.of_nat i + 1)%Z Hr Hb) as (g & Hs & Hr' & Hg & Ho).
  exists g. split_and!; try done.
  unfold __update_agent_view, mbind, M_bind, gets. unfold pos_at in Hp.
  rewrite Hp. simpl. rewrite Hs. done.
Qed.

Lemma update_agent_view_marks_witness :
  rect (_grid_shape sample) (_full_obs sample)
  ∧ pos_at 2 sample = Some (0, 6)%Z
  ∧ in_bounds (_grid_shape sample) (0, 6)%Z
  ∧ ∃ g, __update_agent_view 2 sample = (Ret (), set_full_obs g sample)
      ∧ rect (_grid_shape sample) g
      ∧ nd_get g (0, 6)%Z = Some (Z.of_nat 2 + 1)%Z
      ∧ ∀ q, in_bounds (_grid_shape sample) q → q ≠ (0, 6)%Z →
          nd_get g q = nd_get (_full_obs sample) q.
Proof.
  assert (Hb : in_bounds (_grid_shape sample) (0, 6)%Z) by (split; simpl; lia).
  split; [apply sample_wf|]. split; [reflexivity|]. split; [exact Hb|].
  apply update_agent_view_marks; [apply sample_wf|reflexivity|exact Hb].
Defined.

(** ** [__update_agent_pos] *)

Lemma env_ext (e e' : env) :
  static e' = static e → _step_count e' = _step_count e →
  _agent_dones e' = _agent_dones e → agent_pos e' = agent_pos e →
  _full_obs e' = _full_obs e → e' = e.
Proof.
  destruct e, e'. unfold static. simpl. intros H ? ? ? ?. by simplify_eq.
Qed.

Lemma neighbour_valid a p q : neighbour a p q → valid_action a ∧ a ≠ 4%Z.
Proof.
  unfold valid_action. intros [[-> _]|[[-> _]|[[-> _]|[-> _]]]]; lia.
Qed.

Lemma neighbour_fun a p q q' : neighbour a p q → neighbour a p q' → q = q'.
Proof.
  intros [[-> ->]|[[-> ->]|[[-> ->]|[-> ->]]]]
         [[? ->]|[[? ->]|[[? ->]|[? ->]]]]; done || lia.
Qed.

Lemma neighbour_opposite a p q : neighbour a p q → neighbour (opposite a) q p.
Proof.
  unfold neighbour, opposite. destruct p as [r c].
  intros [[-> ->]|[[-> ->]|[[-> ->]|[-> ->]]]]; simpl.
  - right; right; left. split; [done|]. f_equal; lia.
  - right; right; right. split; [done|]. f_equal; lia.
  - left. split; [done|]. f_equal; lia.
  - right; left. split; [done|]. f_equal; lia.
Qed.

(** X7.  A no-op, and a move to a cell that is not vacant (a wall, another
    agent's cell, a cell off the grid), leave the whole object as it is. *)
Theorem move_blocked e i a p :
  wf e → i < n_agents e → pos_at i e = Some p →
  a = 4%Z ∨ (∃ q, neighbour a p q ∧ ¬ vacant e q) →
  __update_agent_pos i a e = (Ret (), e).
Proof.
  intros Hwf Hi Hp Hblock.
  pose proof (update_agent_pos_spec e i a Hwf Hi) as Hwp. unfold wp in Hwp.
  destruct (__update_agent_pos i a e) as [[[]|x] e'].
  - destruct Hwp as (_ & _ & [Hst Hc] & Hd & _ & p0 & p' & Hp0 & _ & Hm).
    assert (p0 = p) as -> by congruence. f_equal.
    destruct Hm as [(_ & Hf & Ha & _)|(Hn & Hv & _)]; [by apply env_ext|].
    exfalso. destruct Hblock as [->|(q & Hq & Hnv)].
    + by apply neighbour_noop in Hn.
    + by rewrite (neighbour_fun _ _ _ _ Hq Hn) in Hnv.
  - exfalso. destruct Hwp as (_ & Hnv & _). apply Hnv.
    destruct Hblock as [->|(q & Hq & _)]; [unfold valid_action; lia|].
    by apply neighbour_valid in Hq as [? _].
Qed.

Lemma move_blocked_witness :
  wf sample ∧ 0 < n_agents sample ∧ pos_at 0 sample = Some (0, 1)%Z
  ∧ (2 = 4 ∨ (∃ q, neighbour 2 (0, 1)%Z q ∧ ¬ vacant sample q))%Z
  ∧ __update_agent_pos 0 2 sample = (Ret (), sample).
Proof.
  assert (Hb : (2 = 4 ∨ (∃ q, neighbour 2 (0, 1)%Z q ∧ ¬ vacant sample q))%Z).
  { right. exists (-1, 1)%Z. split.
    - right; right; left. done.
    - intros [[[H _] _] _]. simpl in H. lia. }
  split_and!; [exact sample_wf|calc|reflexivity|exact Hb|].
  apply (move_blocked sample 0 2%Z (0, 1)%Z);
    [exact sample_wf|calc|reflexivity|exact Hb].
Defined.

Lemma move_commits_state e i a p q :
  wf e → i < n_agents e → pos_at i e = Some p →
  neighbour a p q → vacant e q →
  ∃ e', __update_agent_pos i a e = (Ret (), e') ∧ wf e'
    ∧ pos_at i e' = Some q ∧ grid_moved i p q e e'
    ∧ (∀ j, j ≠ i → pos_at j e' = pos_at j e)
    ∧ same_episode e e' ∧ _agent_dones e' = _agent_dones e.
Proof.
  intros Hwf Hi Hp Hn Hv.
  pose proof (update_agent_pos_spec e i a Hwf Hi) as Hwp. unfold wp in Hwp.
  destruct (__update_agent_pos i a e) as [[[]|x] e'].
  - destruct Hwp as (_ & Hwf' & Hsame & Hd & Ho & p0 & p' & Hp0 & Hp' & Hm).
    assert (p0 = p) as -> by congruence.
    exists e'. destruct Hm as [(_ & _ & _ & [->|(q' & Hq' & Hnv)])|(Hn' & _ & Hgm)].
    + by apply neighbour_noop in Hn.
    + by rewrite (neighbour_fun _ _ _ _ Hq' Hn) in Hnv.
    + rewrite (neighbour_fun _ _ _ _ Hn' Hn) in *. by split_and!.
  - exfalso. destruct Hwp as (_ & Hnv & _). apply Hnv.
    by apply neighbour_valid in Hn as [? _].
Qed.

(** X8.  A move to a vacant neighbour is made: the agent stands on the new cell,
    which carries its code, the old cell is free, no other cell and no
    other agent has changed, and the state is well formed again. *)
Theorem move_commits e i a p q :
  wf e → i < n_agents e → pos_at i e = Some p →
  neighbour a p q → vacant e q →
  ∃ e', __update_agent_pos i a e = (Ret (), e') ∧ wf e'
    ∧ pos_at i e' = Some q ∧ grid_moved i p q e e'
    ∧ (∀ j, j ≠ i → pos_at j e' = pos_at j e)
    ∧ same_episode e e' ∧ _agent_dones e' = _agent_dones e.
Proof. apply move_commits_state. Qed.

Lemma move_commits_witness :
  wf sample ∧ 1 < n_agents sample ∧ pos_at 1 sample = Some (1, 1)%Z
  ∧ neighbour 3 (1, 1)%Z (1, 2)%Z ∧ vacant sample (1, 2)%Z
  ∧ ∃ e', __update_agent_pos 1 3 sample = (Ret (), e') ∧ wf e'
      ∧ pos_at 1 e' = Some (1, 2)%Z ∧ grid_moved 1 (1, 1)%Z (1, 2)%Z sample e'
      ∧ (∀ j, j ≠ 1 → pos_at j e' = pos_at j sample)
      ∧ same_episode sample e' ∧ _agent_dones e' = _agent_dones sample.
Proof.
  assert (Hn : neighbour 3 (1, 1)%Z (1, 2)%Z) by (right; right; right; done).
  assert (Hv : vacant sample (1, 2)%Z).
  { split; [split; simpl; lia|reflexivity]. }
  split_and!; [exact sample_wf|calc|reflexivity|exact Hn|exact Hv|].
  apply (move_commits sample 1 3%Z (1, 1)%Z (1, 2)%Z);
    [exact sample_wf|calc|reflexivity|exact Hn|exact Hv].
Defined.

Lemma dict_set_id k v d : dict_get k d = Some v → dict_set k v d = d.
Proof.
  induction d as [|[k' v'] d IH]; simpl; [done|].
  destruct (Nat.eqb k k') eqn:E.
  - apply Nat.eqb_eq in E. intros [= ->]. by subst.
  - intros H. by rewrite IH.
Qed.

Lemma dict_set_set k v v' d : dict_set k v (dict_set k v' d) = dict_set k v d.
Proof.
  induction d as [|[k' v''] d IH]; simpl.
  - by rewrite Nat.eqb_refl.
  - destruct (Nat.eqb k k') eqn:E; simpl.
    + by rewrite Nat.eqb_refl.
    + by rewrite E, IH.
Qed.

(** Two arrays of one shape with the same cells are the same array. *)
Lemma rect_ext shape g g' :
  rect shape g → rect shape g' →
  (∀ q, in_bounds shape q → nd_get g q = nd_get g' q) → g = g'.
Proof.
  intros Hr Hr' Hcells. apply list_eq. intros r.
  destruct (decide (r < shape.1)) as [Hlt|Hge].
  2:{ rewrite !lookup_ge_None_2; [done|rewrite (proj1 Hr'); lia
                                 |rewrite (proj1 Hr); lia]. }
  destruct (lookup_lt_is_Some_2 g r) as [row E]; [rewrite (proj1 Hr); lia|].
  destruct (lookup_lt_is_Some_2 g' r) as [row' E']; [rewrite (proj1 Hr'); lia|].
  rewrite E, E'. f_equal. apply list_eq. intros c.
  pose proof (rect_row _ _ _ _ Hr E) as Hl.
  pose proof (rect_row _ _ _ _ Hr' E') as Hl'.
  destruct (decide (c < shape.2)) as [Hc|Hc].
  2:{ rewrite !lookup_ge_None_2; [done|lia|lia]. }
  assert (Hb : in_bounds shape (Z.of_nat r, Z.of_nat c)) by (split; simpl; lia).
  specialize (Hcells _ Hb).
  rewrite (nd_get_in _ _ _ Hr Hb), (nd_get_in _ _ _ Hr' Hb) in Hcells.
  simpl in Hcells. rewrite !Nat2Z.id in Hcells. by rewrite E, E' in Hcells.
Qed.

(** The state a move to a vacant neighbour leaves. *)
Lemma move_state e i a p q :
  wf e → i < n_agents e → pos_at i e = Some p →
  neighbour a p q → vacant e q →
  ∃ g1 g2, nd_set (_full_obs e) p 0 = Some g1
    ∧ nd_set g1 q (Z.of_nat i + 1) = Some g2
    ∧ __update_agent_pos i a e
      = (Ret (), set_full_obs g2 (set_agent_pos (dict_set i q (agent_pos e)) e)).
Proof.
  intros Hwf Hi Hp Hn Hv.
  destruct (wf_pos e Hwf i Hi) as (p' & Hp' & Hb & Hc).
  assert (p' = p) as -> by congruence.
  destruct (nd_set_in _ _ p 0%Z (wf_grid e Hwf) Hb) as (g1 & Hs1 & Hr1 & _).
  destruct (nd_set_in _ _ q (Z.of_nat i + 1)%Z Hr1 (proj1 Hv)) as (g2 & Hs2 & _).
  exists g1, g2. split_and!; [done|done|].
  destruct (is_cell_vacant_value e q (wf_grid e Hwf)) as (b & Hvac & Hb').
  assert (b = true) as -> by (by apply Hb').
  assert (Hnext : next_pos_of p a e = (Ret (Some q), e)).
  { unfold next_pos_of.
    destruct Hn as [[-> ->]|[[-> ->]|[[-> ->]|[-> ->]]]]; done. }
  unfold __update_agent_pos, mbind, M_bind, gets. unfold pos_at in Hp.
  rewrite Hp. simpl. rewrite Hnext, Hvac.
  unfold commit_move, __update_agent_view, mbind, M_bind, gets, modify. simpl.
  rewrite Hs1. simpl. rewrite dict_get_set_eq. simpl. rewrite Hs2. done.
Qed.

(** X9.  A move followed by the opposite move puts the object back exactly as
    it was: positions, grid and everything else. *)
Theorem move_back_restores e i a p q :
  wf e → i < n_agents e → pos_at i e = Some p →
  neighbour a p q → vacant e q →
  (__update_agent_pos i a ;; __update_agent_pos i (opposite a)) e = (Ret (), e).
Proof.
  intros Hwf Hi Hp Hn Hv.
  destruct (wf_pos e Hwf i Hi) as (p' & Hp' & Hb & Hc).
  assert (p' = p) as -> by congruence.
  assert (Hne : q ≠ p).
  { intros ->. destruct Hv as [_ Hv]. rewrite Hc in Hv. inversion Hv. lia. }
  destruct (move_commits_state e i a p q Hwf Hi Hp Hn Hv)
    as (e1 & He1 & Hwf1 & Hp1 & Hgm1 & _ & Hsame1 & _).
  destruct (move_state e i a p q Hwf Hi Hp Hn Hv) as (g1 & g2 & Hs1 & Hs2 & He1').
  rewrite He1 in He1'. injection He1' as ->.
  assert (Hv1 : vacant
    (set_full_obs g2 (set_agent_pos (dict_set i q (agent_pos e)) e)) p).
  { split; [done|]. rewrite (Hgm1 p Hb).
    rewrite decide_False by done. by rewrite decide_True. }
  pose proof (neighbour_opposite _ _ _ Hn) as Hn'.
  destruct (move_commits_state _ i (opposite a) q p Hwf1 Hi Hp1 Hn' Hv1)
    as (e2 & He2 & Hwf2 & _ & Hgm2 & _).
  destruct (move_state _ i (opposite a) q p Hwf1 Hi Hp1 Hn' Hv1)
    as (g3 & g4 & Hs3 & Hs4 & He2').
  rewrite He2 in He2'. injection He2' as ->.
  unfold mbind, M_bind. rewrite He1, He2. f_equal. simpl.
  apply env_ext; try done; simpl.
  - rewrite dict_set_set. by apply dict_set_id.
  - apply (rect_ext (_grid_shape e)); [apply Hwf2|apply Hwf|].
    intros c Hcb. specialize (Hgm2 c Hcb). simpl in Hgm2. rewrite Hgm2.
    destruct (decide (c = p)) as [->|Hcp]; [done|].
    destruct (decide (c = q)) as [->|Hcq]; [by destruct Hv as [_ ->]|].
    specialize (Hgm1 c Hcb). simpl in Hgm1. rewrite Hgm1.
    rewrite decide_False by done. by rewrite decide_False.
Qed.

Lemma move_back_restores_witness :
  wf sample ∧ 1 < n_agents sample ∧ pos_at 1 sample = Some (1, 1)%Z
  ∧ neighbour 3 (1, 1)%Z (1, 2)%Z ∧ vacant sample (1, 2)%Z
  ∧ (__update_agent_pos 1 3 ;; __update_agent_pos 1 (opposite 3)) sample
    = (Ret (), sample).
Proof.
  assert (Hn : neighbour 3 (1, 1)%Z (1, 2)%Z) by (right; right; right; done).
  assert (Hv : vacant sample (1, 2)%Z).
  { split; [split; simpl; lia|reflexivity]. }
  split_and!; [exact sample_wf|calc|reflexivity|exact Hn|exact Hv|].
  apply (move_back_restores sample 1 3%Z (1, 1)%Z (1, 2)%Z);
    [exact sample_wf|calc|reflexivity|exact Hn|exact Hv].
Defined.

(** ** [get_agent_obs] *)

Lemma collect_pure {A B} (f : A → M B) (g : A → B) (xs : list A) e :
  (∀ x, x ∈ xs → f x e = (Ret (g x), e)) →
  collect xs f e = (Ret (g <$> xs), e).
Proof.
  induction xs as [|x xs IH]; intros Hf; simpl; [done|].
  unfold mbind, M_bind. rewrite Hf by left.
  rewrite IH; [done|]. intros y Hy. apply Hf. by right.
Qed.

Lemma obs_row_computed e i :
  wf e → i < n_agents e →
  (d ← gets agent_pos;
   p ← orraise KeyError (dict_get i d);
   shape ← gets _grid_shape;
   o1 ← true_div (p.1 + 1) (Z.of_nat shape.1);
   o2 ← true_div (p.2 + 1) (Z.of_nat shape.2);
   c ← gets _step_count;
   c ← orraise TypeError c;
   mx ← gets _max_steps;
   o3 ← true_div c mx;
   mret [o1; o2; o3]) e = (Ret (obs_row e i), e).
Proof.
  intros Hwf Hi.
  destruct (wf_pos e Hwf i Hi) as (p & Hp & [Hb1 Hb2] & _).
  destruct (wf_count e Hwf) as [c Hc].
  unfold obs_row. rewrite Hp, Hc. unfold pos_at in Hp.
  unfold mbind, M_bind, gets, true_div. rewrite Hp. simpl.
  rewrite !decide_False by lia. simpl. rewrite Hc. simpl.
  rewrite decide_False by apply Hwf. done.
Qed.

Lemma get_agent_obs_computed e :
  wf e →
  get_agent_obs e
  = (Ret (if full_observable e
          then replicate (n_agents e) (concat (obs_row e <$> seq 0 (n_agents e)))
          else obs_row e <$> seq 0 (n_agents e)), e).
Proof.
  intros Hwf. unfold get_agent_obs.
  unfold mbind at 1, M_bind at 1. unfold gets at 1.
  unfold mbind at 1, M_bind at 1.
  rewrite (collect_pure _ (obs_row e)).
  2:{ intros i Hin. apply elem_of_seq in Hin. apply obs_row_computed; [done|lia]. }
  unfold mbind, M_bind, gets. by destruct (full_observable e).
Qed.

(** X10.  In a well-formed state [get_agent_obs] returns, leaves the object
    alone, and gives every agent its three quotients; with
    [full_observable] every agent gets the same list, all the quotients of
    all agents in the order of the ids. *)
Theorem get_agent_obs_value e :
  wf e →
  get_agent_obs e
  = (Ret (if full_observable e
          then replicate (n_agents e) (concat (obs_row e <$> seq 0 (n_agents e)))
          else obs_row e <$> seq 0 (n_agents e)), e).
Proof. apply get_agent_obs_computed. Qed.

Lemma get_agent_obs_value_witness :
  wf sample
  ∧ get_agent_obs sample
    = (Ret (if full_observable sample
            then replicate (n_agents sample)
                   (concat (obs_row sample <$> seq 0 (n_agents sample)))
            else obs_row sample <$> seq 0 (n_agents sample)), sample).
Proof. split; [exact sample_wf|]. apply get_agent_obs_value, sample_wf. Defined.

Lemma obs_row_length e i : wf e → i < n_agents e → length (obs_row e i) = 3.
Proof.
  intros Hwf Hi. destruct (wf_pos e Hwf i Hi) as (p & Hp & _).
  destruct (wf_count e Hwf) as [c Hc]. unfold obs_row. by rewrite Hp, Hc.
Qed.

Lemma get_agent_obs_lengths e :
  wf e →
  ∃ obs, get_agent_obs e = (Ret obs, e) ∧ length obs = n_agents e
    ∧ Forall (λ v, length v
                   = if full_observable e then 3 * n_agents e else 3) obs.
Proof.
  intros Hwf. eexists. split; [by apply get_agent_obs_computed|].
  assert (Hrows : Forall (λ v : list quot, length v = 3)
                    (obs_row e <$> seq 0 (n_agents e))).
  { apply Forall_fmap, Forall_forall. intros i Hin. apply in_seq in Hin.
    simpl. apply obs_row_length; [done|lia]. }
  destruct (full_observable e).
  - split; [apply length_replicate|]. apply Forall_replicate.
    assert (Hgen : ∀ l : list (list quot),
      Forall (λ v, length v = 3) l → length (concat l) = 3 * length l).
    { induction 1 as [|v l Hv _ IH]; [done|]. simpl.
      rewrite length_app, Hv, IH. lia. }
    rewrite (Hgen _ Hrows), length_fmap, length_seq. done.
  - split; [by rewrite length_fmap, length_seq|done].
Qed.

(** X11.  The observation has one entry per agent: three quotients each, or,
    with [full_observable], three times the number of agents each. *)
Theorem get_agent_obs_shape e :
  wf e →
  ∃ obs, get_agent_obs e = (Ret obs, e) ∧ length obs = n_agents e
    ∧ Forall (λ v, length v
                   = if full_observable e then 3 * n_agents e else 3) obs.
Proof. apply get_agent_obs_lengths. Qed.

Lemma get_agent_obs_shape_witness :
  wf sample
  ∧ ∃ obs, get_agent_obs sample = (Ret obs, sample)
      ∧ length obs = n_agents sample
      ∧ Forall (λ v, length v
                     = if full_observable sample then 3 * n_agents sample
                       else 3) obs.
Proof. split; [exact sample_wf|]. apply get_agent_obs_shape, sample_wf. Defined.

Lemma wp_any {A} (m : M A) (Q : A → env → Prop) (R : exn → env → Prop) e :
  (∀ a e', Q a e') → (∀ x e', R x e') → wp m Q R e.
Proof. intros HQ HR. unfold wp. destruct (m e) as [[a|x] e']; auto. Qed.

Lemma collect_keeps {A B} (xs : list A) (f : A → M B) e :
  (∀ x, (f x e).2 = e) → (collect xs f e).2 = e.
Proof.
  intros Hf. induction xs as [|x xs IH]; [done|].
  simpl. unfold mbind, M_bind. specialize (Hf x).
  destruct (f x e) as [[y|?] e1]; simpl in Hf; subst; [|done].
  destruct (collect xs f e) as [[ys|?] e2]; simpl in IH; by subst.
Qed.

Lemma get_agent_obs_keeps e : (get_agent_obs e).2 = e.
Proof.
  unfold get_agent_obs. unfold mbind at 1, M_bind at 1. unfold gets at 1.
  unfold mbind at 1, M_bind at 1.
  match goal with |- context [collect ?xs ?f e] =>
    pose proof (collect_keeps xs f e) as Hc end.
  destruct (collect _ _ e) as [[obs|x] e1]; simpl in Hc.
  - rewrite Hc.
    + unfold mbind, M_bind, gets. by destruct (full_observable e).
    + intros i. unfold mbind, M_bind, gets, orraise, true_div, raise, mret, M_ret.
      repeat (case_match; simplify_eq; try done).
  - apply Hc. intros i.
    unfold mbind, M_bind, gets, orraise, true_div, raise, mret, M_ret.
    repeat (case_match; simplify_eq; try done).
Qed.

(** X12.  [get_agent_obs] never changes the object, whether it returns or
    raises. *)
Theorem get_agent_obs_pure e : (get_agent_obs e).2 = e.
Proof. apply get_agent_obs_keeps. Qed.

(** ** [__draw_base_img] and [reset] *)

Lemma for_each_ret {A} (xs : list A) (body : A → M unit) e :
  (∀ x, x ∈ xs → body x e = (Ret tt, e)) → for_each xs body e = (Ret tt, e).
Proof.
  induction xs as [|x xs IH]; intros Hb; simpl; [done|].
  unfold mbind, M_bind. rewrite Hb by left. apply IH.
  intros y Hy. apply Hb. by right.
Qed.

Lemma colour_get_known k : k < 2 → is_Some (colour_get k AGENT_COLORS).
Proof. intros Hk. destruct k as [|[|k]]; [by eexists..|lia]. Qed.

Lemma colour_get_unknown k : 2 ≤ k → colour_get k AGENT_COLORS = None.
Proof. intros Hk. destruct k as [|[|k]]; [lia..|done]. Qed.

Lemma colours_loop (fin : dict) e :
  for_each fin (λ item,
    _ ← orraise KeyError (colour_get item.1 AGENT_COLORS); mret tt) e
  = (if decide (Forall (λ k, k < 2) fin.*1) then Ret tt else Raise KeyError, e).
Proof.
  induction fin as [|[k p] fin IH]; [done|].
  cbn [for_each]. rewrite fmap_cons. cbn [fst].
  unfold mbind at 1, M_bind at 1. unfold mbind at 1, M_bind at 1.
  destruct (decide (k < 2)) as [Hk|Hk].
  - destruct (colour_get_known k Hk) as [c ->].
    change (for_each fin
      (λ item, _ ← orraise KeyError (colour_get item.1 AGENT_COLORS); mret tt) e
      = (if decide (Forall (λ k0, k0 < 2) (k :: fin.*1))
         then Ret tt else Raise KeyError, e)).
    rewrite IH.
    destruct (decide (Forall _ fin.*1)) as [Hf|Hf].
    + by rewrite decide_True by by constructor.
    + rewrite decide_False; [done|]. intros Hc. by inversion Hc.
  - rewrite colour_get_unknown by lia.
    change ((Raise KeyError, e)
      = (if decide (Forall (λ k0, k0 < 2) (k :: fin.*1))
         then Ret tt else Raise KeyError, e)).
    rewrite decide_False; [done|]. intros Hc. by inversion Hc.
Qed.

Lemma walls_loop e :
  rect (_grid_shape e) (_base_grid e) →
  for_each (seq 0 (_grid_shape e).1) (λ row,
    for_each (seq 0 (_grid_shape e).2) (λ col,
      _ ← __wall_exists (Z.of_nat row, Z.of_nat col); mret tt)) e
  = (Ret tt, e).
Proof.
  intros Hr. apply for_each_ret. intros r Hin. apply elem_of_seq in Hin.
  apply for_each_ret. intros c Hc. apply elem_of_seq in Hc.
  destruct (nd_get_is_Some _ _ (Z.of_nat r, Z.of_nat c) Hr) as [v Hv].
  { split; simpl; lia. }
  unfold __wall_exists, mbind, M_bind, gets. by rewrite Hv.
Qed.

(** X13.  On a base grid of the declared shape [__draw_base_img] changes nothing
    of the object, and it returns exactly when every agent of the goal
    table is 0 or 1, the two agents [AGENT_COLORS] has a colour for;
    otherwise it raises [KeyError]. *)
Theorem draw_base_img_outcome e :
  rect (_grid_shape e) (_base_grid e) →
  __draw_base_img e
  = (if decide (Forall (λ k, k < 2) (final_agent_pos e).*1)
     then Ret tt else Raise KeyError, e).
Proof.
  intros Hr. unfold __draw_base_img.
  unfold mbind at 1, M_bind at 1. unfold gets at 1.
  unfold mbind at 1, M_bind at 1. rewrite (walls_loop e Hr).
  unfold mbind at 1, M_bind at 1. unfold gets at 1.
  apply colours_loop.
Qed.

Lemma draw_base_img_outcome_witness :
  rect (_grid_shape sample) (_base_grid sample)
  ∧ __draw_base_img sample
    = (if decide (Forall (λ k, k < 2) (final_agent_pos sample).*1)
       then Ret tt else Raise KeyError, sample).
Proof.
  assert (Hr : rect (_grid_shape sample) (_base_grid sample)).
  { apply (bool_decide_unpack _). vm_compute. exact I. }
  split; [exact Hr|]. apply draw_base_img_outcome, Hr.
Defined.

Lemma draw_base_img_raises e :
  (∃ k, k ∈ (final_agent_pos e).*1 ∧ 2 ≤ k) →
  wp __draw_base_img (λ _ _, False) (λ _ _, True) e.
Proof.
  intros (k & Hin & Hk). unfold __draw_base_img.
  apply wp_bind, wp_gets, wp_bind.
  eapply wp_mono; [apply for_each_pure| |done].
  - intros row. apply for_each_pure. intros col.
    apply wp_bind. unfold __wall_exists. apply wp_bind, wp_gets, wp_bind.
    destruct (nd_get _ _) eqn:E; [|by apply wp_raise].
    eapply wp_orraise_Some; [done|]. by apply wp_ret.
  - intros [] ? ->. simpl. apply wp_bind, wp_gets.
    unfold wp. rewrite colours_loop. rewrite decide_False; [done|].
    intros Hf. rewrite list.Forall_forall in Hf.
    assert (k < 2); [|lia]. by apply Hf.
Qed.

(** X14.  [reset] redraws the base image, so it never returns while the goal
    table has an agent other than 0 and 1: it raises, whatever the grid. *)
Theorem reset_needs_colours e :
  (∃ k, k ∈ (final_agent_pos e).*1 ∧ 2 ≤ k) →
  ∃ x e', reset e = (Raise x, e').
Proof.
  intros Hk.
  assert (Hwp : wp reset (λ _ _, False) (λ _ _, True) e).
  { unfold reset, __init_full_obs.
    apply wp_bind, wp_bind, wp_gets, wp_bind, wp_modify, wp_bind.
    eapply wp_mono; [apply create_grid_spec| |done].
    intros g0 ? (-> & _ & _). simpl.
    apply wp_bind, wp_modify, wp_bind, wp_gets. simpl. apply wp_bind.
    eapply wp_mono;
      [apply (wp_for_each _ _
                (λ _ e', final_agent_pos e' = final_agent_pos e) (λ _ _, True))
      | |done].
    - intros j item e2 _ Hfin. unfold __update_agent_view.
      apply wp_bind, wp_gets, wp_bind.
      destruct (dict_get _ _) as [p|]; [|by apply wp_raise].
      eapply wp_orraise_Some; [done|]. apply wp_bind, wp_gets, wp_bind.
      destruct (nd_set _ _ _) as [g'|]; [|by apply wp_raise].
      eapply wp_orraise_Some; [done|]. by apply wp_modify.
    - done.
    - intros [] e2 Hfin. simpl.
      eapply wp_mono; [apply draw_base_img_raises; by rewrite Hfin|done|done]. }
  unfold wp in Hwp. destruct (reset e) as [[obs|x] e']; [done|eauto].
Qed.

Lemma reset_needs_colours_witness :
  (∃ k, k ∈ (final_agent_pos sample).*1 ∧ 2 ≤ k)
  ∧ ∃ x e', reset sample = (Raise x, e').
Proof.
  assert (H : ∃ k, k ∈ (final_agent_pos sample).*1 ∧ 2 ≤ k).
  { exists 2. split; [|lia]. by apply (list_elem_of_lookup_2 _ 2). }
  split; [exact H|]. apply reset_needs_colours, H.
Defined.

Lemma reset_obs e obs e' :
  reset e = (Ret obs, e') → get_agent_obs e' = (Ret obs, e').
Proof.
  unfold reset. unfold mbind at 1, M_bind at 1.
  destruct (__init_full_obs e) as [[[]|x] e1]; [|done].
  unfold mbind, M_bind, modify, gets.
  match goal with |- get_agent_obs ?s = _ → _ =>
    pose proof (get_agent_obs_keeps s) as Hk;
    destruct (get_agent_obs s) as [o e2] eqn:E end.
  simpl in Hk. intros [= -> <-]. rewrite Hk in E |- *. exact E.
Qed.

(** X15.  A [reset] that returns leaves a well-formed start of an episode: the
    immutable attributes as they were, the counter 0, no agent done, every
    agent on its start cell, and it returns the observation of that state. *)
Theorem reset_start e obs e' :
  tables_ok e → reset e = (Ret obs, e') →
  wf e' ∧ static e' = static e ∧ _step_count e' = Some 0%Z
  ∧ _agent_dones e' = Some (replicate (n_agents e) false)
  ∧ agent_pos e' = init_agent_pos e
  ∧ get_agent_obs e' = (Ret obs, e').
Proof.
  intros Ht Hr. pose proof (reset_wf e Ht) as Hwp.
  unfold wp in Hwp. rewrite Hr in Hwp.
  destruct Hwp as (? & ? & ? & ? & ?). split_and!; try done.
  exact (reset_obs e obs e' Hr).
Qed.

Lemma two_agents_tables_ok : tables_ok two_agents.
Proof. apply reset_returns_two_agents. Qed.

Lemma reset_start_witness :
  ∃ obs e', tables_ok two_agents ∧ reset two_agents = (Ret obs, e')
  ∧ wf e' ∧ static e' = static two_agents ∧ _step_count e' = Some 0%Z
  ∧ _agent_dones e' = Some (replicate (n_agents two_agents) false)
  ∧ agent_pos e' = init_agent_pos two_agents
  ∧ get_agent_obs e' = (Ret obs, e').
Proof.
  eexists _, _. split; [exact two_agents_tables_ok|].
  split; [vm_compute; reflexivity|].
  apply reset_start; [exact two_agents_tables_ok|vm_compute; reflexivity].
Defined.

(** ** [reset] starts from the immutable attributes alone *)

Lemma commutes_ret {A} f (a : A) : commutes f (mret a).
Proof. done. Qed.

Lemma commutes_raise {A} f x : commutes f (raise (A := A) x).
Proof. done. Qed.

Lemma commutes_orraise {A} f x (o : option A) : commutes f (orraise x o).
Proof. by destruct o. Qed.

Lemma commutes_gets {A} f (h : env → A) :
  (∀ e, h (f e) = h e) → commutes f (gets h).
Proof. intros Hh e. unfold gets, after. simpl. by rewrite Hh. Qed.

Lemma commutes_modify f g : (∀ e, g (f e) = f (g e)) → commutes f (modify g).
Proof. intros Hg e. unfold modify, after. simpl. by rewrite Hg. Qed.

Lemma commutes_bind {A B} f (m : M A) (k : A → M B) :
  commutes f m → (∀ a, commutes f (k a)) → commutes f (m ≫= k).
Proof.
  intros Hm Hk e. unfold mbind, M_bind. rewrite Hm. unfold after at 1.
  destruct (m e) as [[a|x] e1]; simpl; [apply Hk|done].
Qed.

Lemma commutes_for_each {A} f (xs : list A) (body : A → M unit) :
  (∀ x, commutes f (body x)) → commutes f (for_each xs body).
Proof.
  intros Hb. induction xs as [|x xs IH]; [done|].
  cbn [for_each]. apply commutes_bind; [apply Hb|by intros _].
Qed.

Lemma mark_and_draw_commutes c ds : commutes (with_progress c ds) mark_and_draw.
Proof.
  unfold mark_and_draw.
  apply commutes_bind; [by apply commutes_gets|intros d].
  apply commutes_bind.
  - apply commutes_for_each. intros item. unfold __update_agent_view.
    apply commutes_bind; [by apply commutes_gets|intros d'].
    apply commutes_bind; [apply commutes_orraise|intros p].
    apply commutes_bind; [by apply commutes_gets|intros g].
    apply commutes_bind; [apply commutes_orraise|intros g'].
    by apply commutes_modify.
  - intros _. unfold __draw_base_img.
    apply commutes_bind; [by apply commutes_gets|intros shape].
    apply commutes_bind.
    + apply commutes_for_each. intros row. apply commutes_for_each. intros col.
      apply commutes_bind; [|intros; apply commutes_ret].
      unfold __wall_exists.
      apply commutes_bind; [by apply commutes_gets|intros g].
      apply commutes_bind; [apply commutes_orraise|intros v].
      apply commutes_ret.
    + intros _. apply commutes_bind; [by apply commutes_gets|intros fin].
      apply commutes_for_each. intros item.
      apply commutes_bind; [apply commutes_orraise|intros; apply commutes_ret].
Qed.

Lemma create_grid_reads_shape e1 e2 :
  _grid_shape e1 = _grid_shape e2 →
  (__create_grid e1).1 = (__create_grid e2).1 ∧ (__create_grid e1).2 = e1.
Proof.
  intros Hs. unfold __create_grid, mbind, M_bind, gets, orraise. rewrite Hs.
  unfold mret, M_ret, raise.
  repeat (case_match; simplify_eq; try done).
Qed.

Lemma init_full_obs_unfold e :
  __init_full_obs e
  = match __create_grid (set_agent_pos (init_agent_pos e) e) with
    | (Ret g, e1) => mark_and_draw (set_full_obs g e1)
    | (Raise x, e1) => (Raise x, e1)
    end.
Proof. done. Qed.

Lemma init_full_obs_forgets e ap g c ds u e' :
  __init_full_obs e = (Ret u, e') →
  __init_full_obs (set_agent_pos ap (set_full_obs g (with_progress c ds e)))
  = (Ret u, with_progress c ds e').
Proof.
  rewrite !init_full_obs_unfold.
  set (e1 := set_agent_pos _ e).
  set (e2 := set_agent_pos _ (set_agent_pos _ _)).
  destruct (create_grid_reads_shape e1 e2 eq_refl) as [Ho Hs1].
  destruct (create_grid_reads_shape e2 e1 eq_refl) as [_ Hs2].
  destruct (__create_grid e1) as [o1 s1], (__create_grid e2) as [o2 s2].
  simpl in Ho, Hs1, Hs2. subst o2 s1 s2.
  destruct o1 as [g0|x]; [|done].
  change (set_full_obs g0 e2) with (with_progress c ds (set_full_obs g0 e1)).
  rewrite mark_and_draw_commutes. by intros ->.
Qed.

Lemma static_split e1 e2 :
  static e1 = static e2 →
  e2 = set_agent_pos (agent_pos e2)
         (set_full_obs (_full_obs e2)
            (with_progress (_step_count e2) (_agent_dones e2) e1)).
Proof.
  destruct e1, e2. unfold static. simpl. intros H. by simplify_eq.
Qed.

(** X16.  What a returning [reset] returns and leaves depends on the immutable
    attributes alone: from two states that agree on them, whatever their
    counters, done flags, positions and live grids, [reset] gives the same
    observation and the same state. *)
Theorem reset_forgets e1 e2 obs e' :
  static e1 = static e2 → reset e1 = (Ret obs, e') → reset e2 = (Ret obs, e').
Proof.
  intros Hst. rewrite (static_split e1 e2 Hst).
  generalize (agent_pos e2) (_full_obs e2) (_step_count e2) (_agent_dones e2).
  intros ap g c ds. unfold reset.
  unfold mbind at 1 5, M_bind at 1 5.
  destruct (__init_full_obs e1) as [[u|x] e3] eqn:Hinit; [|done].
  rewrite (init_full_obs_forgets e1 ap g c ds u e3 Hinit). done.
Qed.

Lemma reset_forgets_witness :
  ∃ obs e', static two_agents = static (set_agent_pos [] (set_agent_dones (Some [true]) (set_step_count (Some 7%Z) two_agents)))
  ∧ reset two_agents = (Ret obs, e')
  ∧ reset (set_agent_pos [] (set_agent_dones (Some [true]) (set_step_count (Some 7%Z) two_agents))) = (Ret obs, e').
Proof.
  eexists _, _. split; [reflexivity|]. split; [vm_compute; reflexivity|].
  apply (reset_forgets two_agents); [reflexivity|vm_compute; reflexivity].
Defined.

Lemma dict_get_elem k (d : dict) p : dict_get k d = Some p → p ∈ d.*2.
Proof.
  induction d as [|[k' v] d IH]; [done|]. simpl.
  destruct (Nat.eqb k k').
  - intros [= ->]. left.
  - intros H. right. by apply IH.
Qed.

(** X17.  After a [reset] that returns, a cell on which no agent starts is as
    [__create_grid] makes it, whatever the live grid was before: 0 on the
    middle row and the outer columns, -1 elsewhere. *)
Theorem reset_clears_grid e obs e' q :
  tables_ok e → reset e = (Ret obs, e') →
  in_bounds (_grid_shape e) q → q ∉ (init_agent_pos e).*2 →
  nd_get (_full_obs e') q
  = Some (if decide (free_cell (_grid_shape e) q) then 0 else -1)%Z.
Proof.
  intros (_ & _ & Hnonneg & _) Hreset Hq Hnot.
  set (d := init_agent_pos e) in *.
  set (v := (if decide (free_cell (_grid_shape e) q) then 0 else -1)%Z).
  assert (Hwp : wp reset (λ _ e1, nd_get (_full_obs e1) q = Some v)
                  (λ _ _, True) e).
  { unfold reset, __init_full_obs.
    apply wp_bind, wp_bind, wp_gets, wp_bind, wp_modify, wp_bind. fold d.
    set (e1 := set_agent_pos d e).
    destruct (decide ((_grid_shape e).1 = 0 ∨ (_grid_shape e).2 < 2)) as [Hs|Hs].
    { unfold wp. by rewrite (create_grid_small e1 Hs). }
    destruct (create_grid_cells e1) as (g0 & Hg0 & Hr0 & Hcells);
      [simpl; lia|simpl; lia|].
    unfold wp at 1. rewrite Hg0.
    apply wp_bind, wp_modify, wp_bind, wp_gets. simpl. apply wp_bind.
    set (Inv := λ (_ : nat) (e2 : env), ∃ g,
      e2 = set_full_obs g e1 ∧ rect (_grid_shape e) g ∧ nd_get g q = Some v).
    eapply wp_mono; [apply (wp_for_each d _ Inv (λ _ _, True))| |done].
    - intros k [k' p0] e2 _ (g & -> & Hr & Hg). simpl.
      unfold __update_agent_view. apply wp_bind, wp_gets, wp_bind. simpl.
      destruct (dict_get k' d) as [p|] eqn:Hget; [|by apply wp_raise].
      eapply wp_orraise_Some; [done|].
      apply wp_bind, wp_gets, wp_bind. simpl.
      destruct (nd_set g p (Z.of_nat k' + 1)) as [g'|] eqn:Hs';
        [|by apply wp_raise].
      eapply wp_orraise_Some; [done|]. apply wp_modify.
      pose proof (dict_get_elem _ _ _ Hget) as Hin.
      assert (Hp : (0 ≤ p.1 ∧ 0 ≤ p.2)%Z).
      { rewrite list.Forall_forall in Hnonneg. by apply Hnonneg. }
      assert (Hb : in_bounds (_grid_shape e) p).
      { eapply nd_set_Some_in_bounds; [exact Hr|apply Hp|apply Hp|exact Hs']. }
      destruct (nd_set_in _ _ p (Z.of_nat k' + 1)%Z Hr Hb)
        as (g'' & Hs'' & Hr' & _ & Ho').
      assert (g'' = g') as -> by congruence.
      exists g'. split_and!; [done|done|].
      rewrite Ho'; [done|done|]. intros ->. by apply Hnot.
    - exists g0. split_and!; [done|exact Hr0|]. by apply Hcells.
    - intros [] e2 (g & -> & Hr & Hg). simpl.
      eapply wp_mono; [apply draw_base_img_pure| |done].
      intros [] ? ->. simpl.
      apply wp_bind, wp_modify, wp_bind, wp_gets, wp_bind, wp_modify. simpl.
      unfold wp.
      match goal with |- context [get_agent_obs ?s] =>
        pose proof (get_agent_obs_keeps s) as Hk;
        destruct (get_agent_obs s) as [[o|x] e3] end; [|done].
      simpl in Hk. by subst e3. }
  unfold wp in Hwp. by rewrite Hreset in Hwp.
Qed.

Lemma reset_clears_grid_witness :
  ∃ obs e', tables_ok two_agents ∧ reset two_agents = (Ret obs, e')
  ∧ in_bounds (_grid_shape two_agents) (0, 3)%Z
  ∧ ((0, 3)%Z ∉ (init_agent_pos two_agents).*2)
  ∧ nd_get (_full_obs e') (0, 3)%Z
    = Some (if decide (free_cell (_grid_shape two_agents) (0, 3)%Z)
            then 0 else -1)%Z.
Proof.
  assert (Hb : in_bounds (_grid_shape two_agents) (0, 3)%Z)
    by (split; simpl; lia).
  assert (Hn : (0, 3)%Z ∉ (init_agent_pos two_agents).*2).
  { apply (bool_decide_unpack _). vm_compute. exact I. }
  eexists _, _. split; [exact two_agents_tables_ok|].
  split; [vm_compute; reflexivity|]. split; [exact Hb|]. split; [exact Hn|].
  eapply (reset_clears_grid two_agents);
    [exact two_agents_tables_ok|vm_compute; reflexivity|exact Hb|exact Hn].
Defined.

(** ** [step] *)

(** X18.  Before the first [reset] the counter is [None]: [step] raises
    [TypeError] on incrementing it and changes nothing. *)
Theorem step_before_reset acts e :
  _step_count e = None → step acts e = (Raise TypeError, e).
Proof. intros Hc. unfold step, mbind, M_bind, gets. by rewrite Hc. Qed.

Lemma step_before_reset_witness :
  _step_count two_agents = None
  ∧ step [0; 0]%Z two_agents = (Raise TypeError, two_agents).
Proof. split; [reflexivity|]. by apply step_before_reset. Defined.

Lemma step_obs acts e r e' :
  step acts e = (Ret r, e') → get_agent_obs e' = (Ret r.1.1, e').
Proof.
  intros Hstep.
  assert (Hwp : wp (step acts) (λ r e', get_agent_obs e' = (Ret r.1.1, e'))
                  (λ _ _, True) e).
  { unfold step. apply wp_bind, wp_gets, wp_bind.
    destruct (_step_count e) as [c|]; [|by apply wp_raise].
    eapply wp_orraise_Some; [done|].
    apply wp_bind, wp_modify, wp_bind, wp_gets, wp_bind, wp_gets, wp_bind.
    apply wp_any; [|done]. intros rw e1.
    apply wp_bind, wp_gets, wp_bind.
    destruct (_step_count e1) as [c1|]; [|by apply wp_raise].
    eapply wp_orraise_Some; [done|].
    apply wp_bind, wp_gets, wp_bind.
    apply wp_any; [|done]. intros [] e2.
    apply wp_bind. unfold wp at 1.
    pose proof (get_agent_obs_keeps e2) as Hk.
    destruct (get_agent_obs e2) as [[obs|x] e3] eqn:E; [|done].
    simpl in Hk. subst e3.
    apply wp_bind, wp_gets, wp_bind.
    destruct (_agent_dones e2) as [ds|]; [|by apply wp_raise].
    eapply wp_orraise_Some; [done|]. apply wp_ret. exact E. }
  unfold wp in Hwp. by rewrite Hstep in Hwp.
Qed.

(** X19.  The observation [step] returns is the one [get_agent_obs] gives in the
    state [step] leaves: the positions after the moves and the counter
    after the increment. *)
Theorem step_returns_current_obs acts e r e' :
  step acts e = (Ret r, e') → get_agent_obs e' = (Ret r.1.1, e').
Proof. apply step_obs. Qed.

Lemma step_returns_current_obs_witness :
  ∃ r e', step right_noop sample = (Ret r, e')
  ∧ get_agent_obs e' = (Ret r.1.1, e').
Proof.
  eexists _, _. split; [vm_compute; reflexivity|].
  apply (step_returns_current_obs right_noop sample). vm_compute. reflexivity.
Defined.

Lemma walls_kept_trans e e1 e2 :
  _grid_shape e1 = _grid_shape e →
  walls_kept e e1 → walls_kept e1 e2 → walls_kept e e2.
Proof.
  intros Hs H1 H2 q Hq Hw. apply H2; [by rewrite Hs|]. by apply H1.
Qed.

(** X20.  Whether [step] returns or raises, it leaves a well-formed state, the
    immutable attributes as they were, and every wall of the live grid a
    wall. *)
Theorem step_keeps_invariant acts e :
  wf e →
  wf (step acts e).2 ∧ static (step acts e).2 = static e
  ∧ walls_kept e (step acts e).2.
Proof.
  intros Hwf. destruct (wf_count e Hwf) as [c Hc].
  apply (wp_snd (step acts)
    (λ e', wf e' ∧ static e' = static e ∧ walls_kept e e')).
  apply (step_spec acts e c (λ _ _ e1, walls_kept e e1)); try done.
  - by intros q Hq Hw.
  - intros k a rw e1 rw' e2 _ Hk Hwf1 Hsame _ Hw1 Hpost.
    destruct (same_episode_fields _ _ Hsame) as (Hshape & Hn & _).
    simpl in Hshape, Hn.
    eapply walls_kept_trans; [exact Hshape|exact Hw1|].
    apply (body_post_walls_kept k a rw e1 rw' e2); [done|lia|done].
  - intros k a rw e1 _ _ Hwf1 [Hs _] Hw1 _ _. by split_and!.
  - intros rw e1 _ Hwf1 [Hs _] Hw1. by split_and!.
  - intros rw e1 obs ds _ Hwf1 [Hs _] _ Hw1 _.
    destruct (same_episode_truncated e1) as [Hs' _].
    destruct (truncated_fields e1) as [Hfo _].
    split_and!; [by apply wf_truncated|by rewrite Hs'|].
    intros q Hq Hw. rewrite Hfo. by apply Hw1.
Qed.

Lemma step_keeps_invariant_witness :
  wf sample
  ∧ wf (step right_noop sample).2
  ∧ static (step right_noop sample).2 = static sample
  ∧ walls_kept sample (step right_noop sample).2.
Proof. split; [exact sample_wf|]. apply step_keeps_invariant, sample_wf. Defined.

(** X21.  In one [step] an agent stays or goes to a cell next to its own:
    one row or one column away, never both, whether [step] returns or
    raises. *)
Theorem step_one_cell acts e i p :
  wf e → i < n_agents e → pos_at i e = Some p →
  ∃ p', pos_at i (step acts e).2 = Some p'
    ∧ (Z.abs (p'.1 - p.1) + Z.abs (p'.2 - p.2) ≤ 1)%Z.
Proof.
  intros Hwf Hi Hp. destruct (wf_count e Hwf) as [c Hc].
  set (near := λ e1, ∃ p', pos_at i e1 = Some p'
    ∧ (Z.abs (p'.1 - p.1) + Z.abs (p'.2 - p.2) ≤ 1)%Z).
  apply (wp_snd (step acts) near).
  apply (step_spec acts e c
    (λ k _ e1, near e1 ∧ (k ≤ i → pos_at i e1 = Some p))); try done.
  - split; [|done]. exists p. split; [done|lia].
  - intros k a rw e1 rw' e2 _ _ _ _ _ [Hnear Hstill]
      (_ & _ & _ & Hothers & Hcase).
    destruct (decide (i = k)) as [->|Hne].
    + split; [|lia]. specialize (Hstill (le_n k)).
      destruct Hcase as [(_ & -> & _)
        |(_ & _ & p0 & p' & g & Hp0 & Hp' & _ & _ & _ & Hmv)]; [done|].
      assert (p0 = p) as -> by congruence.
      exists p'. split; [done|].
      destruct Hmv as [(-> & _)|(Hnb & _)]; [lia|].
      destruct Hnb as [[_ ->]|[[_ ->]|[[_ ->]|[_ ->]]]]; simpl; lia.
    + destruct (Hothers i Hne) as (Hpi & _). unfold near. rewrite Hpi.
      split; [done|]. intros Hle. apply Hstill. lia.
  - by intros k a rw e1 _ _ _ _ [Hnear _] _ _.
  - by intros rw e1 _ _ _ [Hnear _].
  - intros rw e1 obs ds _ _ _ _ [Hnear _] _.
    destruct (truncated_fields e1) as [_ Hap].
    unfold near, pos_at in *. by rewrite Hap.
Qed.

Lemma step_one_cell_witness :
  wf sample ∧ 1 < n_agents sample ∧ pos_at 1 sample = Some (1, 1)%Z
  ∧ ∃ p', pos_at 1 (step [4; 3; 4; 4]%Z sample).2 = Some p'
      ∧ (Z.abs (p'.1 - (1, 1)%Z.1) + Z.abs (p'.2 - (1, 1)%Z.2) ≤ 1)%Z.
Proof.
  split; [exact sample_wf|]. split; [simpl; lia|]. split; [reflexivity|].
  apply (step_one_cell [4; 3; 4; 4]%Z sample 1 (1, 1)%Z);
    [exact sample_wf|simpl; lia|reflexivity].
Defined.

(** X22.  When [step] returns, there were no more actions than agents, the
    counter is one more, the observations, the rewards and the done flags
    are one per agent, and every reward is 5 or the step cost. *)
Theorem step_result_shape acts e c r e' :
  wf e → _step_count e = Some c → step acts e = (Ret r, e') →
  length acts ≤ n_agents e ∧ _step_count e' = Some (c + 1)%Z
  ∧ length r.1.1 = n_agents e ∧ length (rewards_of r) = n_agents e
  ∧ length (dones_of r) = n_agents e
  ∧ Forall (λ x, x = 5%Z ∨ x = _step_cost e) (rewards_of r).
Proof.
  intros Hwf Hc Hstep.
  assert (Hwp : wp (step acts)
    (λ r e', wf e' ∧ n_agents e' = n_agents e ∧ length acts ≤ n_agents e
       ∧ _step_count e' = Some (c + 1)%Z
       ∧ length (rewards_of r) = n_agents e
       ∧ length (dones_of r) = n_agents e
       ∧ Forall (λ x, x = 5%Z ∨ x = _step_cost e) (rewards_of r))
    (λ _ _, True) e).
  { apply (step_spec acts e c
      (λ _ rw _, Forall (λ x, x = 5%Z ∨ x = _step_cost e) rw)); try done.
    - apply Forall_replicate. by right.
    - intros k a rw e1 rw' e2 _ _ _ _ _ Hrw (_ & _ & _ & _ & Hcase).
      destruct Hcase as [(_ & _ & ->)
        |(_ & _ & p0 & p' & g & _ & _ & _ & _ & -> & _)]; [done|].
      destruct (pos_eqb p' g); [|done].
      apply Forall_insert; [done|by left].
    - intros rw e1 obs ds Hlen Hwf1 Hsame Hl Hrw Hds.
      destruct (same_episode_fields _ _ Hsame) as (_ & Hn & _ & _ & _ & _ & Hcnt).
      simpl in Hn, Hcnt.
      destruct (same_episode_truncated e1) as [Hst' Hcnt'].
      destruct (static_fields _ _ Hst') as (_ & Hn' & _).
      pose proof (wf_truncated e1 Hwf1) as Hwf2.
      destruct (wf_dones _ Hwf2) as (ds' & Hds' & Hlds).
      assert (ds' = ds) as -> by congruence.
      unfold rewards_of, dones_of. simpl.
      split_and!; try done; congruence. }
  unfold wp in Hwp. rewrite Hstep in Hwp.
  destruct Hwp as (Hwf' & Hn & Hlen & Hcnt & Hlr & Hld & Hrw).
  split_and!; try done.
  destruct (get_agent_obs_lengths e' Hwf') as (obs & Hobs & Hlo & _).
  rewrite (step_obs acts e r e' Hstep) in Hobs.
  assert (obs = r.1.1) as -> by congruence. congruence.
Qed.

Lemma step_result_shape_witness :
  ∃ r e', wf sample ∧ _step_count sample = Some 0%Z
  ∧ step right_noop sample = (Ret r, e')
  ∧ length right_noop ≤ n_agents sample ∧ _step_count e' = Some (0 + 1)%Z
  ∧ length r.1.1 = n_agents sample
  ∧ length (rewards_of r) = n_agents sample
  ∧ length (dones_of r) = n_agents sample
  ∧ Forall (λ x, x = 5%Z ∨ x = _step_cost sample) (rewards_of r).
Proof.
  eexists _, _. split; [exact sample_wf|]. split; [reflexivity|].
  split; [vm_compute; reflexivity|].
  apply (step_result_shape right_noop sample 0%Z);
    [exact sample_wf|reflexivity|vm_compute; reflexivity].
Defined.

(** ** The order of the agents within one [step] *)

Lemma known_actions_returns acts e c
    (Inv : nat → list Z → env → Prop) (Q : step_result → env → Prop) :
  wf e → _step_count e = Some c → known_actions e acts →
  let e0 := set_step_count (Some (c + 1)%Z) e in
  Inv 0 (replicate (n_agents e) (_step_cost e)) e0 →
  (∀ k a rw e1 rw' e2, acts !! k = Some a → k < n_agents e → wf e1 →
     same_episode e0 e1 → length rw = n_agents e → Inv k rw e1 →
     body_post k a rw e1 rw' e2 → Inv (S k) rw' e2) →
  (∀ rw e1, wf e1 → same_episode e0 e1 → Inv (length acts) rw e1 →
     ∀ obs ds, Q (obs, rw, ds) (truncated e1)) →
  ∃ r e', step acts e = (Ret r, e') ∧ Q r e'.
Proof.
  intros Hwf Hc [Hlen Hvalid] e0 H0 Hbody Hend.
  assert (Hwp : wp (step acts) Q (λ _ _, False) e).
  { apply (step_spec acts e c Inv); try done.
    - intros k a rw e1 Ha _ _ _ _ _ Hnv. apply Hnv.
      by apply (Forall_lookup_1 _ _ _ _ Hvalid Ha).
    - intros rw e1 Hlt. lia.
    - intros rw e1 obs ds _ Hwf1 Hsame _ HI _. by apply Hend. }
  unfold wp in Hwp. destruct (step acts e) as [[r|x] e']; [eauto|done].
Qed.

(** X23.  An agent that is not done moves to the cell its action points to when
    that cell is vacant at the start of the call and no agent with a
    smaller id has an action pointing to it: the agents before it cannot
    have taken the cell, and those after it come too late. *)
Theorem uncontested_move acts e i a p q :
  wf e → known_actions e acts →
  done_at i e = Some false → acts !! i = Some a →
  pos_at i e = Some p → neighbour a p q → vacant e q →
  (∀ j aj pj, j < i → acts !! j = Some aj → pos_at j e = Some pj →
     ¬ neighbour aj pj q) →
  ∃ r e', step acts e = (Ret r, e') ∧ pos_at i e' = Some q.
Proof.
  intros Hwf Hknown Hd Ha Hp Hnb [Hqb Hq0] Hfree.
  destruct (wf_count e Hwf) as [c Hc].
  apply (known_actions_returns acts e c
    (λ k _ e1,
       (k ≤ i → done_at i e1 = Some false
                ∧ nd_get (_full_obs e1) q = Some 0%Z
                ∧ ∀ j, k ≤ j → pos_at j e1 = pos_at j e)
       ∧ (i < k → pos_at i e1 = Some q))); try done.
  - split; [|lia]. intros _. by split_and!.
  - intros k ak rw e1 rw' e2 Hak Hk Hwf1 Hsame _ [Hbefore Hafter]
      (_ & _ & _ & Hothers & Hcase).
    destruct (same_episode_fields _ _ Hsame) as (Hshape & _). simpl in Hshape.
    assert (Hqb1 : in_bounds (_grid_shape e1) q) by by rewrite Hshape.
    destruct (lt_eq_lt_dec k i) as [[Hlt|Heq]|Hgt]; [|subst k|].
    + (* an agent before [i] *)
      split; [|lia]. intros _.
      destruct Hbefore as (Hd1 & Hq1 & Hrest); [lia|].
      destruct (Hothers i) as (Hpi & Hdi & _); [lia|].
      split_and!.
      * congruence.
      * destruct Hcase as [(_ & -> & _)
          |(_ & _ & pk & p' & g & Hpk & _ & _ & _ & _ & Hmv)]; [done|].
        destruct Hmv as [(_ & -> & _)|(Hnbk & _ & Hgm)]; [done|].
        rewrite Hgm by done.
        rewrite decide_False.
        { by destruct (decide (q = pk)). }
        intros ->. apply (Hfree k ak pk Hlt Hak); [|done].
        rewrite <- Hpk. symmetry. apply Hrest. lia.
      * intros j Hj. destruct (Hothers j) as (-> & _); [lia|].
        apply Hrest. lia.
    + (* the agent itself *)
      split; [lia|]. intros _.
      destruct Hbefore as (Hd1 & Hq1 & Hrest); [lia|].
      assert (ak = a) as -> by congruence.
      assert (Hp1 : pos_at i e1 = Some p) by (rewrite Hrest; [done|lia]).
      destruct Hcase as [(Hdt & _)
        |(_ & _ & p0 & p' & g & Hp0 & Hp' & _ & _ & _ & Hmv)]; [congruence|].
      assert (p0 = p) as -> by congruence.
      destruct Hmv as [(_ & _ & _ & Hstay)|(Hnb' & _)].
      * exfalso. destruct Hstay as [->|(q' & Hnb' & Hnv)].
        { by apply neighbour_noop in Hnb. }
        apply Hnv. rewrite (neighbour_fun _ _ _ _ Hnb' Hnb). by split.
      * by rewrite (neighbour_fun _ _ _ _ Hnb Hnb').
    + (* an agent after [i] *)
      split; [lia|]. intros _.
      destruct (Hothers i) as (-> & _); [lia|]. apply Hafter. lia.
  - intros rw e1 _ _ [Hbefore Hafter] obs ds.
    destruct (truncated_fields e1) as [_ Hap]. unfold pos_at. rewrite Hap.
    apply Hafter. apply lookup_lt_Some in Ha. lia.
Qed.

Lemma uncontested_move_witness :
  wf sample ∧ known_actions sample [4; 3; 4; 4]%Z
  ∧ done_at 1 sample = Some false ∧ [4; 3; 4; 4]%Z !! 1 = Some 3%Z
  ∧ pos_at 1 sample = Some (1, 1)%Z
  ∧ neighbour 3 (1, 1)%Z (1, 2)%Z ∧ vacant sample (1, 2)%Z
  ∧ (∀ j aj pj, j < 1 → [4; 3; 4; 4]%Z !! j = Some aj →
       pos_at j sample = Some pj → ¬ neighbour aj pj (1, 2)%Z)
  ∧ ∃ r e', step [4; 3; 4; 4]%Z sample = (Ret r, e')
      ∧ pos_at 1 e' = Some (1, 2)%Z.
Proof.
  assert (Hk : known_actions sample [4; 3; 4; 4]%Z).
  { split; [simpl; lia|]. repeat constructor; unfold valid_action; lia. }
  assert (Hn : neighbour 3 (1, 1)%Z (1, 2)%Z).
  { unfold neighbour. simpl. auto. }
  assert (Hv : vacant sample (1, 2)%Z).
  { split; [split; simpl; lia|reflexivity]. }
  assert (Hf : ∀ j aj pj, j < 1 → [4; 3; 4; 4]%Z !! j = Some aj →
       pos_at j sample = Some pj → ¬ neighbour aj pj (1, 2)%Z).
  { intros j aj pj Hj Haj _. assert (j = 0) as -> by lia.
    simpl in Haj. inversion Haj. apply neighbour_noop. }
  split; [exact sample_wf|]. split; [exact Hk|]. split; [reflexivity|].
  split; [reflexivity|]. split; [reflexivity|]. split; [exact Hn|].
  split; [exact Hv|]. split; [exact Hf|].
  apply (uncontested_move [4; 3; 4; 4]%Z sample 1 3%Z (1, 1)%Z (1, 2)%Z);
    [exact sample_wf|exact Hk|reflexivity|reflexivity|reflexivity
    |exact Hn|exact Hv|exact Hf].
Defined.

(** X24.  An agent whose action points to the cell of an agent with a larger id
    stays where it is, even if that agent leaves the cell later in the same
    call: its move is decided before the other one's. *)
Theorem blocked_by_later_agent acts e i j a p q :
  wf e → i < j → j < n_agents e →
  acts !! i = Some a → pos_at i e = Some p → pos_at j e = Some q →
  neighbour a p q →
  pos_at i (step acts e).2 = Some p.
Proof.
  intros Hwf Hij Hj Ha Hp Hq Hnb. destruct (wf_count e Hwf) as [c Hc].
  apply (wp_snd (step acts) (λ e1, pos_at i e1 = Some p)).
  apply (step_spec acts e c
    (λ k _ e1, pos_at i e1 = Some p ∧ (k ≤ i → pos_at j e1 = Some q)));
    try done.
  - intros k ak rw e1 rw' e2 Hak Hk Hwf1 Hsame _ [Hp1 Hq1]
      (_ & _ & _ & Hothers & Hcase).
    destruct (same_episode_fields _ _ Hsame) as (_ & Hn & _). simpl in Hn.
    destruct (decide (k = i)) as [->|Hne].
    + split; [|lia]. specialize (Hq1 (le_n i)).
      assert (ak = a) as -> by congruence.
      destruct Hcase as [(_ & -> & _)
        |(_ & _ & p0 & p' & g & Hp0 & Hp' & _ & _ & _ & Hmv)]; [done|].
      assert (p0 = p) as -> by congruence.
      destruct Hmv as [(-> & _)|(Hnb' & [_ Hv] & _)]; [done|].
      exfalso. rewrite <- (neighbour_fun _ _ _ _ Hnb Hnb') in Hv.
      destruct (wf_pos e1 Hwf1 j) as (qj & Hqj & _ & Hcode); [lia|].
      assert (qj = q) as -> by congruence. rewrite Hcode in Hv.
      inversion Hv. lia.
    + destruct (Hothers i) as (-> & _); [done|]. split; [done|].
      intros Hle. destruct (Hothers j) as (-> & _); [lia|]. apply Hq1. lia.
  - by intros k ak rw e1 _ _ _ _ [Hp1 _] _ _.
  - by intros rw e1 _ _ _ [Hp1 _].
  - intros rw e1 obs ds _ _ _ _ [Hp1 _] _.
    destruct (truncated_fields e1) as [_ Hap]. unfold pos_at. by rewrite Hap.
Qed.

Lemma blocked_by_later_agent_witness :
  wf sample ∧ 0 < 1 ∧ 1 < n_agents sample
  ∧ [0; 3; 4; 4]%Z !! 0 = Some 0%Z
  ∧ pos_at 0 sample = Some (0, 1)%Z ∧ pos_at 1 sample = Some (1, 1)%Z
  ∧ neighbour 0 (0, 1)%Z (1, 1)%Z
  ∧ pos_at 0 (step [0; 3; 4; 4]%Z sample).2 = Some (0, 1)%Z.
Proof.
  assert (Hn : neighbour 0 (0, 1)%Z (1, 1)%Z).
  { unfold neighbour. simpl. auto. }
  split; [exact sample_wf|]. split; [lia|]. split; [simpl; lia|].
  split; [reflexivity|]. split; [reflexivity|]. split; [reflexivity|].
  split; [exact Hn|].
  apply (blocked_by_later_agent [0; 3; 4; 4]%Z sample 0 1 0%Z (0, 1)%Z (1, 1)%Z);
    [exact sample_wf|lia|simpl; lia|reflexivity|reflexivity|reflexivity
    |exact Hn].
Defined.

Lemma neighbour_ne a p q : neighbour a p q → p ≠ q.
Proof.
  destruct p as [r c]. intros H <-.
  destruct H as [[_ H]|[[_ H]|[[_ H]|[_ H]]]]; inversion H; lia.
Qed.

(** X25.  An agent can follow one with a smaller id: when agent [i] moves away to
    a vacant cell nobody before it points to, an agent [j] after it whose
    action points to the cell [i] leaves moves into that cell in the same
    call, unless an agent between the two points to it as well. *)
Theorem follows_earlier_agent acts e i j ai aj pi qi pj :
  wf e → known_actions e acts → i < j →
  done_at i e = Some false → done_at j e = Some false →
  acts !! i = Some ai → acts !! j = Some aj →
  pos_at i e = Some pi → pos_at j e = Some pj →
  neighbour ai pi qi → vacant e qi → neighbour aj pj pi →
  (∀ k ak pk, k < i → acts !! k = Some ak → pos_at k e = Some pk →
     ¬ neighbour ak pk qi) →
  (∀ k ak pk, i < k → k < j → acts !! k = Some ak → pos_at k e = Some pk →
     ¬ neighbour ak pk pi) →
  ∃ r e', step acts e = (Ret r, e')
    ∧ pos_at i e' = Some qi ∧ pos_at j e' = Some pi.
Proof.
  intros Hwf Hknown Hij Hdi Hdj Hai Haj Hpi Hpj Hnbi [Hqb Hq0] Hnbj
    Hfree1 Hfree2.
  destruct (wf_count e Hwf) as [c Hc].
  assert (Hi : i < n_agents e).
  { apply lookup_lt_Some in Hai. destruct Hknown. lia. }
  assert (Hpib : in_bounds (_grid_shape e) pi).
  { destruct (wf_pos e Hwf i Hi) as (p & Hp & Hb & _). congruence. }
  apply (known_actions_returns acts e c
    (λ k _ e1,
       (k ≤ j → done_at j e1 = Some false
                ∧ ∀ m, k ≤ m → pos_at m e1 = pos_at m e)
       ∧ (k ≤ i → done_at i e1 = Some false
                  ∧ nd_get (_full_obs e1) qi = Some 0%Z)
       ∧ (i < k → pos_at i e1 = Some qi)
       ∧ (i < k → k ≤ j → nd_get (_full_obs e1) pi = Some 0%Z)
       ∧ (j < k → pos_at j e1 = Some pi))); try done.
  - split_and!; try lia; by intros _.
  - intros k ak rw e1 rw' e2 Hak Hk Hwf1 Hsame _
      (Hpending & Hbefore & Hmoved & Hfreed & Hfollowed)
      (_ & _ & _ & Hothers & Hcase).
    destruct (same_episode_fields _ _ Hsame) as (Hshape & _). simpl in Hshape.
    assert (Hqb1 : in_bounds (_grid_shape e1) qi) by by rewrite Hshape.
    assert (Hpib1 : in_bounds (_grid_shape e1) pi) by by rewrite Hshape.
    assert (Hkeep : ∀ m, m ≠ k → pos_at m e2 = pos_at m e1
                                 ∧ done_at m e2 = done_at m e1).
    { intros m Hm. by destruct (Hothers m Hm) as (? & ? & _). }
    assert (Hgrid : ∀ c0, in_bounds (_grid_shape e1) c0 →
      nd_get (_full_obs e1) c0 = Some 0%Z →
      (∀ pk, pos_at k e1 = Some pk → ¬ neighbour ak pk c0) →
      nd_get (_full_obs e2) c0 = Some 0%Z).
    { intros c0 Hc0 Hz Hno.
      destruct Hcase as [(_ & -> & _)
        |(_ & _ & pk & p' & g & Hpk & _ & _ & _ & _ & Hmv)]; [done|].
      destruct Hmv as [(_ & -> & _)|(Hnbk & _ & Hgm)]; [done|].
      rewrite Hgm by done. rewrite decide_False.
      { by destruct (decide (c0 = pk)). }
      intros ->. by apply (Hno pk). }
    destruct (lt_eq_lt_dec k i) as [[Hlt|Heq]|Hgt]; [|subst k|].
    + (* before [i] *)
      destruct Hpending as (Hdj1 & Hrest); [lia|].
      destruct Hbefore as (Hdi1 & Hq1); [lia|].
      split_and!; try (intros; lia).
      * intros _. split.
        -- destruct (Hkeep j) as [_ ->]; [lia|done].
        -- intros m Hm. destruct (Hkeep m) as [-> _]; [lia|]. apply Hrest. lia.
      * intros _. split.
        -- destruct (Hkeep i) as [_ ->]; [lia|done].
        -- apply Hgrid; [done|done|]. intros pk Hpk.
           apply (Hfree1 k ak pk Hlt Hak). rewrite <- Hpk. symmetry.
           apply Hrest. lia.
    + (* agent [i] moves *)
      destruct Hpending as (Hdj1 & Hrest); [lia|].
      destruct Hbefore as (Hdi1 & Hq1); [lia|].
      assert (ak = ai) as -> by congruence.
      assert (Hp1 : pos_at i e1 = Some pi) by (rewrite Hrest; [done|lia]).
      destruct Hcase as [(Hdt & _)
        |(_ & _ & p0 & p' & g & Hp0 & Hp' & _ & _ & _ & Hmv)]; [congruence|].
      assert (p0 = pi) as -> by congruence.
      destruct Hmv as [(_ & _ & _ & Hstay)|(Hnb' & _ & Hgm)].
      { exfalso. destruct Hstay as [->|(q' & Hnb' & Hnv)].
        - by apply neighbour_noop in Hnbi.
        - apply Hnv. rewrite (neighbour_fun _ _ _ _ Hnb' Hnbi). by split. }
      assert (p' = qi) as -> by apply (neighbour_fun _ _ _ _ Hnb' Hnbi).
      split_and!; try (intros; lia).
      * intros _. split.
        -- destruct (Hkeep j) as [_ ->]; [lia|done].
        -- intros m Hm. destruct (Hkeep m) as [-> _]; [lia|]. apply Hrest. lia.
      * by intros _.
      * intros _ _. rewrite Hgm by done.
        rewrite decide_False by by apply neighbour_ne in Hnbi.
        by rewrite decide_True.
    + destruct (lt_eq_lt_dec k j) as [[Hlt|Heq]|Hgt']; [|subst k|].
      * (* between [i] and [j] *)
        destruct Hpending as (Hdj1 & Hrest); [lia|].
        split_and!; try (intros; lia).
        -- intros _. split.
           ++ destruct (Hkeep j) as [_ ->]; [lia|done].
           ++ intros m Hm. destruct (Hkeep m) as [-> _]; [lia|].
              apply Hrest. lia.
        -- intros _. destruct (Hkeep i) as [-> _]; [lia|]. apply Hmoved. lia.
        -- intros _ _. apply Hgrid; [done|apply Hfreed; lia|].
           intros pk Hpk. apply (Hfree2 k ak pk Hgt Hlt Hak).
           rewrite <- Hpk. symmetry. apply Hrest. lia.
      * (* agent [j] follows *)
        destruct Hpending as (Hdj1 & Hrest); [lia|].
        assert (ak = aj) as -> by congruence.
        assert (Hp1 : pos_at j e1 = Some pj) by (rewrite Hrest; [done|lia]).
        assert (Hz : nd_get (_full_obs e1) pi = Some 0%Z) by (apply Hfreed; lia).
        destruct Hcase as [(Hdt & _)
          |(_ & _ & p0 & p' & g & Hp0 & Hp' & _ & _ & _ & Hmv)]; [congruence|].
        assert (p0 = pj) as -> by congruence.
        destruct Hmv as [(_ & _ & _ & Hstay)|(Hnb' & _ & Hgm)].
        { exfalso. destruct Hstay as [->|(q' & Hnb' & Hnv)].
          - by apply neighbour_noop in Hnbj.
          - apply Hnv. rewrite (neighbour_fun _ _ _ _ Hnb' Hnbj). by split. }
        assert (p' = pi) as -> by apply (neighbour_fun _ _ _ _ Hnb' Hnbj).
        split_and!; try (intros; lia).
        -- intros _. destruct (Hkeep i) as [-> _]; [lia|]. apply Hmoved. lia.
        -- by intros _.
      * (* after [j] *)
        split_and!; try (intros; lia).
        -- intros _. destruct (Hkeep i) as [-> _]; [lia|]. apply Hmoved. lia.
        -- intros _. destruct (Hkeep j) as [-> _]; [lia|]. apply Hfollowed. lia.
  - intros rw e1 _ _ (_ & _ & Hmoved & _ & Hfollowed) obs ds.
    destruct (truncated_fields e1) as [_ Hap]. unfold pos_at. rewrite Hap.
    apply lookup_lt_Some in Haj. split; [apply Hmoved|apply Hfollowed]; lia.
Qed.

Lemma follows_earlier_agent_witness :
  wf sample ∧ known_actions sample [1; 2; 4; 4]%Z ∧ 0 < 1
  ∧ done_at 0 sample = Some false ∧ done_at 1 sample = Some false
  ∧ [1; 2; 4; 4]%Z !! 0 = Some 1%Z ∧ [1; 2; 4; 4]%Z !! 1 = Some 2%Z
  ∧ pos_at 0 sample = Some (0, 1)%Z ∧ pos_at 1 sample = Some (1, 1)%Z
  ∧ neighbour 1 (0, 1)%Z (0, 0)%Z ∧ vacant sample (0, 0)%Z
  ∧ neighbour 2 (1, 1)%Z (0, 1)%Z
  ∧ (∀ k ak pk, k < 0 → [1; 2; 4; 4]%Z !! k = Some ak →
       pos_at k sample = Some pk → ¬ neighbour ak pk (0, 0)%Z)
  ∧ (∀ k ak pk, 0 < k → k < 1 → [1; 2; 4; 4]%Z !! k = Some ak →
       pos_at k sample = Some pk → ¬ neighbour ak pk (0, 1)%Z)
  ∧ ∃ r e', step [1; 2; 4; 4]%Z sample = (Ret r, e')
      ∧ pos_at 0 e' = Some (0, 0)%Z ∧ pos_at 1 e' = Some (0, 1)%Z.
Proof.
  assert (Hk : known_actions sample [1; 2; 4; 4]%Z).
  { split; [simpl; lia|]. repeat constructor; unfold valid_action; lia. }
  assert (Hn0 : neighbour 1 (0, 1)%Z (0, 0)%Z).
  { unfold neighbour. simpl. auto. }
  assert (Hn1 : neighbour 2 (1, 1)%Z (0, 1)%Z).
  { unfold neighbour. simpl. auto. }
  assert (Hv : vacant sample (0, 0)%Z).
  { split; [split; simpl; lia|reflexivity]. }
  assert (Hf1 : ∀ k ak pk, k < 0 → [1; 2; 4; 4]%Z !! k = Some ak →
       pos_at k sample = Some pk → ¬ neighbour ak pk (0, 0)%Z)
    by (intros; lia).
  assert (Hf2 : ∀ k ak pk, 0 < k → k < 1 → [1; 2; 4; 4]%Z !! k = Some ak →
       pos_at k sample = Some pk → ¬ neighbour ak pk (0, 1)%Z)
    by (intros; lia).
  split; [exact sample_wf|]. split; [exact Hk|]. split; [lia|].
  split; [reflexivity|]. split; [reflexivity|]. split; [reflexivity|].
  split; [reflexivity|]. split; [reflexivity|]. split; [reflexivity|].
  split; [exact Hn0|]. split; [exact Hv|]. split; [exact Hn1|].
  split; [exact Hf1|]. split; [exact Hf2|].
  apply (follows_earlier_agent [1; 2; 4; 4]%Z sample 0 1 1%Z 2%Z
           (0, 1)%Z (0, 0)%Z (1, 1)%Z);
    [exact sample_wf|exact Hk|lia|reflexivity|reflexivity|reflexivity
    |reflexivity|reflexivity|reflexivity|exact Hn0|exact Hv|exact Hn1
    |exact Hf1|exact Hf2].
Defined.

(** ** Sequences of calls *)

(** X26.  The counter counts the calls: after any number of [step] calls with
    known actions it is that much more, past [_max_steps] too; nothing
    stops or resets it but [reset]. *)
Theorem run_counts actions : ∀ e c,
  wf e → _step_count e = Some c → Forall (known_actions e) actions →
  ∃ rs e', run actions e = (Ret rs, e') ∧ length rs = length actions
    ∧ wf e' ∧ static e' = static e
    ∧ _step_count e' = Some (c + Z.of_nat (length actions))%Z.
Proof.
  induction actions as [|acts actions IH]; intros e c Hwf Hc Hall.
  { exists [], e. split_and!; try done. rewrite Hc. f_equal. simpl. lia. }
  apply Forall_cons_1 in Hall as [Hacts Hall].
  destruct (known_actions_returns acts e c (λ _ _ _, True)
    (λ _ e', wf e' ∧ static e' = static e
             ∧ _step_count e' = Some (c + 1)%Z) Hwf Hc Hacts)
    as (r & e1 & Hstep & Hwf1 & Hst & Hc1); [done|done| |].
  { intros rw e1 Hwf1 Hsame _ obs ds.
    destruct (same_episode_truncated e1) as [Hst' Hcnt'].
    destruct Hsame as [Hst Hcnt]. simpl in Hcnt.
    split_and!; [by apply wf_truncated|by rewrite Hst'|congruence]. }
  destruct (static_fields _ _ Hst) as (_ & Hn & _).
  destruct (IH e1 (c + 1)%Z Hwf1 Hc1) as (rs & e2 & Hrun & Hl & Hwf2 & Hst2 & Hc2).
  { eapply Forall_impl; [|exact Hall]. intros a [? ?]. split; [lia|done]. }
  exists (r :: rs), e2. split_and!.
  - simpl. unfold mbind, M_bind. by rewrite Hstep, Hrun.
  - simpl. lia.
  - done.
  - congruence.
  - rewrite Hc2. f_equal. simpl length. lia.
Qed.

Lemma run_counts_witness :
  wf sample ∧ _step_count sample = Some 0%Z
  ∧ Forall (known_actions sample) [right_noop; right_noop]
  ∧ ∃ rs e', run [right_noop; right_noop] sample = (Ret rs, e')
      ∧ length rs = length [right_noop; right_noop]
      ∧ wf e' ∧ static e' = static sample
      ∧ _step_count e'
        = Some (0 + Z.of_nat (length [right_noop; right_noop]))%Z.
Proof.
  assert (Hk : Forall (known_actions sample) [right_noop; right_noop]).
  { repeat constructor; simpl; unfold valid_action; lia. }
  split; [exact sample_wf|]. split; [reflexivity|]. split; [exact Hk|].
  apply (run_counts [right_noop; right_noop] sample 0%Z);
    [exact sample_wf|reflexivity|exact Hk].
Defined.

(** ** Goals *)

(** X27.  An agent that stands on its goal without being done, and is told
    to stay, is rewarded 5 and becomes done in that call: the goal test
    looks at where the agent is after its round, not at whether it moved. *)
Theorem noop_on_goal_rewarded acts e i g :
  wf e → known_actions e acts →
  done_at i e = Some false → acts !! i = Some 4%Z →
  pos_at i e = Some g → goal_at i e = Some g →
  ∃ r e', step acts e = (Ret r, e')
    ∧ rewards_of r !! i = Some 5%Z ∧ dones_of r !! i = Some true
    ∧ pos_at i e' = Some g.
Proof.
  intros Hwf Hknown Hd Ha Hp Hg.
  assert (Hi : i < n_agents e).
  { apply lookup_lt_Some in Ha. destruct Hknown. lia. }
  pose proof (step_summary acts e Hwf (proj1 Hknown)) as Hwp.
  unfold wp in Hwp.
  destruct (step acts e) as [[r|x] e'].
  2:{ exfalso. apply Hwp. intros k a Hk Hdk.
      exact (known_actions_valid e acts k a Hknown Hk Hdk). }
  destruct Hwp as (c & _ & _ & _ & _ & _ & _ & _ & _ & _ & Hag).
  { intros k a Hk Hdk. exact (known_actions_valid e acts k a Hknown Hk Hdk). }
  exists r, e'. split; [done|].
  destruct (Hag i Hi) as (fin & Hround & Hdone).
  destruct Hround as [([?|Hl] & _)
    |(_ & a & p & p' & g' & Ha' & _ & Hp0 & Hp' & Hg0 & Hmv & Hr & ->)].
  - congruence.
  - apply lookup_lt_Some in Ha. lia.
  - assert (a = 4%Z) as -> by congruence.
    assert (p = g) as -> by congruence. assert (g' = g) as -> by congruence.
    assert (p' = g) as ->.
    { destruct Hmv as [->|[Hnb _]]; [done|]. by apply neighbour_noop in Hnb. }
    assert (Hgg : pos_eqb g g = true) by by apply pos_eqb_eq.
    rewrite Hgg in Hr, Hdone. by split_and!.
Qed.

Lemma noop_on_goal_rewarded_witness :
  wf (set_agent_dones (Some [false; false; false; false]) arrived)
  ∧ known_actions (set_agent_dones (Some [false; false; false; false]) arrived)
      [4; 4; 4; 4]%Z
  ∧ done_at 0 (set_agent_dones (Some [false; false; false; false]) arrived)
    = Some false
  ∧ [4; 4; 4; 4]%Z !! 0 = Some 4%Z
  ∧ pos_at 0 (set_agent_dones (Some [false; false; false; false]) arrived)
    = Some (0, 7)%Z
  ∧ goal_at 0 (set_agent_dones (Some [false; false; false; false]) arrived)
    = Some (0, 7)%Z
  ∧ ∃ r e',
      step [4; 4; 4; 4]%Z
        (set_agent_dones (Some [false; false; false; false]) arrived)
      = (Ret r, e')
      ∧ rewards_of r !! 0 = Some 5%Z ∧ dones_of r !! 0 = Some true
      ∧ pos_at 0 e' = Some (0, 7)%Z.
Proof.
  assert (Hwf : wf (set_agent_dones (Some [false; false; false; false]) arrived)).
  { apply wf_set_dones; [exact arrived_wf|reflexivity]. }
  assert (Hk : known_actions
    (set_agent_dones (Some [false; false; false; false]) arrived) [4; 4; 4; 4]%Z).
  { split; [simpl; lia|]. repeat constructor; unfold valid_action; lia. }
  split; [exact Hwf|]. split; [exact Hk|]. split; [reflexivity|].
  split; [reflexivity|]. split; [reflexivity|]. split; [reflexivity|].
  apply (noop_on_goal_rewarded [4; 4; 4; 4]%Z _ 0 (0, 7)%Z);
    [exact Hwf|exact Hk|reflexivity|reflexivity|reflexivity|reflexivity].
Defined.

(** ** Positions stay on the board *)

(** X28.  From a well-formed state whose live grid has the walls of the
    base grid, every agent is in bounds and off the walls of the base grid
    after any sequence of [step] calls, whatever the action lists are and
    whether the calls return or raise. *)
Theorem agents_stay_on_board e actions :
  wf e → walls_agree e → on_board (run actions e).2.
Proof. apply run_on_board. Qed.

Lemma sample_walls_agree : walls_agree sample.
Proof.
  intros [r c] [Hr Hc] Hb. simpl in Hr, Hc.
  assert (Hrs : (r = 0 ∨ r = 1)%Z) by lia.
  assert (Hcs : (c = 0 ∨ c = 1 ∨ c = 2 ∨ c = 3 ∨ c = 4 ∨ c = 5 ∨ c = 6
                 ∨ c = 7)%Z) by lia.
  destruct Hrs as [->| ->];
    destruct Hcs as [->|[->|[->|[->|[->|[->|[->| ->]]]]]]];
    vm_compute in Hb |- *; congruence.
Qed.

Lemma agents_stay_on_board_witness :
  wf sample ∧ walls_agree sample
  ∧ on_board (run [right_noop; [0; 3; 9; 4]%Z] sample).2.
Proof.
  split; [exact sample_wf|]. split; [exact sample_walls_agree|].
  apply agents_stay_on_board; [exact sample_wf|exact sample_walls_agree].
Defined.

End CrossOver.
